(** * publish_docfx_to_confluence: reconciliation and link rewriting

    A shallow embedding of [scripts/publish_docfx_to_confluence.py].

    - Python values the script handles dynamically (decoded JSON replies)
      are values of [json]; an operation Python would reject at run time
      returns [Raise] with the exception class.
    - The wiki is reached through [send]: every HTTP call is appended to a
      log and answered by a [Remote], a state machine over requests.
    - The libraries the script calls (lxml, urllib, os.path, the file
      system) are the fields of a [Platform].
    - The [while True] loop of the paginated listing takes fuel. *)

From Stdlib Require Import ZArith String Ascii List Bool Lia DecimalString.
From stdpp Require Import base option list strings gmap.

Set Warnings "-register-all".
Local Open Scope Z_scope.
Local Open Scope string_scope.

(* ===================================================================== *)
(** ** Python string methods used by the script *)
(* ===================================================================== *)

(** [s.lstrip(chars)]: drop the leading characters that belong to [chars]. *)
Fixpoint lstrip (chars : list ascii) (s : string) : string :=
  match s with
  | EmptyString => EmptyString
  | String c s' => if bool_decide (c ∈ chars) then lstrip chars s' else s
  end.

Definition slash : ascii := "/"%char.

(** The three characters of ["\xef\xbb\xbf"]. *)
Definition bom_chars : list ascii :=
  [ascii_of_nat 239; ascii_of_nat 187; ascii_of_nat 191].

(** [sep.join(parts)]. *)
Fixpoint str_join (sep : string) (parts : list string) : string :=
  match parts with
  | [] => EmptyString
  | [p] => p
  | p :: rest => p +:+ sep +:+ str_join sep rest
  end.

(** Left-to-right scan of [s.replace(old, new)] for a non-empty [old]:
    [skip] counts the characters of a matched occurrence still to drop. *)
Fixpoint replace_scan (old new : string) (skip : nat) (s : string) : string :=
  match s with
  | EmptyString => EmptyString
  | String c s' =>
      match skip with
      | S k => replace_scan old new k s'
      | O =>
          if String.prefix old s
          then new +:+ replace_scan old new (String.length old - 1) s'
          else String c (replace_scan old new 0 s')
      end
  end.

(** With an empty [old], Python inserts [new] before every character and
    at the end. *)
Fixpoint replace_empty (new : string) (s : string) : string :=
  match s with
  | EmptyString => new
  | String c s' => new +:+ String c (replace_empty new s')
  end.

(** [s.replace(old, new)]: every non-overlapping occurrence, left to right. *)
Definition str_replace (old new s : string) : string :=
  match old with
  | EmptyString => replace_empty new s
  | _ => replace_scan old new 0 s
  end.

(** [sub in s] on two strings. *)
Fixpoint str_contains (sub s : string) : bool :=
  String.prefix sub s ||
  match s with
  | EmptyString => false
  | String _ s' => str_contains sub s'
  end.

(** The characters of a string, as Python iterates over it. *)
Fixpoint str_chars (s : string) : list string :=
  match s with
  | EmptyString => []
  | String c s' => String c EmptyString :: str_chars s'
  end.

(* ===================================================================== *)
(** ** Decoded JSON and Python's dynamic operations on it *)
(* ===================================================================== *)

(** What [response.json()] yields. Numbers are integers here: the script
    reads page ids, sizes and version numbers only. *)
Inductive json : Type :=
| JNull
| JBool (b : bool)
| JNum (n : Z)
| JStr (s : string)
| JArr (items : list json)
| JObj (fields : list (string * json)).

(** The exceptions the script can end with. [PyException] is the plain
    [Exception(response["message"])] the client raises itself. *)
Inductive exn : Type :=
| KeyError (key : string)
| TypeError
| AttributeError
| ValueError
| IOError
| ParserError
| PyException (message : json).

(** Result of running a piece of the script. *)
Inductive outcome (A : Type) : Type :=
| Ok (a : A)
| Raise (e : exn)
| OutOfFuel.
Arguments Ok {A} a.
Arguments Raise {A} e.
Arguments OutOfFuel {A}.

Definition obind {A B} (o : outcome A) (k : A -> outcome B) : outcome B :=
  match o with
  | Ok a => k a
  | Raise e => Raise e
  | OutOfFuel => OutOfFuel
  end.

(** Lookup in a decoded object (keys of a decoded object are distinct). *)
Fixpoint assoc (k : string) (fields : list (string * json)) : option json :=
  match fields with
  | [] => None
  | (k', v) :: rest => if String.eqb k k' then Some v else assoc k rest
  end.

Definition is_JStr (k : string) (j : json) : bool :=
  match j with
  | JStr s => String.eqb k s
  | _ => false
  end.

(** [j[k]] for a string key [k]. *)
Definition getitem (j : json) (k : string) : outcome json :=
  match j with
  | JObj fields =>
      match assoc k fields with
      | Some v => Ok v
      | None => Raise (KeyError k)
      end
  | _ => Raise TypeError
  end.

(** [k in j] for a string [k]. *)
Definition contains (k : string) (j : json) : outcome bool :=
  match j with
  | JObj fields => Ok (bool_decide (is_Some (assoc k fields)))
  | JArr items => Ok (existsb (is_JStr k) items)
  | JStr s => Ok (str_contains k s)
  | _ => Raise TypeError
  end.

(** [for x in j]. *)
Definition py_iter (j : json) : outcome (list json) :=
  match j with
  | JArr items => Ok items
  | JObj fields => Ok (map (fun kv => JStr (fst kv)) fields)
  | JStr s => Ok (map JStr (str_chars s))
  | _ => Raise TypeError
  end.

(** [j == 0]. *)
Definition py_eq_zero (j : json) : bool :=
  match j with
  | JNum n => bool_decide (n = 0)
  | JBool b => negb b
  | _ => false
  end.

(** [j + 1]. *)
Definition py_succ (j : json) : outcome json :=
  match j with
  | JNum n => Ok (JNum (n + 1))
  | JBool b => Ok (JNum ((if b then 1 else 0) + 1))
  | _ => Raise TypeError
  end.

Definition decimal (n : Z) : string := NilZero.string_of_int (Z.to_int n).

(** [repr(j)] inside a container; strings are quoted without escapes. *)
Fixpoint py_repr (j : json) : string :=
  match j with
  | JNull => "None"
  | JBool b => if b then "True" else "False"
  | JNum n => decimal n
  | JStr s => "'" +:+ s +:+ "'"
  | JArr items => "[" +:+ str_join ", " (map py_repr items) +:+ "]"
  | JObj fields =>
      "{" +:+ str_join ", "
        (map (fun kv => "'" +:+ fst kv +:+ "': " +:+ py_repr (snd kv)) fields)
      +:+ "}"
  end.

(** [str(j)] and ["{}".format(j)]. *)
Definition py_str (j : json) : string :=
  match j with
  | JStr s => s
  | _ => py_repr j
  end.

(** [d.get(k)]: a key bound to [None] reads like a missing key. *)
Definition dict_get (d : gmap string json) (k : string) : option json :=
  match d !! k with
  | None | Some JNull => None
  | Some v => Some v
  end.

(* ===================================================================== *)
(** ** The libraries and the file system the script runs against *)
(* ===================================================================== *)

(** An lxml element: tag, attributes in document order, the text before
    the first child, the children, and the text that follows the element
    inside its parent. A comment is an element whose tag is no HTML name. *)
Inductive element : Type :=
| Element (tag : string) (attrib : list (string * string))
          (text : string) (children : list element) (tail : string).

Definition tag_of (e : element) : string :=
  match e with Element t _ _ _ _ => t end.
Definition attrib_of (e : element) : list (string * string) :=
  match e with Element _ a _ _ _ => a end.
Definition text_of (e : element) : string :=
  match e with Element _ _ x _ _ => x end.
Definition getchildren (e : element) : list element :=
  match e with Element _ _ _ c _ => c end.
Definition tail_of (e : element) : string :=
  match e with Element _ _ _ _ x => x end.

(** What the script takes from outside itself.
    - [fragment_fromstring content]: lxml's
      [html.fragment_fromstring(content, create_parent="div")], the
      wrapping [div] element, or [None] when lxml raises [ParserError].
    - [tostring e]: [html.tostring(e)], decoded.
    - [urlparse_path href]: the third component of
      [urlparse.urlparse(href)], or [None] when it raises [ValueError].
    - [os_path_dirname], [os_path_join]: the functions of [os.path].
    - [readlines path]: [open(path).readlines()], or [None] when the file
      cannot be opened or read. *)
Class Platform : Type := {
  fragment_fromstring : string -> option element;
  tostring : element -> string;
  urlparse_path : string -> option string;
  os_path_dirname : string -> string;
  os_path_join : string -> string -> string;
  readlines : string -> option (list string)
}.

(** *** Attributes *)

(** [attrib.get(k)]. *)
Fixpoint attrib_get (k : string) (a : list (string * string)) : option string :=
  match a with
  | [] => None
  | (k', v) :: rest => if String.eqb k k' then Some v else attrib_get k rest
  end.

(** [attrib[k] = v]: the value is replaced in place; a new name is added
    at the end. *)
Fixpoint attrib_set (k v : string) (a : list (string * string))
  : list (string * string) :=
  match a with
  | [] => [(k, v)]
  | (k', v') :: rest =>
      if String.eqb k k' then (k, v) :: rest else (k', v') :: attrib_set k v rest
  end.

(** *** The selector [a.xref] *)

Definition is_space (c : ascii) : bool :=
  bool_decide (c ∈ [" "%char; ascii_of_nat 9; ascii_of_nat 10; ascii_of_nat 13]).

(** Split a [class] value at white space; [cur] is the token being read. *)
Fixpoint class_tokens (cur : string) (s : string) : list string :=
  match s with
  | EmptyString => match cur with EmptyString => [] | _ => [cur] end
  | String c s' =>
      if is_space c
      then match cur with
           | EmptyString => class_tokens EmptyString s'
           | _ => cur :: class_tokens EmptyString s'
           end
      else class_tokens (cur +:+ String c EmptyString) s'
  end.

Definition has_class (cls : string) (e : element) : bool :=
  match attrib_get "class" (attrib_of e) with
  | Some v => existsb (String.eqb cls) (class_tokens EmptyString v)
  | None => false
  end.

(** The test of [cssselect("a.xref")] on one element. *)
Definition is_xref_anchor (e : element) : bool :=
  String.eqb (tag_of e) "a" && has_class "xref" e.

(** An element of the tree is referred to by the child indices leading to
    it from the root. *)
Definition position : Type := list nat.

(** [root.cssselect("a.xref")]: the matching elements, the root included,
    in document order. *)
Fixpoint cssselect_xref (e : element) : list position :=
  ((if is_xref_anchor e then [[]] else []) ++
   (fix over (i : nat) (cs : list element) : list position :=
      match cs with
      | [] => []
      | c :: cs' => map (cons i) (cssselect_xref c) ++ over (S i) cs'
      end) 0%nat (getchildren e))%list.

(** The selection among consecutive children, the first having rank [i]. *)
Fixpoint select_children (i : nat) (cs : list element) : list position :=
  match cs with
  | [] => []
  | c :: cs' => (map (cons i) (cssselect_xref c) ++ select_children (S i) cs')%list
  end.

(** The element at a position. *)
Fixpoint element_at (e : element) (p : position) : option element :=
  match p with
  | [] => Some e
  | i :: p' =>
      match getchildren e !! i with
      | Some c => element_at c p'
      | None => None
      end
  end.

(** The tree after [anchor.attrib[k] = v] on the element at [p]. *)
Fixpoint set_attrib_at (e : element) (p : position) (k v : string) : element :=
  match e with
  | Element t a x cs tl =>
      match p with
      | [] => Element t (attrib_set k v a) x cs tl
      | i :: p' =>
          match cs !! i with
          | Some c => Element t a x (<[i := set_attrib_at c p' k v]> cs) tl
          | None => e
          end
      end
  end.

(* ===================================================================== *)
(** ** transform_links *)
(* ===================================================================== *)

Definition newline : string := String (ascii_of_nat 10) EmptyString.

(** ["/pages/viewpage.action?pageId={}".format(page_id)]. *)
Definition viewpage_url (page_id : json) : string :=
  "/pages/viewpage.action?pageId=" +:+ py_str page_id.

(** ["WARNING - no mapping for xref link '{}'.".format(relative_path)]. *)
Definition warn_no_xref (relative_path : string) : string :=
  "WARNING - no mapping for xref link '" +:+ relative_path +:+ "'.".

(** [base_dir + "/" + path.lstrip("/")]. *)
Definition relative_path_of (base_dir path : string) : string :=
  base_dir +:+ "/" +:+ lstrip [slash] path.

Section TransformLinks.
Context {P : Platform}.

(** One iteration of [for anchor in anchors], for the anchor at position
    [p] of the tree [root]: the tree afterwards, or the exception, and the
    lines printed. *)
Definition rewrite_anchor (base_dir : string) (mappings : gmap string json)
    (root : element) (p : position) : outcome element * list string :=
  match element_at root p with
  | None => (Ok root, [])
  | Some anchor =>
      match attrib_get "href" (attrib_of anchor) with
      | None => (Ok root, [])
      | Some href =>
          match urlparse_path href with
          | None => (Raise ValueError, [])
          | Some path =>
              let relative_path := relative_path_of base_dir path in
              match dict_get mappings relative_path with
              | None => (Ok root, [warn_no_xref relative_path])
              | Some page_id =>
                  (Ok (set_attrib_at root p "href"
                         (str_replace path (viewpage_url page_id) href)), [])
              end
          end
      end
  end.

(** The [for] loop over the selected anchors; the tree is mutated in
    place, so each iteration sees the tree the previous one left. *)
Fixpoint rewrite_anchors (base_dir : string) (mappings : gmap string json)
    (anchors : list position) (root : element)
  : outcome element * list string :=
  match anchors with
  | [] => (Ok root, [])
  | p :: rest =>
      match rewrite_anchor base_dir mappings root p with
      | (Ok root', out) =>
          let '(r, out') := rewrite_anchors base_dir mappings rest root' in
          (r, (out ++ out')%list)
      | other => other
      end
  end.

(** [b"\n".join(html.tostring(element) for element in
    content_html.getchildren())], decoded. *)
Definition serialize_children (content_html : element) : string :=
  str_join newline (map tostring (getchildren content_html)).

Definition serialized (r : outcome element) : outcome string :=
  match r with
  | Ok content_html => Ok (serialize_children content_html)
  | Raise e => Raise e
  | OutOfFuel => OutOfFuel
  end.

(** [transform_links(base_dir, content, mappings)]: the returned string,
    or the exception, and the lines printed. *)
Definition transform_links (base_dir content : string)
    (mappings : gmap string json) : outcome string * list string :=
  match fragment_fromstring content with
  | None => (Raise ParserError, [])
  | Some content_html =>
      let anchors := cssselect_xref content_html in
      let '(r, out) := rewrite_anchors base_dir mappings anchors content_html in
      (serialized r, out)
  end.

End TransformLinks.

(* ===================================================================== *)
(** ** The wiki's REST surface *)
(* ===================================================================== *)

(** The relative URLs the client builds, by template. *)
Inductive url : Type :=
| UContentList (start limit : Z)
    (* content?type=page&expand=metadata.properties.docfx&start={}&limit={} *)
| UContent                        (* content *)
| UContentId (page_id : json)     (* content/{} *)
| UProperty (page_id : json)      (* content/{}/property *)
| UPropertyDocfx (page_id : json). (* content/{}/property/docfx *)

Inductive request : Type :=
| GET (u : url)
| POST (u : url) (data : json)
| PUT (u : url) (data : json)
| DELETE (u : url).

(** The body of an HTTP response, as the client reads it. *)
Inductive reply : Type :=
| JsonBody (j : json)   (* [response.text] is the JSON document [j] *)
| EmptyBody             (* [response.text] is empty *)
| BadBody.              (* [response.text] is not JSON *)

(** The wiki: a state and the answer to each request. *)
Class Remote : Type := {
  remote_state : Type;
  handle : request -> remote_state -> reply * remote_state
}.

Section Client.
Context {R : Remote}.

(** What a run acts on: the wiki, the requests sent so far, the lines
    printed so far. *)
Record world : Type := World {
  server : remote_state;
  sent : list request;
  stdout : list string
}.

Definition M (A : Type) : Type := world -> outcome A * world.

Definition ret {A} (a : A) : M A := fun w => (Ok a, w).

Definition bind {A B} (m : M A) (k : A -> M B) : M B :=
  fun w =>
    match m w with
    | (Ok a, w') => k a w'
    | (Raise e, w') => (Raise e, w')
    | (OutOfFuel, w') => (OutOfFuel, w')
    end.

Definition raise {A} (e : exn) : M A := fun w => (Raise e, w).

Definition diverge {A} : M A := fun w => (OutOfFuel, w).

Definition lift {A} (o : outcome A) : M A := fun w => (o, w).

Definition print (s : string) : M unit :=
  fun w => (Ok tt, World (server w) (sent w) (stdout w ++ [s])%list).

Definition prints (lines : list string) : M unit :=
  fun w => (Ok tt, World (server w) (sent w) (stdout w ++ lines)%list).

(** One HTTP exchange through [self.session]. *)
Definition send (r : request) : M reply :=
  fun w =>
    let '(rep, s') := handle r (server w) in
    (Ok rep, World s' (sent w ++ [r])%list (stdout w)).

End Client.

Arguments world {_}.
Arguments M {_} A.

Notation "'do' x <- m ; k" := (bind m (fun x => k))
  (at level 10, x name, m at level 100, k at level 200).
Notation "'do' ' pat <- m ; k" := (bind m (fun x => match x with pat => k end))
  (at level 10, pat pattern, m at level 100, k at level 200).
Notation "'do' x <~ o ; k" := (bind (lift o) (fun x => k))
  (at level 10, x name, o at level 100, k at level 200).

(** [for x in xs: acc = body(acc, x)]. *)
Fixpoint for_each {R : Remote} {A X} (body : A -> X -> M A) (xs : list X) (acc : A)
  : M A :=
  match xs with
  | [] => ret acc
  | x :: rest => do acc' <- body acc x; for_each body rest acc'
  end.

(** *** Request bodies *)

Definition storage_body (content : json) : json :=
  JObj [("storage",
         JObj [("value", content); ("representation", JStr "storage")])].

Definition page_document (title space_key content : json) : list (string * json) :=
  [("type", JStr "page");
   ("title", title);
   ("space", JObj [("key", space_key)]);
   ("body", storage_body content)].

(** The metadata value attached to a page. *)
Definition docfx_value (docfx_uid docfx_href : string) : json :=
  JObj [("description", JStr "DocFX page properties");
        ("content", JObj [("docfx_uid", JStr docfx_uid);
                          ("docfx_href", JStr docfx_href)])].

(** The body of [POST content/<id>/property]. *)
Definition docfx_property (docfx_uid docfx_href : string) : json :=
  JObj [("key", JStr "docfx"); ("value", docfx_value docfx_uid docfx_href)].

(** The body of [PUT content/<id>]. *)
Definition update_document (page_id : json) (title : string) (space_key : json)
    (content : string) (version : json) : json :=
  JObj ((("id", JStr (py_str page_id))
         :: page_document (JStr title) space_key (JStr content))
        ++ [("version", JObj [("number", version)])])%list.

Section ConfluenceClient.
Context {R : Remote}.

Definition get_json (relative_url : url) : M json :=
  do response <- send (GET relative_url);
  match response with
  | JsonBody j => ret j
  | _ => raise ValueError
  end.

Definition post_json (relative_url : url) (data : json) : M json :=
  do response <- send (POST relative_url data);
  match response with
  | JsonBody j => ret j
  | _ => raise ValueError
  end.

Definition put_json (relative_url : url) (data : json) : M json :=
  do response <- send (PUT relative_url data);
  match response with
  | JsonBody j => ret j
  | _ => raise ValueError
  end.

Definition delete_json (relative_url : url) : M json :=
  do response <- send (DELETE relative_url);
  match response with
  | EmptyBody => ret (JObj [])
  | JsonBody j => ret j
  | BadBody => raise ValueError
  end.

(** [raise Exception(response["message"])]. *)
Definition raise_message {A} (response : json) : M A :=
  do message <~ getitem response "message";
  raise (PyException message).

Definition create_page (space_key title content docfx_uid docfx_href : string)
  : M json :=
  do response <- post_json UContent
    (JObj (page_document (JStr title) (JStr space_key) (JStr content)));
  do has_id <~ contains "id" response;
  if negb has_id then raise_message response else
  do page_id <~ getitem response "id";
  do response <- post_json (UProperty page_id) (docfx_property docfx_uid docfx_href);
  ret page_id.

Definition update_page (page_id : json)
    (title content docfx_uid docfx_href : string) : M json :=
  do response <- get_json (UContentId page_id);
  do has_id <~ contains "id" response;
  if negb has_id then raise_message response else
  let page := response in
  do version <~ getitem page "version";
  do page_version <~ getitem version "number";
  do space <~ getitem page "space";
  do space_key <~ getitem space "key";
  do next_version <~ py_succ page_version;
  do response <- put_json (UContentId page_id)
    (update_document page_id title space_key content next_version);
  do has_id <~ contains "id" response;
  if negb has_id then raise_message response else
  do response <- delete_json (UPropertyDocfx page_id);
  do has_message <~ contains "message" response;
  if has_message then raise_message response else
  do response <- post_json (UProperty page_id) (docfx_property docfx_uid docfx_href);
  ret page_id.

End ConfluenceClient.

(* ===================================================================== *)
(** ** The script: listing, matching, creating, updating *)
(* ===================================================================== *)

Notation "'do' x <== o ; k" := (obind o (fun x => k))
  (at level 10, x name, o at level 100, k at level 200).

(** The parsed command line. *)
Record arguments : Type := Arguments {
  docfx_manifest : string;
  confluence_space : string;
  confluence_address : string;
  confluence_user : string;
  confluence_password : string
}.

(** One entry of the cross-reference map ([uid], [href], [name]) with the
    two keys the script adds to it. *)
Record mapping : Type := Mapping {
  uid : string;
  href : string;
  name : string;
  title : option string;
  confluence_id : option json
}.

(** A record as the cross-reference map file gives it. *)
Definition reference (uid href name : string) : mapping :=
  Mapping uid href name None None.

Definition set_title (m : mapping) (t : string) : mapping :=
  Mapping (uid m) (href m) (name m) (Some t) (confluence_id m).

Definition set_confluence_id (m : mapping) (i : json) : mapping :=
  Mapping (uid m) (href m) (name m) (title m) (Some i).

(** One entry of the list [get_confluence_mappings] returns. *)
Record entry : Type := Entry {
  entry_confluence_id : json;
  entry_docfx_uid : json;
  entry_docfx_href : json
}.

Definition tab : string := String (ascii_of_nat 9) EmptyString.

(** The title ["DocFX - {name} ({uid})"], formatted from the mapping. *)
Definition derived_title (m : mapping) : string :=
  "DocFX - " +:+ name m +:+ " (" +:+ uid m +:+ ")".

Definition placeholder : string :=
  "<h1>Placeholder</h1>" +:+ newline +:+ "This page is a placeholder.".

Definition warn_no_mapping (docfx_uid : string) : string :=
  "WARNING: No mapping in Confluence for DocFX UID '" +:+ docfx_uid +:+ "'.".

Definition need_to_create (n : nat) : string :=
  "Need to create " +:+ decimal (Z.of_nat n) +:+ " new pages in confluence:".

Definition planned_line (m : mapping) (t : string) : string :=
  tab +:+ href m +:+ " (UID='" +:+ uid m +:+ "') => '" +:+ t +:+ "'".

Definition created_line (m : mapping) (i : json) : string :=
  tab +:+ tab +:+ "Created:  " +:+ href m +:+ " (UID='" +:+ uid m +:+ "') => "
  +:+ py_str i.

Definition updating_line (i : json) : string :=
  "Updating Confluence page " +:+ py_str i +:+ "...".

Definition updated_line (m : mapping) (i : json) : string :=
  tab +:+ tab +:+ "Updated: " +:+ href m +:+ " (UID='" +:+ uid m +:+ "') => "
  +:+ py_str i.

(** [step] of [get_confluence_mappings]. *)
Definition step : Z := 50.

(** The body of [for result in results["results"]]. *)
Definition collect_result (mappings : list entry) (result : json)
  : outcome (list entry) :=
  do metadata <== getitem result "metadata";
  do properties <== getitem metadata "properties";
  do has_docfx <== contains "docfx" properties;
  if negb has_docfx then Ok mappings else
  do docfx <== getitem properties "docfx";
  do value <== getitem docfx "value";
  do docfx_properties <== getitem value "content";
  do i <== getitem result "id";
  do u <== getitem docfx_properties "docfx_uid";
  do h <== getitem docfx_properties "docfx_href";
  Ok (mappings ++ [Entry i u h])%list.

Fixpoint collect_results (results : list json) (mappings : list entry)
  : outcome (list entry) :=
  match results with
  | [] => Ok mappings
  | result :: rest =>
      do mappings' <== collect_result mappings result;
      collect_results rest mappings'
  end.

(** [docfx_uid_to_confluence_id]: a dict comprehension, later entries
    overwrite earlier ones. The dict is only ever asked for string keys,
    so an entry under another hashable key is not kept; a list or an
    object as key is unhashable. *)
Fixpoint uid_table (entries : list entry) (acc : gmap string json)
  : outcome (gmap string json) :=
  match entries with
  | [] => Ok acc
  | e :: rest =>
      match entry_docfx_uid e with
      | JStr s => uid_table rest (<[s := entry_confluence_id e]> acc)
      | JArr _ | JObj _ => Raise TypeError
      | _ => uid_table rest acc
      end
  end.

(** [docfx_href_to_confluence_id]: keys are [entry["docfx_href"].lstrip("/")]. *)
Fixpoint href_table (entries : list entry) (acc : gmap string json)
  : outcome (gmap string json) :=
  match entries with
  | [] => Ok acc
  | e :: rest =>
      match entry_docfx_href e with
      | JStr s => href_table rest (<[lstrip [slash] s := entry_confluence_id e]> acc)
      | _ => Raise AttributeError
      end
  end.

(** [docfx_mapping["uid"] not in docfx_uid_to_confluence_id]. *)
Definition is_new (table : gmap string json) (m : mapping) : bool :=
  negb (bool_decide (is_Some (table !! uid m))).

(** The two lookup tables and the list [existing_mappings]. *)
Record index : Type := Index {
  docfx_uid_to_confluence_id : gmap string json;
  docfx_href_to_confluence_id : gmap string json;
  existing_mappings : list mapping
}.

Section Main.
Context {P : Platform} {R : Remote}.

(** [get_confluence_mappings]: the [while True] loop from [offset] on. *)
Fixpoint get_confluence_mappings_from (fuel : nat) (offset : Z)
    (mappings : list entry) : M (list entry) :=
  match fuel with
  | O => diverge
  | S fuel' =>
      do results <- get_json (UContentList offset step);
      do size <~ getitem results "size";
      if py_eq_zero size then ret mappings else
      do found <~ getitem results "results";
      do items <~ py_iter found;
      do mappings' <~ collect_results items mappings;
      get_confluence_mappings_from fuel' (offset + step) mappings'
  end.

Definition get_confluence_mappings (fuel : nat) : M (list entry) :=
  get_confluence_mappings_from fuel 0 [].

(** The body of the first loop of [main] (lines 40-49). *)
Definition match_existing (table : gmap string json) (existing : list mapping)
    (m : mapping) : M (list mapping) :=
  match dict_get table (uid m) with
  | None => do _ <- print (warn_no_mapping (uid m)); ret existing
  | Some i => ret (existing ++ [set_confluence_id m i])%list
  end.

(** The body of [for mapping in new_mappings] (lines 61-76). *)
Definition create_new (ix : index) (m : mapping) : M index :=
  let t := derived_title m in
  do _ <- print (planned_line m t);
  do i <- create_page "TEST" t placeholder (uid m) (href m);
  do _ <- print (created_line m i);
  ret (Index (<[uid m := i]> (docfx_uid_to_confluence_id ix))
             (<[href m := i]> (docfx_href_to_confluence_id ix))
             (existing_mappings ix ++ [set_confluence_id (set_title m t) i])%list).

(** Lines 83-90: the content of the page's file. *)
Definition read_page (base_directory page_href : string) : outcome string :=
  let page_local_path :=
    os_path_join base_directory (str_replace "/" "\" (lstrip [slash] page_href)) in
  match readlines page_local_path with
  | None => Raise IOError
  | Some lines => Ok (str_join newline (map (lstrip bom_chars) lines))
  end.

(** The body of [for mapping in existing_mappings] (lines 79-102). *)
Definition update_existing (base_directory : string)
    (mappings : gmap string json) (_ : unit) (m : mapping) : M unit :=
  let t := derived_title m in
  do _ <- print (planned_line m t);
  let page_dir := os_path_dirname (lstrip [slash] (href m)) in
  do page_content <~ read_page base_directory (href m);
  let '(transformed, warnings) := transform_links page_dir page_content mappings in
  do _ <- prints warnings;
  do page_content <~ transformed;
  do i <~ match confluence_id m with
          | Some i => Ok i
          | None => Raise (KeyError "confluence_id")
          end;
  do _ <- print (updating_line i);
  do _ <- update_page i t page_content (uid m) (href m);
  print (updated_line m i).

(** Lines 30-54: list the wiki, build the tables, split the references. *)
Definition survey (fuel : nat) (docfx_mappings : list mapping)
  : M (index * list mapping) :=
  do confluence_mappings <- get_confluence_mappings fuel;
  do by_uid <~ uid_table confluence_mappings ∅;
  do by_href <~ href_table confluence_mappings ∅;
  do existing <- for_each (match_existing by_uid) docfx_mappings [];
  let new_mappings := filter (fun m => is_new by_uid m = true) docfx_mappings in
  ret (Index by_uid by_href existing, new_mappings).

(** Lines 56-76. *)
Definition create_all (ix : index) (new_mappings : list mapping) : M index :=
  match new_mappings with
  | [] => ret ix
  | _ =>
      do _ <- print (need_to_create (length new_mappings));
      for_each create_new new_mappings ix
  end.

(** Lines 78-102. *)
Definition update_all (base_directory : string) (ix : index) : M unit :=
  for_each (update_existing base_directory (docfx_href_to_confluence_id ix))
           (existing_mappings ix) tt.

(** [main], after the command line is parsed and the cross-reference map
    is loaded into [docfx_mappings]. *)
Definition main (fuel : nat) (args : arguments) (docfx_mappings : list mapping)
  : M unit :=
  let base_directory := os_path_dirname (docfx_manifest args) in
  do '(ix, new_mappings) <- survey fuel docfx_mappings;
  do ix' <- create_all ix new_mappings;
  update_all base_directory ix'.

End Main.

(* ===================================================================== *)
(** ** A wiki that honours its interface *)
(* ===================================================================== *)

(** Modelled from the spec: the remote wiki is not part of the script;
    this is the page store behind the REST surface of section 6: a paged
    listing with the attached [docfx] property, page creation, fetch,
    update under optimistic concurrency, property attach and delete. A
    page's id is its rank in the store, so ids are never reused. *)
Record page : Type := Page {
  page_title : json;
  page_space_key : json;
  page_body : json;
  page_version : Z;
  page_docfx : option json
}.

Abbreviation store := (list page).

Definition failure (message : string) : reply :=
  JsonBody (JObj [("message", JStr message)]).

(** The page a numeric id names. *)
Definition page_index (page_id : json) : option nat :=
  match page_id with
  | JNum n => if bool_decide (0 <= n) then Some (Z.to_nat n) else None
  | _ => None
  end.

(** A page as [GET content/<id>] and the create and update calls show it. *)
Definition page_json (i : nat) (p : page) : json :=
  JObj [("id", JNum (Z.of_nat i));
        ("type", JStr "page");
        ("title", page_title p);
        ("space", JObj [("key", page_space_key p)]);
        ("version", JObj [("number", JNum (page_version p))])].

(** A page as the listing shows it, with
    [expand=metadata.properties.docfx]. *)
Definition listed_json (i : nat) (p : page) : json :=
  JObj [("id", JNum (Z.of_nat i));
        ("type", JStr "page");
        ("title", page_title p);
        ("metadata", JObj [("properties", JObj
           match page_docfx p with
           | Some v => [("docfx", JObj [("key", JStr "docfx"); ("value", v)])]
           | None => []
           end)])].

(** The listed form of consecutive pages, the first having id [i]. *)
Fixpoint listed_from (i : nat) (ps : list page) : list json :=
  match ps with
  | [] => []
  | p :: rest => listed_json i p :: listed_from (S i) rest
  end.

Definition list_pages (start limit : Z) (s : store) : json :=
  let found := take (Z.to_nat limit) (drop (Z.to_nat start) s) in
  JObj [("results", JArr (listed_from (Z.to_nat start) found));
        ("start", JNum start);
        ("limit", JNum limit);
        ("size", JNum (Z.of_nat (length found)))].

Definition new_page (data : json) : outcome page :=
  do t <== getitem data "title";
  do space <== getitem data "space";
  do key <== getitem space "key";
  do body <== getitem data "body";
  Ok (Page t key body 1 None).

Definition attach_property (data : json) (p : page) : option page :=
  match getitem data "key", getitem data "value", page_docfx p with
  | Ok (JStr "docfx"), Ok v, None =>
      Some (Page (page_title p) (page_space_key p) (page_body p)
                 (page_version p) (Some v))
  | _, _, _ => None
  end.

Definition submit_page (data : json) (p : page) : option page :=
  match getitem data "title", getitem data "body",
        obind (getitem data "version") (fun v => getitem v "number") with
  | Ok t, Ok body, Ok (JNum n) =>
      if bool_decide (n = page_version p + 1)
      then Some (Page t (page_space_key p) body n (page_docfx p))
      else None
  | _, _, _ => None
  end.

Definition detach_property (p : page) : option page :=
  match page_docfx p with
  | Some _ =>
      Some (Page (page_title p) (page_space_key p) (page_body p)
                 (page_version p) None)
  | None => None
  end.

(** Apply a change to the page an id names; [None] when there is no such
    page or the change is refused. *)
Definition change_page (page_id : json) (f : page -> option page) (s : store)
  : option (nat * page * store) :=
  match page_index page_id with
  | Some i =>
      match s !! i with
      | Some p =>
          match f p with
          | Some p' => Some (i, p', <[i := p']> s)
          | None => None
          end
      | None => None
      end
  | None => None
  end.

(** Modelled from the spec: the wiki's answer to each request of section 6,
    a failure message when the request names no page or is refused. *)
Definition store_handle (r : request) (s : store) : reply * store :=
  match r with
  | GET (UContentList start limit) => (JsonBody (list_pages start limit s), s)
  | GET (UContentId page_id) =>
      match change_page page_id Some s with
      | Some (i, p, _) => (JsonBody (page_json i p), s)
      | None => (failure "No content found", s)
      end
  | POST UContent data =>
      match new_page data with
      | Ok p => (JsonBody (page_json (length s) p), (s ++ [p])%list)
      | _ => (failure "Could not create content", s)
      end
  | POST (UProperty page_id) data =>
      match change_page page_id (attach_property data) s with
      | Some (i, p, s') => (JsonBody data, s')
      | None => (failure "Could not store the property", s)
      end
  | PUT (UContentId page_id) data =>
      match change_page page_id (submit_page data) s with
      | Some (i, p, s') => (JsonBody (page_json i p), s')
      | None => (failure "Could not update content", s)
      end
  | DELETE (UPropertyDocfx page_id) =>
      match change_page page_id detach_property s with
      | Some (_, _, s') => (EmptyBody, s')
      | None => (failure "No such property", s)
      end
  | _ => (failure "No such resource", s)
  end.

#[export] Instance store_remote : Remote :=
  {| remote_state := store; handle := store_handle |}.

(** The listing reaches its empty page after [length s / 50 + 1] requests. *)
Definition enough_fuel (s : store) : nat := S (S (length s)).

(** The creation requests among the requests sent. *)
Definition is_create (r : request) : bool :=
  match r with
  | POST UContent _ => true
  | _ => false
  end.

Definition create_calls (rs : list request) : list request :=
  List.filter is_create rs.

(** The content submissions among the requests sent. *)
Definition is_update (r : request) : bool :=
  match r with
  | PUT (UContentId _) _ => true
  | _ => false
  end.

(** The request [create_page] opens with. *)
Definition create_request (space_key title content : string) : request :=
  POST UContent (JObj (page_document (JStr title) (JStr space_key) (JStr content))).

(** The creation request the script sends for a reference. *)
Definition creation_of (m : mapping) : request :=
  create_request "TEST" (derived_title m) placeholder.

(** The command line with another target space. *)
Definition with_space (args : arguments) (space_key : string) : arguments :=
  Arguments (docfx_manifest args) space_key (confluence_address args)
            (confluence_user args) (confluence_password args).

(** The world a run starts in. *)
Definition start {R : Remote} (s : remote_state) : world := World s [] [].

(* ===================================================================== *)
(** ** A concrete platform for running the script on examples *)
(* ===================================================================== *)

(** The part of [s] before the first [c], and the part after it. *)
Fixpoint partition_at (c : ascii) (s : string) : string * option string :=
  match s with
  | EmptyString => (EmptyString, None)
  | String c' s' =>
      if bool_decide (c = c') then (EmptyString, Some s')
      else let '(before, after) := partition_at c s' in (String c' before, after)
  end.

Definition before (c : ascii) (s : string) : string := fst (partition_at c s).

(** [s] cut after its last slash: the part up to and including that
    slash, and the rest. *)
Fixpoint split_last_slash (s : string) : string * string :=
  match s with
  | EmptyString => (EmptyString, EmptyString)
  | String c s' =>
      let '(head, last) := split_last_slash s' in
      match head with
      | EmptyString =>
          if bool_decide (c = slash) then (String c EmptyString, last)
          else (EmptyString, String c last)
      | _ => (String c head, last)
      end
  end.

Definition is_alpha (c : ascii) : bool :=
  let n := nat_of_ascii c in
  ((65 <=? n) && (n <=? 90) || (97 <=? n) && (n <=? 122))%nat.

Definition is_scheme_char (c : ascii) : bool :=
  let n := nat_of_ascii c in
  (is_alpha c || (48 <=? n) && (n <=? 57)
   || bool_decide (c ∈ ["+"%char; "-"%char; "."%char]))%nat.

Definition lower (c : ascii) : ascii :=
  let n := nat_of_ascii c in
  if ((65 <=? n) && (n <=? 90))%nat then ascii_of_nat (n + 32) else c.

Fixpoint str_all (f : ascii -> bool) (s : string) : bool :=
  match s with
  | EmptyString => true
  | String c s' => f c && str_all f s'
  end.

Fixpoint str_map (f : ascii -> ascii) (s : string) : string :=
  match s with
  | EmptyString => EmptyString
  | String c s' => String (f c) (str_map f s')
  end.

Fixpoint str_has (c : ascii) (s : string) : bool :=
  match s with
  | EmptyString => false
  | String c' s' => bool_decide (c = c') || str_has c s'
  end.

(** [uses_params] of [urllib.parse]. *)
Definition uses_params : list string :=
  [EmptyString; "ftp"; "hdl"; "prospero"; "http"; "imap"; "https"; "shttp"; "rtsp";
   "rtspu"; "sip"; "sips"; "mms"; "sftp"; "tel"].

(** The scheme of a URL and what follows it. *)
Definition split_scheme (u : string) : string * string :=
  match partition_at ":"%char u with
  | (String c s as scheme, Some rest) =>
      if is_alpha c && str_all is_scheme_char scheme
      then (str_map lower scheme, rest)
      else (EmptyString, u)
  | _ => (EmptyString, u)
  end.

(** The authority after a leading [//], up to the first of [/ ? #], and
    what follows it. *)
Fixpoint split_netloc (s : string) : string * string :=
  match s with
  | EmptyString => (EmptyString, EmptyString)
  | String c s' =>
      if bool_decide (c ∈ ["/"%char; "?"%char; "#"%char]) then (EmptyString, s)
      else let '(netloc, rest) := split_netloc s' in (String c netloc, rest)
  end.

(** The path component of [urllib.parse.urlparse], after CPython's
    [urlsplit] and [_splitparams]: scheme, authority, fragment, query and
    parameters are cut off in this order. An authority with one square
    bracket but not the other is rejected. *)
Definition urlparse_path_model (u : string) : option string :=
  let '(scheme, u) := split_scheme u in
  let cut :=
    match u with
    | String "/" (String "/" rest) =>
        let '(netloc, rest) := split_netloc rest in
        if xorb (str_has "["%char netloc) (str_has "]"%char netloc)
        then None else Some rest
    | _ => Some u
    end in
  match cut with
  | None => None
  | Some u =>
      let u := before "?"%char (before "#"%char u) in
      if bool_decide (scheme ∈ uses_params)
      then let '(head, last) := split_last_slash u in
           Some (head +:+ before ";"%char last)
      else Some u
  end.

Fixpoint rstrip_slash (s : string) : string :=
  match s with
  | EmptyString => EmptyString
  | String c s' =>
      match rstrip_slash s' with
      | EmptyString =>
          if bool_decide (c = slash) then EmptyString else String c EmptyString
      | r => String c r
      end
  end.

(** [posixpath.dirname]. *)
Definition posix_dirname (p : string) : string :=
  let head := fst (split_last_slash p) in
  match rstrip_slash head with
  | EmptyString => head
  | stripped => stripped
  end.

Fixpoint ends_with_slash (s : string) : bool :=
  match s with
  | EmptyString => false
  | String c EmptyString => bool_decide (c = slash)
  | String _ s' => ends_with_slash s'
  end.

(** [posixpath.join] of two components. *)
Definition posix_join (a b : string) : string :=
  match b with
  | String "/" _ => b
  | _ =>
      match a with
      | EmptyString => b
      | _ => if ends_with_slash a then a +:+ b else a +:+ "/" +:+ b
      end
  end.

Definition dquote : string := String (ascii_of_nat 34) EmptyString.

(** A serializer for trees whose texts and attribute values hold no
    character that HTML escapes, and no void element. *)
Fixpoint plain_tostring (e : element) : string :=
  match e with
  | Element t a x cs tl =>
      "<" +:+ t
      +:+ String.concat EmptyString
            (map (fun kv => " " +:+ fst kv +:+ "=" +:+ dquote +:+ snd kv +:+ dquote) a)
      +:+ ">" +:+ x +:+ String.concat EmptyString (map plain_tostring cs)
      +:+ "</" +:+ t +:+ ">" +:+ tl
  end.

Fixpoint lookup_string {A} (k : string) (table : list (string * A)) : option A :=
  match table with
  | [] => None
  | (k', v) :: rest => if String.eqb k k' then Some v else lookup_string k rest
  end.

(** A platform for examples: POSIX paths, the URL model above, the plain
    serializer; [corpus] lists the fragments lxml is asked to parse with
    the trees it builds for them, [files] the files with their lines. *)
Definition example_platform (corpus : list (string * element))
    (files : list (string * list string)) : Platform :=
  {| fragment_fromstring := fun content => lookup_string content corpus;
     tostring := plain_tostring;
     urlparse_path := urlparse_path_model;
     os_path_dirname := posix_dirname;
     os_path_join := posix_join;
     readlines := fun path => lookup_string path files |}.

(** The [div] that [fragment_fromstring(..., create_parent="div")] wraps
    around a fragment with leading text [x] and top-level elements [cs]. *)
Definition fragment (x : string) (cs : list element) : element :=
  Element "div" [] x cs EmptyString.

(** [<a class="xref" href="/c.html#frag">C</a>]. *)
Definition anchor_c : element :=
  Element "a" [("class", "xref"); ("href", "/c.html#frag")] "C" [] EmptyString.

Definition anchor_c_markup : string :=
  "<a class=" +:+ dquote +:+ "xref" +:+ dquote +:+ " href=" +:+ dquote
  +:+ "/c.html#frag" +:+ dquote +:+ ">C</a>".

(** [<b>x</b>]. *)
Definition bold_x : element := Element "b" [] "x" [] EmptyString.

(** [<p>a</p>] followed by the text [tl], and [<p>b</p>]. *)
Definition para_a (tl : string) : element := Element "p" [] "a" [] tl.
Definition para_b : element := Element "p" [] "b" [] EmptyString.

(** The fragments of the examples with the trees lxml builds for them:
    text before the first element is the text of the wrapping [div], text
    after an element is its tail. *)
Definition link_platform : Platform :=
  example_platform
    [(anchor_c_markup, fragment EmptyString [anchor_c]);
     ("Hello<b>x</b>", fragment "Hello" [bold_x]);
     ("<b>x</b>", fragment EmptyString [bold_x]);
     ("<p>a</p><p>b</p>", fragment EmptyString [para_a EmptyString; para_b]);
     ("<p>a</p>" +:+ newline +:+ "<p>b</p>",
      fragment EmptyString [para_a newline; para_b])]
    [].

(** Rewriting leaves the markup structurally unchanged: the output parses
    to the tree the input parses to. *)
Definition structurally_unchanged {P : Platform} (base_dir content : string)
    (mappings : gmap string json) : Prop :=
  exists out,
    fst (transform_links base_dir content mappings) = Ok out /\
    fragment_fromstring out = fragment_fromstring content.

(** A wiki like [store_remote], except that it refuses to attach
    properties. *)
Definition refusing_handle (r : request) (s : store) : reply * store :=
  match r with
  | POST (UProperty _) _ => (failure "Not permitted", s)
  | _ => store_handle r s
  end.

Definition refusing_remote : Remote :=
  {| remote_state := store; handle := refusing_handle |}.

(** The identifier attached to a page, when it has one. *)
Definition attached_uid (p : page) : option json :=
  match page_docfx p with
  | Some v =>
      match obind (getitem v "content") (fun c => getitem c "docfx_uid") with
      | Ok u => Some u
      | _ => None
      end
  | None => None
  end.

(** The two-unit scenario: units [a] and [b], a wiki holding the page of
    [a] at version [v]. *)
Definition unit_a : mapping := reference "a" "a.html" "A".
Definition unit_b : mapping := reference "b" "sub/b.html" "B".

Definition page_a (v : Z) : page :=
  Page (JStr "DocFX - A (a)") (JStr "DOCS") (JStr "<p>old</p>") v
       (Some (docfx_value "a" "a.html")).

Definition scenario_platform : Platform :=
  example_platform
    [("<p>A</p>", fragment EmptyString [Element "p" [] "A" [] EmptyString]);
     ("<p>B</p>", fragment EmptyString [Element "p" [] "B" [] EmptyString])]
    [("site/a.html", ["<p>A</p>"]); ("site/sub\b.html", ["<p>B</p>"])].

Definition scenario_arguments : arguments :=
  Arguments "site/manifest.json" "DOCS" "https://wiki.example/" "user" "secret".

(* ===================================================================== *)
(** ** Notions used in the statements *)
(* ===================================================================== *)

(** What the update reads from the page it fetched: the version number
    and the space key. *)
Definition fetched (response : json) (version space_key : json) : Prop :=
  contains "id" response = Ok true /\
  obind (getitem response "version") (fun v => getitem v "number") = Ok version /\
  obind (getitem response "space") (fun s => getitem s "key") = Ok space_key.

(** The decoded reply of a [DELETE]: an empty body reads as [{}]. *)
Definition deleted (rep : reply) : option json :=
  match rep with
  | EmptyBody => Some (JObj [])
  | JsonBody j => Some j
  | BadBody => None
  end.

(** [emits Q m]: running [m] only appends to the log, and every request it
    appends satisfies [Q]. *)
Definition emits {R : Remote} {A} (Q : request -> Prop) (m : M A) : Prop :=
  forall w, exists rest, sent (snd (m w)) = (sent w ++ rest)%list /\ Forall Q rest.

(** What follows a creation whose property was refused: the page exists
    without metadata, the listing does not report it, and the next run
    asks for the same unit to be created again. *)
Definition created_page_is_invisible : Prop :=
  let created :=
    @create_page refusing_remote "TEST" "DocFX - B (b)" placeholder "b" "sub/b.html"
      (@start refusing_remote []) in
  let remote := server (snd created) in
  fst created = Ok (JNum 0) /\
  remote = [Page (JStr "DocFX - B (b)") (JStr "TEST") (storage_body (JStr placeholder))
                 1 None] /\
  fst (@get_confluence_mappings refusing_remote 5 (@start refusing_remote remote))
    = Ok [] /\
  create_calls
    (sent (snd (@main scenario_platform refusing_remote 5 scenario_arguments
                  [unit_b] (@start refusing_remote remote))))
    = [create_request "TEST" "DocFX - B (b)" placeholder].

(** The page an update leaves behind. *)
Definition updated_page (p : page) (title content docfx_uid docfx_href : string)
  : page :=
  Page (JStr title) (page_space_key p) (storage_body (JStr content))
       (page_version p + 1) (Some (docfx_value docfx_uid docfx_href)).

(** The page a creation adds. *)
Definition created_page (space_key title content docfx_uid docfx_href : string)
  : page :=
  Page (JStr title) (JStr space_key) (storage_body (JStr content)) 1
       (Some (docfx_value docfx_uid docfx_href)).

(** The references of the two-unit scenario once matched and created. *)
Definition matched_a : mapping := set_confluence_id unit_a (JNum 0).
Definition created_b : mapping :=
  set_confluence_id (set_title unit_b "DocFX - B (b)") (JNum 1).

Definition scenario_paths : gmap string json :=
  <["sub/b.html" := JNum 1]> (<["a.html" := JNum 0]> ∅).

(** The scenario after the listing pass and after the creation pass. *)
Definition surveyed_index : index :=
  Index {["a" := JNum 0]} {["a.html" := JNum 0]} [matched_a].

Definition surveyed_world (v : Z) : @world store_remote :=
  @World store_remote [page_a v]
    [GET (UContentList 0 50); GET (UContentList 50 50)]
    [warn_no_mapping "b"].

Definition created_index : index :=
  Index (<["b" := JNum 1]> {["a" := JNum 0]}) scenario_paths [matched_a; created_b].

Definition created_world (v : Z) : @world store_remote :=
  @World store_remote
    [page_a v; created_page "TEST" "DocFX - B (b)" placeholder "b" "sub/b.html"]
    [GET (UContentList 0 50); GET (UContentList 50 50);
     create_request "TEST" "DocFX - B (b)" placeholder;
     POST (UProperty (JNum 1)) (docfx_property "b" "sub/b.html")]
    [warn_no_mapping "b"; need_to_create 1;
     planned_line unit_b "DocFX - B (b)"; created_line unit_b (JNum 1)].

(** The requests of the scenario, in the order they are sent. *)
Definition scenario_requests (v : Z) (out_a out_b : string) : list request :=
  [GET (UContentList 0 50);
   GET (UContentList 50 50);
   create_request "TEST" "DocFX - B (b)" placeholder;
   POST (UProperty (JNum 1)) (docfx_property "b" "sub/b.html");
   GET (UContentId (JNum 0));
   PUT (UContentId (JNum 0))
       (update_document (JNum 0) "DocFX - A (a)" (JStr "DOCS") out_a (JNum (v + 1)));
   DELETE (UPropertyDocfx (JNum 0));
   POST (UProperty (JNum 0)) (docfx_property "a" "a.html");
   GET (UContentId (JNum 1));
   PUT (UContentId (JNum 1))
       (update_document (JNum 1) "DocFX - B (b)" (JStr "TEST") out_b (JNum 2));
   DELETE (UPropertyDocfx (JNum 1));
   POST (UProperty (JNum 1)) (docfx_property "b" "sub/b.html")].

(** The identifier [x] is attached to some page of the store. *)
Definition attached (s : store) (x : string) : Prop :=
  exists i p, s !! i = Some p /\ attached_uid p = Some (JStr x).

(** The reference points at a page of the store that carries its
    identifier. *)
Definition well_matched (s : store) (m : mapping) : Prop :=
  exists i p, confluence_id m = Some (JNum (Z.of_nat i)) /\
              s !! i = Some p /\ attached_uid p = Some (JStr (uid m)).

(** A value Python can use as a dict key. *)
Definition hashable (j : json) : bool :=
  match j with
  | JArr _ | JObj _ => false
  | _ => true
  end.

(** The metadata of the page, if any, has the shape the listing pass
    reads: an identifier that can be a key and a site path that is a
    string. *)
Definition legible (p : page) : Prop :=
  match page_docfx p with
  | None => True
  | Some v =>
      exists c u h,
        getitem v "content" = Ok c /\
        getitem c "docfx_uid" = Ok u /\
        getitem c "docfx_href" = Ok (JStr h) /\
        hashable u = true
  end.

(** Every page of [s] is still there in [s'], with the same identifier
    attached, and legible metadata stays legible. *)
Definition keeps_identifiers (s s' : store) : Prop :=
  (forall i p, s !! i = Some p ->
               exists p', s' !! i = Some p' /\ attached_uid p' = attached_uid p) /\
  (Forall legible s -> Forall legible s').

(** The references the first loop of [main] keeps, with their page ids. *)
Fixpoint matched (table : gmap string json) (docfx_mappings : list mapping)
  : list mapping :=
  match docfx_mappings with
  | [] => []
  | m :: rest =>
      match dict_get table (uid m) with
      | Some i => set_confluence_id m i :: matched table rest
      | None => matched table rest
      end
  end.

(** What the listing pass computes from the pages of the store. *)
Definition surveyed (s : store) (docfx_mappings : list mapping)
  : outcome (index * list mapping) :=
  do entries <== collect_results (listed_from 0 s) [];
  do by_uid <== uid_table entries ∅;
  do by_href <== href_table entries ∅;
  Ok (Index by_uid by_href (matched by_uid docfx_mappings),
      filter (fun m => is_new by_uid m = true) docfx_mappings).

(** An entry the two table builders accept. *)
Definition entry_ok (e : entry) : Prop :=
  hashable (entry_docfx_uid e) = true /\ exists h, entry_docfx_href e = JStr h.

(* ===================================================================== *)
(** ** Further notions: link targets, listings, refusals *)
(* ===================================================================== *)

(** The string starts with a slash. *)
Definition leading_slash (s : string) : bool :=
  match s with
  | String c _ => bool_decide (c = slash)
  | EmptyString => false
  end.

(** Two elements agree on everything but their attributes and the inside
    of their children. *)
Definition same_shell (e e' : element) : Prop :=
  tag_of e' = tag_of e /\ text_of e' = text_of e /\ tail_of e' = tail_of e /\
  length (getchildren e') = length (getchildren e).

(** What a rewrite may change of an element: the value of its [href],
    nothing of its shell, no attribute name, no other attribute value. *)
Definition only_href_differs (e e' : element) : Prop :=
  same_shell e e' /\
  map fst (attrib_of e') = map fst (attrib_of e) /\
  forall k, k <> "href" -> attrib_get k (attrib_of e') = attrib_get k (attrib_of e).

(** [<a class="xref" href="/pages/viewpage.action?pageId=42#frag">C</a>]. *)
Definition anchor_c_rewritten : element :=
  Element "a" [("class", "xref"); ("href", "/pages/viewpage.action?pageId=42#frag")]
          "C" [] EmptyString.

(** A wiki like [store_remote], except that it accepts no change. *)
Definition readonly_handle (r : request) (s : store) : reply * store :=
  match r with
  | GET _ => store_handle r s
  | _ => (failure "Read only", s)
  end.

Definition readonly_remote : Remote :=
  {| remote_state := store; handle := readonly_handle |}.

(** A page like [page_a], without metadata. *)
Definition bare_page (v : Z) : page :=
  Page (JStr "DocFX - A (a)") (JStr "DOCS") (JStr "<p>old</p>") v None.

(** The [n] listing requests from [offset] on, one [step] apart. *)
Fixpoint listing_requests (n : nat) (offset : Z) : list request :=
  match n with
  | O => []
  | S n' => GET (UContentList offset step) :: listing_requests n' (offset + step)
  end.

(** A page of the listing after which the loop goes on: a size other
    than zero and results it can read. *)
Definition goes_on (results : json) : Prop :=
  exists size found items,
    getitem results "size" = Ok size /\ py_eq_zero size = false /\
    getitem results "results" = Ok found /\ py_iter found = Ok items /\
    forall mappings, exists mappings', collect_results items mappings = Ok mappings'.

(** A wiki that answers every request with the same listing of one bare
    page, whatever the offset. *)
Definition endless_remote : Remote :=
  {| remote_state := unit;
     handle := fun _ s =>
       (JsonBody (JObj [("size", JNum 1);
                        ("results",
                         JArr [JObj [("id", JNum 0);
                                     ("metadata", JObj [("properties", JObj [])])]])]),
        s) |}.

(** The three kinds of requests of a run. *)
Definition is_listing_request (r : request) : bool :=
  match r with
  | GET (UContentList _ _) => true
  | _ => false
  end.

Definition is_creation_request (r : request) : bool :=
  match r with
  | POST UContent _ | POST (UProperty _) _ => true
  | _ => false
  end.

Definition is_update_request (r : request) : bool :=
  match r with
  | GET (UContentId _) | PUT (UContentId _) _
  | DELETE (UPropertyDocfx _) | POST (UProperty _) _ => true
  | _ => false
  end.

(** The entry the listing pass makes of a page with complete metadata. *)
Definition page_entry (i : nat) (p : page) : option entry :=
  match page_docfx p with
  | Some v =>
      match getitem v "content" with
      | Ok c =>
          match getitem c "docfx_uid", getitem c "docfx_href" with
          | Ok u, Ok h => Some (Entry (JNum (Z.of_nat i)) u h)
          | _, _ => None
          end
      | _ => None
      end
  | None => None
  end.

(** The entries of consecutive pages, the first having id [i]. *)
Fixpoint page_entries (i : nat) (ps : list page) : list entry :=
  match ps with
  | [] => []
  | p :: rest =>
      (match page_entry i p with Some e => [e] | None => [] end
       ++ page_entries (S i) rest)%list
  end.

(** The page the creation pass adds for a reference. *)
Definition page_of (m : mapping) : page :=
  created_page "TEST" (derived_title m) placeholder (uid m) (href m).

(** A page whose metadata gives a number where the site path belongs. *)
Definition page_with_numeric_href : page :=
  Page (JStr "DocFX - A (a)") (JStr "DOCS") (JStr "<p>old</p>") 1
       (Some (JObj [("content", JObj [("docfx_uid", JStr "a");
                                      ("docfx_href", JNum 1)])])).

(* ===================================================================== *)
(** * Properties of the link rewriter *)
(* ===================================================================== *)

Section LinkRewriterFacts.
Context {P : Platform}.

Lemma element_at_set_attrib_at_other p :
  forall root q k v e,
    element_at root p = Some e -> p <> q ->
    exists e', element_at (set_attrib_at root q k v) p = Some e' /\
               attrib_of e' = attrib_of e.
Proof.
  induction p as [|i p IH]; intros [t a x cs tl] q k v e Hat Hne.
  - destruct q as [|j q]; [congruence|].
    simpl in Hat. injection Hat as <-. simpl.
    destruct (cs !! j); eexists; split; reflexivity.
  - destruct q as [|j q].
    + simpl in *. eauto.
    + simpl in Hat. destruct (cs !! i) as [c|] eqn:Hi; [|discriminate].
      simpl. destruct (cs !! j) as [c'|] eqn:Hj.
      * simpl. destruct (decide (i = j)) as [->|Hij].
        -- rewrite list_lookup_insert_eq by (eapply lookup_lt_Some; eauto).
           assert (c' = c) as -> by congruence.
           apply IH; [assumption|congruence].
        -- rewrite list_lookup_insert_ne by congruence.
           rewrite Hi. eauto.
      * simpl. rewrite Hi. eauto.
Qed.

(** An iteration either leaves the tree alone or sets one [href]. *)
Lemma rewrite_anchor_shape base_dir mappings root q root' out :
  rewrite_anchor base_dir mappings root q = (Ok root', out) ->
  root' = root \/ exists v, root' = set_attrib_at root q "href" v.
Proof.
  unfold rewrite_anchor.
  destruct (element_at root q) as [anchor|]; [|intros [= <- _]; auto].
  destruct (attrib_get "href" (attrib_of anchor)) as [h|]; [|intros [= <- _]; auto].
  destruct (urlparse_path h) as [path|]; [|discriminate].
  destruct (dict_get mappings (relative_path_of base_dir path)).
  - intros [= <- _]. eauto.
  - intros [= <- _]. auto.
Qed.

(** An anchor whose target is not in the table: the iteration on it warns
    and changes nothing. *)
Lemma rewrite_anchor_unmapped base_dir mappings root p anchor h path :
  element_at root p = Some anchor ->
  attrib_get "href" (attrib_of anchor) = Some h ->
  urlparse_path h = Some path ->
  dict_get mappings (relative_path_of base_dir path) = None ->
  rewrite_anchor base_dir mappings root p =
    (Ok root, [warn_no_xref (relative_path_of base_dir path)]).
Proof.
  intros Hat Hh Hp Hm. unfold rewrite_anchor. rewrite Hat, Hh, Hp, Hm. reflexivity.
Qed.

Lemma rewrite_anchor_keeps_attrib base_dir mappings root p anchor h path q root' out :
  element_at root p = Some anchor ->
  attrib_get "href" (attrib_of anchor) = Some h ->
  urlparse_path h = Some path ->
  dict_get mappings (relative_path_of base_dir path) = None ->
  rewrite_anchor base_dir mappings root q = (Ok root', out) ->
  exists anchor', element_at root' p = Some anchor' /\
                  attrib_of anchor' = attrib_of anchor.
Proof.
  intros Hat Hh Hp Hm Hq.
  destruct (decide (p = q)) as [<-|Hne].
  - rewrite (rewrite_anchor_unmapped _ _ _ _ _ _ _ Hat Hh Hp Hm) in Hq.
    injection Hq as <- _. eauto.
  - destruct (rewrite_anchor_shape _ _ _ _ _ _ Hq) as [->|[v ->]]; [eauto|].
    apply element_at_set_attrib_at_other; assumption.
Qed.

Lemma rewrite_anchors_keeps_attrib base_dir mappings anchors :
  forall root p anchor h path root' out,
    element_at root p = Some anchor ->
    attrib_get "href" (attrib_of anchor) = Some h ->
    urlparse_path h = Some path ->
    dict_get mappings (relative_path_of base_dir path) = None ->
    rewrite_anchors base_dir mappings anchors root = (Ok root', out) ->
    exists anchor', element_at root' p = Some anchor' /\
                    attrib_of anchor' = attrib_of anchor.
Proof.
  induction anchors as [|q rest IH]; intros root p anchor h path root' out
    Hat Hh Hp Hm Hrun; simpl in Hrun.
  - injection Hrun as <- _. eauto.
  - destruct (rewrite_anchor base_dir mappings root q) as [[root1| |] out1] eqn:Hq;
      try discriminate.
    destruct (rewrite_anchor_keeps_attrib _ _ _ _ _ _ _ _ _ _ Hat Hh Hp Hm Hq)
      as (anchor1 & Hat1 & Hattr1).
    destruct (rewrite_anchors base_dir mappings rest root1) as [r out2] eqn:Hrest.
    injection Hrun as -> _.
    destruct (IH root1 p anchor1 h path root' out2 Hat1) as (anchor' & ? & ?);
      try assumption; [congruence|].
    exists anchor'. split; congruence.
Qed.

(** The loop over two lists in a row. *)
Lemma rewrite_anchors_app base_dir mappings l1 l2 root :
  rewrite_anchors base_dir mappings (l1 ++ l2) root =
  match rewrite_anchors base_dir mappings l1 root with
  | (Ok root1, out1) =>
      let '(r, out2) := rewrite_anchors base_dir mappings l2 root1 in
      (r, (out1 ++ out2)%list)
  | other => other
  end.
Proof.
  revert root. induction l1 as [|q l1 IH]; intros root; simpl.
  - destruct (rewrite_anchors base_dir mappings l2 root). reflexivity.
  - destruct (rewrite_anchor base_dir mappings root q) as [[root1| |] out1];
      try reflexivity.
    rewrite IH.
    destruct (rewrite_anchors base_dir mappings l1 root1) as [[root2| |] out2];
      try reflexivity.
    destruct (rewrite_anchors base_dir mappings l2 root2) as [r out3].
    rewrite app_assoc. reflexivity.
Qed.

End LinkRewriterFacts.

Lemma cssselect_xref_unfold e :
  cssselect_xref e =
  ((if is_xref_anchor e then [[]] else []) ++ select_children 0 (getchildren e))%list.
Proof.
  destruct e as [t a x cs tl]. reflexivity.
Qed.

Lemma select_children_complete cs :
  forall n i c q,
    cs !! i = Some c -> q ∈ cssselect_xref c ->
    ((n + i)%nat :: q) ∈ select_children n cs.
Proof.
  induction cs as [|c0 cs IH]; intros n i c q Hi Hq; [discriminate|].
  simpl. apply elem_of_app. destruct i as [|i]; simpl in Hi.
  - injection Hi as ->. left. rewrite Nat.add_0_r.
    apply list_elem_of_fmap. eauto.
  - right. replace (n + S i)%nat with (S n + i)%nat by lia. eapply IH; eauto.
Qed.

(** The selector misses no cross-reference anchor of the tree. *)
Lemma cssselect_xref_complete p :
  forall root e,
    element_at root p = Some e -> is_xref_anchor e = true ->
    p ∈ cssselect_xref root.
Proof.
  induction p as [|i p IH]; intros root e Hat Hx; rewrite cssselect_xref_unfold.
  - simpl in Hat. injection Hat as ->. rewrite Hx. apply elem_of_app. left.
    apply list_elem_of_here.
  - simpl in Hat. destruct (getchildren root !! i) as [c|] eqn:Hi; [|discriminate].
    apply elem_of_app. right.
    apply (select_children_complete _ 0%nat i c p Hi). eapply IH; eauto.
Qed.

Lemma element_nested_ind (Q : element -> Prop) :
  (forall t a x cs tl, Forall Q cs -> Q (Element t a x cs tl)) ->
  forall e, Q e.
Proof.
  intros step. fix go 1. intros [t a x cs tl]. apply step.
  induction cs as [|c cs IH]; constructor; [apply go|exact IH].
Qed.

Lemma select_children_inv cs :
  forall n q,
    q ∈ select_children n cs ->
    exists i c q', q = ((n + i)%nat :: q') /\ (cs !! i = Some c) /\
                   q' ∈ cssselect_xref c.
Proof.
  induction cs as [|c0 cs IH]; intros n q Hq; simpl in Hq; [inversion Hq|].
  apply elem_of_app in Hq as [Hq|Hq].
  - apply list_elem_of_fmap in Hq as (q' & -> & Hq').
    exists 0%nat, c0, q'. rewrite Nat.add_0_r. auto.
  - destruct (IH _ _ Hq) as (i & c & q' & -> & Hi & Hq').
    exists (S i), c, q'. split; [f_equal; lia|auto].
Qed.

(** The selector returns cross-reference anchors of the tree only. *)
Lemma cssselect_xref_sound root :
  forall p, p ∈ cssselect_xref root ->
            exists e, element_at root p = Some e /\ is_xref_anchor e = true.
Proof.
  induction root as [t a x cs tl IH] using element_nested_ind.
  intros p Hp. rewrite cssselect_xref_unfold in Hp.
  apply elem_of_app in Hp as [Hp|Hp].
  - destruct (is_xref_anchor (Element t a x cs tl)) eqn:Hx; [|inversion Hp].
    apply list_elem_of_singleton in Hp as ->. simpl. eauto.
  - simpl in Hp. destruct (select_children_inv _ _ _ Hp) as (i & c & q & -> & Hi & Hq).
    simpl. rewrite Hi. rewrite Forall_forall in IH.
    apply IH; [|assumption]. eapply list_elem_of_lookup_2; eauto.
Qed.

Lemma no_xref_anchor_selects_nothing root :
  (forall p e, element_at root p = Some e -> is_xref_anchor e = false) ->
  cssselect_xref root = [].
Proof.
  intros Hnone. destruct (cssselect_xref root) as [|p l] eqn:Hsel; [reflexivity|].
  destruct (cssselect_xref_sound root p) as (e & Hat & Hx).
  - rewrite Hsel. apply list_elem_of_here.
  - rewrite (Hnone _ _ Hat) in Hx. discriminate.
Qed.

(** C6. A cross-reference anchor whose computed relative path is not in
    the path table keeps its [href]: when the loop reaches the anchor at
    position [p] (the anchors [earlier] having been processed), the
    iteration raises nothing, leaves the tree as it is and prints one
    warning; the anchors [later] in the selection are then processed from
    that same tree, and in the tree that is serialized the anchor still
    carries the [href] it had. *)
Theorem unmapped_anchor_left_untouched {P : Platform}
    (base_dir content : string) (mappings : gmap string json)
    (root : element) (earlier later : list position) (p : position)
    (anchor : element) (h path : string) (root1 : element) (out1 : list string) :
  fragment_fromstring content = Some root ->
  cssselect_xref root = (earlier ++ p :: later)%list ->
  element_at root p = Some anchor ->
  attrib_get "href" (attrib_of anchor) = Some h ->
  urlparse_path h = Some path ->
  dict_get mappings (relative_path_of base_dir path) = None ->
  rewrite_anchors base_dir mappings earlier root = (Ok root1, out1) ->
  let warning := warn_no_xref (relative_path_of base_dir path) in
  rewrite_anchor base_dir mappings root1 p = (Ok root1, [warning]) /\
  transform_links base_dir content mappings =
    (let '(r, out2) := rewrite_anchors base_dir mappings later root1 in
     (serialized r, (out1 ++ warning :: out2)%list)) /\
  (forall root' out,
     rewrite_anchors base_dir mappings (cssselect_xref root) root = (Ok root', out) ->
     exists anchor',
       element_at root' p = Some anchor' /\
       attrib_of anchor' = attrib_of anchor /\
       attrib_get "href" (attrib_of anchor') = Some h).
Proof.
  intros Hparse Hsel Hat Hh Hpath Hmiss Hearlier warning.
  destruct (rewrite_anchors_keeps_attrib _ _ _ _ _ _ _ _ _ _ Hat Hh Hpath Hmiss Hearlier)
    as (anchor1 & Hat1 & Hattr1).
  assert (Hstep : rewrite_anchor base_dir mappings root1 p = (Ok root1, [warning])).
  { eapply rewrite_anchor_unmapped; eauto. congruence. }
  split; [exact Hstep|]. split.
  - unfold transform_links. rewrite Hparse, Hsel. cbv zeta.
    rewrite rewrite_anchors_app, Hearlier. simpl. rewrite Hstep.
    destruct (rewrite_anchors base_dir mappings later root1) as [r out2].
    reflexivity.
  - intros root' out Hrun.
    destruct (rewrite_anchors_keeps_attrib _ _ _ _ _ _ _ _ _ _ Hat Hh Hpath Hmiss Hrun)
      as (anchor' & Hat' & Hattr').
    exists anchor'. repeat split; congruence.
Qed.

Lemma unmapped_anchor_left_untouched_witness :
  let warning := warn_no_xref "/c.html" in
  @rewrite_anchor link_platform "" ∅ (fragment EmptyString [anchor_c]) [0%nat]
    = (Ok (fragment EmptyString [anchor_c]), [warning]) /\
  @transform_links link_platform "" anchor_c_markup ∅ =
    (let '(r, out2) :=
       @rewrite_anchors link_platform "" ∅ [] (fragment EmptyString [anchor_c]) in
     (@serialized link_platform r, ([] ++ warning :: out2)%list)) /\
  (forall root' out,
     @rewrite_anchors link_platform "" ∅
       (cssselect_xref (fragment EmptyString [anchor_c]))
       (fragment EmptyString [anchor_c]) = (Ok root', out) ->
     exists anchor',
       element_at root' [0%nat] = Some anchor' /\
       attrib_of anchor' = attrib_of anchor_c /\
       attrib_get "href" (attrib_of anchor') = Some "/c.html#frag").
Proof.
  apply (@unmapped_anchor_left_untouched link_platform "" anchor_c_markup ∅
           (fragment EmptyString [anchor_c]) [] [] [0%nat] anchor_c
           "/c.html#frag" "/c.html" (fragment EmptyString [anchor_c]) []);
    reflexivity.
Defined.

(** C7, as amended. When no element of the parsed markup is a
    cross-reference anchor, rewriting raises nothing, prints nothing and
    leaves the tree as parsed; the result is the serialization of the
    top-level elements of the input, in order, one per line. *)
Theorem no_xref_elements_kept {P : Platform}
    (base_dir content : string) (mappings : gmap string json) (root : element) :
  fragment_fromstring content = Some root ->
  (forall p e, element_at root p = Some e -> is_xref_anchor e = false) ->
  rewrite_anchors base_dir mappings (cssselect_xref root) root = (Ok root, []) /\
  transform_links base_dir content mappings =
    (Ok (str_join newline (map tostring (getchildren root))), []).
Proof.
  intros Hparse Hnone. unfold transform_links.
  rewrite Hparse, (no_xref_anchor_selects_nothing _ Hnone). split; reflexivity.
Qed.

Lemma paragraphs_have_no_xref p e :
  element_at (fragment EmptyString [para_a EmptyString; para_b]) p = Some e ->
  is_xref_anchor e = false.
Proof.
  destruct p as [|[|[|i]] [|j q]]; simpl; intros [= <-] || discriminate; reflexivity.
Qed.

Lemma no_xref_elements_kept_witness :
  @rewrite_anchors link_platform "" ∅
    (cssselect_xref (fragment EmptyString [para_a EmptyString; para_b]))
    (fragment EmptyString [para_a EmptyString; para_b])
    = (Ok (fragment EmptyString [para_a EmptyString; para_b]), []) /\
  @transform_links link_platform "" "<p>a</p><p>b</p>" ∅ =
    (Ok (str_join newline
           (map (@tostring link_platform)
                (getchildren (fragment EmptyString [para_a EmptyString; para_b])))),
     []).
Proof.
  apply (@no_xref_elements_kept link_platform "" "<p>a</p><p>b</p>" ∅
           (fragment EmptyString [para_a EmptyString; para_b])).
  - reflexivity.
  - exact paragraphs_have_no_xref.
Defined.

(** C7, as stated, fails. The fragment [<p>a</p><p>b</p>] holds no
    cross-reference anchor; its two elements are serialized with a newline
    between them, and the output parses to a tree in which the first
    paragraph is followed by that newline. *)
Lemma joined_output_parses_differently :
  cssselect_xref (fragment EmptyString [para_a EmptyString; para_b]) = [] /\
  @transform_links link_platform "" "<p>a</p><p>b</p>" ∅ =
    (Ok ("<p>a</p>" +:+ newline +:+ "<p>b</p>"), []) /\
  @fragment_fromstring link_platform "<p>a</p><p>b</p>"
    = Some (fragment EmptyString [para_a EmptyString; para_b]) /\
  @fragment_fromstring link_platform ("<p>a</p>" +:+ newline +:+ "<p>b</p>")
    = Some (fragment EmptyString [para_a newline; para_b]) /\
  ~ @structurally_unchanged link_platform "" "<p>a</p><p>b</p>" ∅.
Proof.
  repeat split; try reflexivity.
  intros (out & Hout & Hsame). vm_compute in Hout. injection Hout as <-.
  vm_compute in Hsame. discriminate.
Qed.

(** Text before the first element is not part of the output: the fragment
    [Hello<b>x</b>] holds no cross-reference anchor, lxml keeps [Hello] as
    the text of the wrapping element, and only the child elements are
    serialized. *)
Lemma leading_text_is_dropped :
  @fragment_fromstring link_platform "Hello<b>x</b>"
    = Some (fragment "Hello" [bold_x]) /\
  cssselect_xref (fragment "Hello" [bold_x]) = [] /\
  @transform_links link_platform "" "Hello<b>x</b>" ∅ = (Ok "<b>x</b>", []) /\
  ~ @structurally_unchanged link_platform "" "Hello<b>x</b>" ∅.
Proof.
  repeat split; try reflexivity.
  intros (out & Hout & Hsame). vm_compute in Hout. injection Hout as <-.
  vm_compute in Hsame. discriminate.
Qed.

(** C4. On the fragment [<a class="xref" href="/c.html#frag">C</a>] with
    the table [{"c.html": 42}] and the base path [""], whatever path the
    URL parser extracts, the key looked up starts with a slash, the table
    has no such key, and the rewrite prints a warning and returns the
    anchor with its [href] unchanged. *)
Theorem root_link_not_rewritten {P : Platform} (content path : string) :
  fragment_fromstring content = Some (fragment EmptyString [anchor_c]) ->
  urlparse_path "/c.html#frag" = Some path ->
  transform_links "" content {["c.html" := JNum 42]} =
    (Ok (tostring anchor_c), [warn_no_xref ("/" +:+ lstrip [slash] path)]).
Proof.
  intros Hparse Hpath. unfold transform_links. rewrite Hparse.
  change (cssselect_xref (fragment EmptyString [anchor_c])) with [[0%nat]].
  unfold rewrite_anchors, rewrite_anchor. simpl element_at. cbv beta iota.
  change (attrib_get "href" (attrib_of anchor_c)) with (Some "/c.html#frag").
  cbv beta iota. rewrite Hpath. unfold dict_get, relative_path_of.
  rewrite lookup_singleton_ne by discriminate. reflexivity.
Qed.

Lemma root_link_not_rewritten_witness :
  @transform_links link_platform "" anchor_c_markup {["c.html" := JNum 42]} =
    (Ok (@tostring link_platform anchor_c),
     [warn_no_xref ("/" +:+ lstrip [slash] "/c.html")]).
Proof.
  apply (@root_link_not_rewritten link_platform anchor_c_markup "/c.html");
    reflexivity.
Defined.

(** With the key [/c.html] in the table instead, the same anchor is
    rewritten and [#frag] stays. *)
Example slash_key_is_rewritten :
  @transform_links link_platform "" anchor_c_markup {["/c.html" := JNum 42]} =
    (Ok (plain_tostring
           (Element "a" [("class", "xref");
                         ("href", "/pages/viewpage.action?pageId=42#frag")]
                    "C" [] EmptyString)),
     []).
Proof. vm_compute. reflexivity. Qed.

(* ===================================================================== *)
(** * Properties of the client *)
(* ===================================================================== *)

Section ClientFacts.
Context {R : Remote}.

Lemma send_eq r w rep s' :
  handle r (server w) = (rep, s') ->
  send r w = (Ok rep, World s' (sent w ++ [r]) (stdout w)).
Proof. intros Hr. unfold send. rewrite Hr. reflexivity. Qed.

Lemma bind_ok {A B} (m : M A) (k : A -> M B) w a w' :
  m w = (Ok a, w') -> bind m k w = k a w'.
Proof. intros Hm. unfold bind. rewrite Hm. reflexivity. Qed.

Lemma bind_raise {A B} (m : M A) (k : A -> M B) w e w' :
  m w = (Raise e, w') -> bind m k w = (Raise e, w').
Proof. intros Hm. unfold bind. rewrite Hm. reflexivity. Qed.

Lemma get_json_eq u w j s' :
  handle (GET u) (server w) = (JsonBody j, s') ->
  get_json u w = (Ok j, World s' (sent w ++ [GET u]) (stdout w)).
Proof. intros Hr. unfold get_json. rewrite (bind_ok _ _ _ _ _ (send_eq _ _ _ _ Hr)). reflexivity. Qed.

Lemma post_json_eq u data w j s' :
  handle (POST u data) (server w) = (JsonBody j, s') ->
  post_json u data w = (Ok j, World s' (sent w ++ [POST u data]) (stdout w)).
Proof. intros Hr. unfold post_json. rewrite (bind_ok _ _ _ _ _ (send_eq _ _ _ _ Hr)). reflexivity. Qed.

Lemma put_json_eq u data w j s' :
  handle (PUT u data) (server w) = (JsonBody j, s') ->
  put_json u data w = (Ok j, World s' (sent w ++ [PUT u data]) (stdout w)).
Proof. intros Hr. unfold put_json. rewrite (bind_ok _ _ _ _ _ (send_eq _ _ _ _ Hr)). reflexivity. Qed.

Lemma delete_json_eq u w rep j s' :
  handle (DELETE u) (server w) = (rep, s') -> deleted rep = Some j ->
  delete_json u w = (Ok j, World s' (sent w ++ [DELETE u]) (stdout w)).
Proof.
  intros Hr Hj. unfold delete_json. rewrite (bind_ok _ _ _ _ _ (send_eq _ _ _ _ Hr)).
  destruct rep; simpl in Hj; try discriminate; injection Hj as <-; reflexivity.
Qed.

Lemma raise_message_eq {A} response w :
  @raise_message R A response w =
  match getitem response "message" with
  | Ok m => (Raise (PyException m), w)
  | Raise e => (Raise e, w)
  | OutOfFuel => (OutOfFuel, w)
  end.
Proof.
  unfold raise_message, bind, lift, raise.
  destruct (getitem response "message"); reflexivity.
Qed.

(** A creation whose reply carries an id returns it, whatever JSON
    document answers the property attachment. *)
Lemma create_page_eq space_key title content docfx_uid docfx_href w
    response page_id attach_reply s1 s2 :
  handle (create_request space_key title content) (server w)
    = (JsonBody response, s1) ->
  contains "id" response = Ok true ->
  getitem response "id" = Ok page_id ->
  handle (POST (UProperty page_id) (docfx_property docfx_uid docfx_href)) s1
    = (JsonBody attach_reply, s2) ->
  create_page space_key title content docfx_uid docfx_href w =
    (Ok page_id,
     World s2 (sent w ++ [create_request space_key title content;
                          POST (UProperty page_id)
                               (docfx_property docfx_uid docfx_href)])
           (stdout w)).
Proof.
  intros Hcreate Hid Hpage Hattach. unfold create_page.
  erewrite bind_ok by (apply post_json_eq; exact Hcreate).
  unfold bind at 1, lift at 1. rewrite Hid. cbn [negb].
  unfold bind at 1, lift at 1. rewrite Hpage.
  erewrite bind_ok by (apply post_json_eq; exact Hattach).
  unfold ret. simpl. rewrite <- app_assoc. reflexivity.
Qed.

(** The update up to its content submission. *)
Lemma update_page_submits page_id title content docfx_uid docfx_href w
    response s1 version space_key next :
  handle (GET (UContentId page_id)) (server w) = (JsonBody response, s1) ->
  fetched response version space_key ->
  py_succ version = Ok next ->
  update_page page_id title content docfx_uid docfx_href w =
  bind (put_json (UContentId page_id)
          (update_document page_id title space_key content next))
       (fun response =>
          do has_id <~ contains "id" response;
          if negb has_id then raise_message response else
          do response <- delete_json (UPropertyDocfx page_id);
          do has_message <~ contains "message" response;
          if has_message then raise_message response else
          do response <- post_json (UProperty page_id)
                           (docfx_property docfx_uid docfx_href);
          ret page_id)
       (World s1 (sent w ++ [GET (UContentId page_id)]) (stdout w)).
Proof.
  intros Hget (Hid & Hversion & Hspace) Hnext. unfold update_page.
  rewrite (bind_ok _ _ _ _ _ (get_json_eq _ _ _ _ Hget)).
  unfold bind at 1, lift at 1. rewrite Hid. cbn [negb].
  destruct (getitem response "version") as [v| |]; try discriminate.
  destruct (getitem response "space") as [sp| |]; try discriminate.
  simpl in Hversion, Hspace.
  unfold bind at 1, lift at 1. unfold bind at 1, lift at 1. rewrite Hversion.
  unfold bind at 1, lift at 1. unfold bind at 1, lift at 1. rewrite Hspace.
  unfold bind at 1, lift at 1. rewrite Hnext. reflexivity.
Qed.

End ClientFacts.

(** ** What a computation adds to the request log *)

Section Emits.
Context {R : Remote}.

Lemma emits_nothing {A} (Q : request -> Prop) (m : M A) :
  (forall w, sent (snd (m w)) = sent w) -> emits Q m.
Proof. intros Hm w. exists []. rewrite Hm, app_nil_r. auto. Qed.

Lemma emits_ret {A} Q (a : A) : emits Q (ret a).
Proof. apply emits_nothing. reflexivity. Qed.

Lemma emits_raise {A} Q e : emits Q (@raise R A e).
Proof. apply emits_nothing. reflexivity. Qed.

Lemma emits_diverge {A} Q : emits Q (@diverge R A).
Proof. apply emits_nothing. reflexivity. Qed.

Lemma emits_lift {A} Q (o : outcome A) : emits Q (lift o).
Proof. apply emits_nothing. reflexivity. Qed.

Lemma emits_print Q s : emits Q (print s).
Proof. apply emits_nothing. reflexivity. Qed.

Lemma emits_prints Q l : emits Q (prints l).
Proof. apply emits_nothing. reflexivity. Qed.

Lemma emits_send (Q : request -> Prop) r : Q r -> emits Q (send r).
Proof.
  intros Hr w. exists [r]. unfold send.
  destruct (handle r (server w)). simpl. auto.
Qed.

Lemma emits_bind {A B} Q (m : M A) (k : A -> M B) :
  emits Q m -> (forall a, emits Q (k a)) -> emits Q (bind m k).
Proof.
  intros Hm Hk w. unfold bind. destruct (Hm w) as (rest & Hsent & Hall).
  destruct (m w) as [[a| |] w1]; simpl in Hsent; eauto.
  destruct (Hk a w1) as (rest' & Hsent' & Hall').
  exists (rest ++ rest')%list. rewrite Hsent', Hsent, app_assoc.
  split; [reflexivity|]. apply Forall_app. auto.
Qed.

Lemma bind_assoc {A B C} (m : M A) (f : A -> M B) (g : B -> M C) w :
  bind (bind m f) g w = bind m (fun x => bind (f x) g) w.
Proof. unfold bind. destruct (m w) as [[a| |] w1]; reflexivity. Qed.

(** A computation that opens with a request logs it first. *)
Lemma sent_after_send {B} r (k : reply -> M B) w :
  (forall rep, emits (fun _ => True) (k rep)) ->
  exists rest, sent (snd (bind (send r) k w)) = (sent w ++ r :: rest)%list.
Proof.
  intros Hk. unfold bind, send. destruct (handle r (server w)) as [rep s'].
  destruct (Hk rep (World s' (sent w ++ [r]) (stdout w))) as (rest & Hsent & _).
  exists rest. rewrite Hsent. simpl. rewrite <- app_assoc. reflexivity.
Qed.

Lemma sent_after_send_all {B} (Q : request -> Prop) r (k : reply -> M B) w :
  (forall rep, emits Q (k rep)) ->
  exists rest, sent (snd (bind (send r) k w)) = (sent w ++ r :: rest)%list /\
               Forall Q rest.
Proof.
  intros Hk. unfold bind, send. destruct (handle r (server w)) as [rep s'].
  destruct (Hk rep (World s' (sent w ++ [r]) (stdout w))) as (rest & Hsent & Hall).
  exists rest. rewrite Hsent. simpl. rewrite <- app_assoc. auto.
Qed.

Lemma emits_for_each {A X} Q (body : A -> X -> M A) xs :
  (forall acc x, x ∈ xs -> emits Q (body acc x)) ->
  forall acc, emits Q (for_each body xs acc).
Proof.
  induction xs as [|x xs IH]; intros Hbody acc; simpl.
  - apply emits_ret.
  - apply emits_bind.
    + apply Hbody. apply list_elem_of_here.
    + intros acc'. apply IH. intros acc0 x0 Hx0. apply Hbody.
      apply list_elem_of_further. exact Hx0.
Qed.

Lemma emits_weaken {A} (Q Q' : request -> Prop) (m : M A) :
  (forall r, Q r -> Q' r) -> emits Q m -> emits Q' m.
Proof.
  intros Himp Hm w. destruct (Hm w) as (rest & Hsent & Hall).
  exists rest. split; [exact Hsent|]. eapply Forall_impl; eauto.
Qed.

End Emits.

(** Break a computation into its calls. *)
Ltac emits_step :=
  match goal with
  | |- emits _ (bind _ _) => apply emits_bind; [|intros]
  | |- emits _ (ret _) => apply emits_ret
  | |- emits _ (raise _) => apply emits_raise
  | |- emits _ diverge => apply emits_diverge
  | |- emits _ (lift _) => apply emits_lift
  | |- emits _ (print _) => apply emits_print
  | |- emits _ (prints _) => apply emits_prints
  | |- emits _ (send _) => apply emits_send
  | |- emits _ (raise_message _) => unfold raise_message
  | |- emits _ (match ?x with _ => _ end) => destruct x
  end.

Section ClientEmits.
Context {R : Remote}.

Lemma emits_get_json (Q : request -> Prop) u : Q (GET u) -> emits Q (get_json u).
Proof. intros Hq. unfold get_json. repeat emits_step; assumption. Qed.

Lemma emits_post_json (Q : request -> Prop) u data :
  Q (POST u data) -> emits Q (post_json u data).
Proof. intros Hq. unfold post_json. repeat emits_step; assumption. Qed.

Lemma emits_put_json (Q : request -> Prop) u data :
  Q (PUT u data) -> emits Q (put_json u data).
Proof. intros Hq. unfold put_json. repeat emits_step; assumption. Qed.

Lemma emits_delete_json (Q : request -> Prop) u :
  Q (DELETE u) -> emits Q (delete_json u).
Proof. intros Hq. unfold delete_json. repeat emits_step; assumption. Qed.

(** An update never asks for a page to be created. *)
Lemma emits_update_page page_id title content docfx_uid docfx_href :
  emits (fun r => is_create r = false)
        (update_page page_id title content docfx_uid docfx_href).
Proof.
  unfold update_page.
  repeat first
    [ apply emits_get_json | apply emits_put_json | apply emits_delete_json
    | apply emits_post_json | emits_step ]; reflexivity.
Qed.

(** The only creation request of [create_page] is its own. *)
Lemma emits_create_page space_key title content docfx_uid docfx_href :
  emits (fun r => is_create r = true ->
                  r = create_request space_key title content)
        (create_page space_key title content docfx_uid docfx_href).
Proof.
  unfold create_page.
  repeat first [ apply emits_post_json | emits_step ];
    solve [reflexivity | discriminate].
Qed.

End ClientEmits.

(** C5. An update first fetches the page. When the fetched page shows
    version [N], the request that follows is the content submission with
    version [N + 1]. When the fetched reply has no ["id"], the update
    raises (the exception carries the reply's message) and the fetch is
    the only request it has made. *)
Theorem update_submits_next_version {R : Remote}
    (page_id : json) (title content docfx_uid docfx_href : string)
    (w : world) (response : json) (s1 : remote_state) :
  handle (GET (UContentId page_id)) (server w) = (JsonBody response, s1) ->
  (forall N space_key,
     fetched response (JNum N) space_key ->
     exists rest,
       sent (snd (update_page page_id title content docfx_uid docfx_href w)) =
       (sent w ++ GET (UContentId page_id)
          :: PUT (UContentId page_id)
                 (update_document page_id title space_key content (JNum (N + 1)))
          :: rest)%list) /\
  (contains "id" response = Ok false ->
     exists e,
       update_page page_id title content docfx_uid docfx_href w =
         (Raise e, World s1 (sent w ++ [GET (UContentId page_id)]) (stdout w)) /\
       forall message, getitem response "message" = Ok message ->
                       e = PyException message).
Proof.
  intros Hget. split.
  - intros N space_key Hfetched.
    rewrite (update_page_submits _ _ _ _ _ _ _ _ _ _ (JNum (N + 1)) Hget Hfetched eq_refl).
    unfold put_json. rewrite bind_assoc.
    match goal with
    | |- context [bind (send ?r) ?k ?w1] =>
        destruct (sent_after_send r k w1) as (rest & Hsent)
    end.
    + intros rep.
      repeat first
        [ apply emits_delete_json | apply emits_post_json | emits_step ];
        exact I.
    + exists rest. rewrite Hsent. simpl. rewrite <- app_assoc. reflexivity.
  - intros Hid. unfold update_page.
    rewrite (bind_ok _ _ _ _ _ (get_json_eq _ _ _ _ Hget)).
    unfold bind at 1, lift at 1. rewrite Hid. cbn [negb].
    rewrite raise_message_eq.
    destruct (getitem response "message") as [m|e|] eqn:Hm.
    + eexists. split; [reflexivity|]. intros message [= <-]. reflexivity.
    + eexists. split; [reflexivity|]. discriminate.
    + destruct response; discriminate Hm || (simpl in Hm; destruct (assoc _ _); discriminate).
Qed.

Lemma update_submits_next_version_witness :
  (exists rest,
     sent (snd (@update_page store_remote (JNum 0) "DocFX - A (a)" "<p>A</p>"
                  "a" "a.html" (@start store_remote [page_a 7]))) =
     ([] ++ GET (UContentId (JNum 0))
        :: PUT (UContentId (JNum 0))
               (update_document (JNum 0) "DocFX - A (a)" (JStr "DOCS") "<p>A</p>"
                  (JNum (7 + 1)))
        :: rest)%list) /\
  (exists e,
     @update_page store_remote (JNum 5) "DocFX - A (a)" "<p>A</p>" "a" "a.html"
       (@start store_remote [page_a 7]) =
       (Raise e, @World store_remote [page_a 7] ([] ++ [GET (UContentId (JNum 5))]) []) /\
     forall message,
       getitem (JObj [("message", JStr "No content found")]) "message" = Ok message ->
       e = PyException message).
Proof.
  split.
  - apply (proj1 (@update_submits_next_version store_remote (JNum 0)
                    "DocFX - A (a)" "<p>A</p>" "a" "a.html"
                    (@start store_remote [page_a 7])
                    (page_json 0 (page_a 7)) [page_a 7] eq_refl) 7 (JStr "DOCS")).
    repeat split; reflexivity.
  - apply (proj2 (@update_submits_next_version store_remote (JNum 5)
                    "DocFX - A (a)" "<p>A</p>" "a" "a.html"
                    (@start store_remote [page_a 7])
                    (JObj [("message", JStr "No content found")]) [page_a 7] eq_refl)).
    reflexivity.
Defined.

Section UpdateReplies.
Context {R : Remote}.
Variables (page_id : json) (title content docfx_uid docfx_href : string).
Variables (w : world) (response version space_key next : json) (s1 : remote_state).
Hypothesis Hget :
  handle (GET (UContentId page_id)) (server w) = (JsonBody response, s1).
Hypothesis Hfetched : fetched response version space_key.
Hypothesis Hnext : py_succ version = Ok next.

Let submission : request :=
  PUT (UContentId page_id) (update_document page_id title space_key content next).

(** A refused content submission is reported. *)
Lemma update_raises_on_refused_submission submitted s2 message :
  handle submission s1 = (JsonBody submitted, s2) ->
  contains "id" submitted = Ok false ->
  getitem submitted "message" = Ok message ->
  update_page page_id title content docfx_uid docfx_href w =
    (Raise (PyException message),
     World s2 (sent w ++ [GET (UContentId page_id); submission]) (stdout w)).
Proof.
  intros Hput Hid Hmessage.
  rewrite (update_page_submits _ _ _ _ _ _ _ _ _ _ _ Hget Hfetched Hnext).
  erewrite bind_ok by (apply put_json_eq; exact Hput).
  unfold bind at 1, lift at 1. rewrite Hid. cbn [negb].
  rewrite raise_message_eq, Hmessage. simpl. rewrite <- app_assoc. reflexivity.
Qed.

(** A refused property deletion is reported. *)
Lemma update_raises_on_refused_delete submitted s2 removed s3 message :
  handle submission s1 = (JsonBody submitted, s2) ->
  contains "id" submitted = Ok true ->
  handle (DELETE (UPropertyDocfx page_id)) s2 = (JsonBody removed, s3) ->
  contains "message" removed = Ok true ->
  getitem removed "message" = Ok message ->
  update_page page_id title content docfx_uid docfx_href w =
    (Raise (PyException message),
     World s3 (sent w ++ [GET (UContentId page_id); submission;
                          DELETE (UPropertyDocfx page_id)]) (stdout w)).
Proof.
  intros Hput Hid Hdelete Hhas Hmessage.
  rewrite (update_page_submits _ _ _ _ _ _ _ _ _ _ _ Hget Hfetched Hnext).
  erewrite bind_ok by (apply put_json_eq; exact Hput).
  unfold bind at 1, lift at 1. rewrite Hid. cbn [negb].
  erewrite bind_ok by (eapply delete_json_eq; [exact Hdelete|reflexivity]).
  unfold bind at 1, lift at 1. rewrite Hhas.
  rewrite raise_message_eq, Hmessage. simpl. rewrite <- !app_assoc. reflexivity.
Qed.

(** The reply to the property re-creation is not looked at: whatever JSON
    document it is, the update returns the page id. *)
Lemma update_ignores_property_reply submitted s2 rep removed s3 attached s4 :
  handle submission s1 = (JsonBody submitted, s2) ->
  contains "id" submitted = Ok true ->
  handle (DELETE (UPropertyDocfx page_id)) s2 = (rep, s3) ->
  deleted rep = Some removed ->
  contains "message" removed = Ok false ->
  handle (POST (UProperty page_id) (docfx_property docfx_uid docfx_href)) s3
    = (JsonBody attached, s4) ->
  update_page page_id title content docfx_uid docfx_href w =
    (Ok page_id,
     World s4 (sent w ++ [GET (UContentId page_id); submission;
                          DELETE (UPropertyDocfx page_id);
                          POST (UProperty page_id)
                               (docfx_property docfx_uid docfx_href)])
           (stdout w)).
Proof.
  intros Hput Hid Hdelete Hrep Hhas Hpost.
  rewrite (update_page_submits _ _ _ _ _ _ _ _ _ _ _ Hget Hfetched Hnext).
  erewrite bind_ok by (apply put_json_eq; exact Hput).
  unfold bind at 1, lift at 1. rewrite Hid. cbn [negb].
  erewrite bind_ok by (eapply delete_json_eq; [exact Hdelete|exact Hrep]).
  unfold bind at 1, lift at 1. rewrite Hhas.
  erewrite bind_ok by (apply post_json_eq; exact Hpost).
  unfold ret. simpl. rewrite <- !app_assoc. reflexivity.
Qed.

End UpdateReplies.

(** C8. The failing run: on a wiki that refuses to attach properties, the
    update of page 0 receives a failure reply to its last call, the
    re-creation of the [docfx] property, and still returns the page id;
    the page is left without its property. *)
Theorem update_ignores_refused_recreate :
  let recreate := POST (UProperty (JNum 0)) (docfx_property "a" "a.html") in
  let updated :=
    Page (JStr "DocFX - A (a)") (JStr "DOCS") (storage_body (JStr "<p>A</p>")) 8 None in
  @handle refusing_remote recreate [updated] = (failure "Not permitted", [updated]) /\
  @update_page refusing_remote (JNum 0) "DocFX - A (a)" "<p>A</p>" "a" "a.html"
    (@start refusing_remote [page_a 7]) =
    (Ok (JNum 0),
     @World refusing_remote [updated]
       [GET (UContentId (JNum 0));
        PUT (UContentId (JNum 0))
            (update_document (JNum 0) "DocFX - A (a)" (JStr "DOCS") "<p>A</p>" (JNum 8));
        DELETE (UPropertyDocfx (JNum 0));
        recreate]
       []).
Proof. split; vm_compute; reflexivity. Qed.

(** C10. When the creation reply carries an ["id"], [create_page] returns
    it whatever JSON document answers the call that attaches the metadata,
    a failure message included: the second reply is not looked at. On a
    wiki that refuses the attachment, the page is therefore created
    without metadata, no error is reported, and the page is not seen by
    the listing of a later run. *)
Theorem create_ignores_attach_reply {R : Remote}
    (space_key title content docfx_uid docfx_href : string) (w : world)
    (response page_id attach_reply : json) (s1 s2 : remote_state) :
  handle (create_request space_key title content) (server w)
    = (JsonBody response, s1) ->
  contains "id" response = Ok true ->
  getitem response "id" = Ok page_id ->
  handle (POST (UProperty page_id) (docfx_property docfx_uid docfx_href)) s1
    = (JsonBody attach_reply, s2) ->
  create_page space_key title content docfx_uid docfx_href w =
    (Ok page_id,
     World s2 (sent w ++ [create_request space_key title content;
                          POST (UProperty page_id)
                               (docfx_property docfx_uid docfx_href)])
           (stdout w)) /\
  created_page_is_invisible.
Proof.
  intros Hcreate Hid Hpage Hattach. split.
  - eapply create_page_eq; eauto.
  - repeat split; vm_compute; reflexivity.
Qed.

Lemma create_ignores_attach_reply_witness :
  @create_page refusing_remote "TEST" "DocFX - B (b)" placeholder "b" "sub/b.html"
    (@start refusing_remote []) =
    (Ok (JNum 0),
     @World refusing_remote
       [Page (JStr "DocFX - B (b)") (JStr "TEST") (storage_body (JStr placeholder)) 1 None]
       ([] ++ [create_request "TEST" "DocFX - B (b)" placeholder;
               POST (UProperty (JNum 0)) (docfx_property "b" "sub/b.html")])
       []) /\
  created_page_is_invisible.
Proof.
  apply (@create_ignores_attach_reply refusing_remote "TEST" "DocFX - B (b)"
           placeholder "b" "sub/b.html" (@start refusing_remote [])
           (page_json 0 (Page (JStr "DocFX - B (b)") (JStr "TEST")
                              (storage_body (JStr placeholder)) 1 None))
           (JNum 0)
           (JObj [("message", JStr "Not permitted")])
           [Page (JStr "DocFX - B (b)") (JStr "TEST") (storage_body (JStr placeholder)) 1 None]
           [Page (JStr "DocFX - B (b)") (JStr "TEST") (storage_body (JStr placeholder)) 1 None]);
    reflexivity.
Defined.

(* ===================================================================== *)
(** * Properties of the run *)
(* ===================================================================== *)

Lemma create_calls_app l1 l2 :
  create_calls (l1 ++ l2) = (create_calls l1 ++ create_calls l2)%list.
Proof. apply List.filter_app. Qed.

Lemma create_calls_none l :
  Forall (fun r => is_create r = false) l -> create_calls l = [].
Proof.
  induction 1 as [|r l Hr _ IH]; [reflexivity|].
  unfold create_calls in *. simpl. rewrite Hr. exact IH.
Qed.

Lemma create_calls_Forall (Q : request -> Prop) l :
  Forall (fun r => is_create r = true -> Q r) l -> Forall Q (create_calls l).
Proof.
  induction 1 as [|r l Hr _ IH]; [constructor|].
  unfold create_calls in *. simpl. destruct (is_create r); auto.
Qed.

Section RunEmits.
Context {P : Platform} {R : Remote}.

Lemma emits_listing fuel :
  forall offset mappings,
    emits (fun r => is_create r = false)
          (get_confluence_mappings_from fuel offset mappings).
Proof.
  induction fuel as [|fuel IH]; intros offset mappings; simpl.
  - apply emits_diverge.
  - repeat first [ apply emits_get_json | apply IH | emits_step ]; reflexivity.
Qed.

Lemma emits_survey fuel docfx_mappings :
  emits (fun r => is_create r = false) (survey fuel docfx_mappings).
Proof.
  unfold survey, get_confluence_mappings.
  repeat first
    [ apply emits_listing
    | apply emits_for_each; intros; unfold match_existing
    | emits_step ].
Qed.

Lemma emits_update_all base_directory ix :
  emits (fun r => is_create r = false) (update_all base_directory ix).
Proof.
  unfold update_all. apply emits_for_each. intros [] m _. unfold update_existing.
  repeat first [ apply emits_update_page | emits_step ].
Qed.

(** [create_new] sends the creation request of its reference, once, and
    no other creation request. *)
Lemma create_new_calls ix m w :
  create_calls (sent (snd (create_new ix m w))) =
  (create_calls (sent w) ++ [creation_of m])%list.
Proof.
  unfold create_new, create_page, post_json.
  unfold bind at 1. unfold print at 1. cbv beta iota.
  rewrite !bind_assoc.
  match goal with
  | |- context [bind (send ?req) ?k ?w1] =>
      destruct (sent_after_send_all (fun x => is_create x = false) req k w1)
        as (rest & Hsent & Hrest)
  end.
  - intros rep.
    repeat first [ apply emits_post_json | emits_step ]; reflexivity.
  - rewrite Hsent. simpl sent.
    change (sent w ++ ?r :: rest)%list with (sent w ++ [r] ++ rest)%list.
    rewrite !create_calls_app, (create_calls_none rest Hrest), app_nil_r.
    reflexivity.
Qed.

Lemma create_all_calls new_mappings :
  forall ix w ix' w',
    for_each create_new new_mappings ix w = (Ok ix', w') ->
    create_calls (sent w') =
    (create_calls (sent w) ++ map creation_of new_mappings)%list.
Proof.
  induction new_mappings as [|m rest IH]; intros ix w ix' w' Hrun; simpl in Hrun.
  - injection Hrun as _ <-. rewrite app_nil_r. reflexivity.
  - unfold bind in Hrun.
    pose proof (create_new_calls ix m w) as Hcalls.
    destruct (create_new ix m w) as [[ix1| |] w1]; try discriminate.
    rewrite (IH _ _ _ _ Hrun). simpl in Hcalls. rewrite Hcalls, <- app_assoc.
    reflexivity.
Qed.

End RunEmits.

Lemma is_new_absent (table : gmap string json) m :
  is_new table m = true <-> table !! uid m = None.
Proof.
  unfold is_new. rewrite negb_true_iff, bool_decide_eq_false, eq_None_not_Some.
  reflexivity.
Qed.

Section RunFacts.
Context {P : Platform} {R : Remote}.

Lemma emits_create_new ix m :
  emits (fun r => is_create r = true -> r = creation_of m) (create_new ix m).
Proof.
  unfold create_new.
  repeat first [ apply emits_create_page | emits_step ].
Qed.

Lemma emits_create_all ix new_mappings :
  emits (fun r => is_create r = true ->
                  exists m, m ∈ new_mappings /\ r = creation_of m)
        (create_all ix new_mappings).
Proof.
  unfold create_all. destruct new_mappings as [|m0 rest]; [apply emits_ret|].
  apply emits_bind; [apply emits_print|]. intros _.
  apply emits_for_each. intros acc m Hm.
  eapply emits_weaken; [|apply emits_create_new]. simpl. eauto.
Qed.

(** What [survey] returns when it returns. *)
Lemma survey_ok fuel docfx_mappings w ix new_mappings w1 :
  survey fuel docfx_mappings w = (Ok (ix, new_mappings), w1) ->
  exists confluence_mappings w0,
    get_confluence_mappings fuel w = (Ok confluence_mappings, w0) /\
    uid_table confluence_mappings ∅ = Ok (docfx_uid_to_confluence_id ix) /\
    href_table confluence_mappings ∅ = Ok (docfx_href_to_confluence_id ix) /\
    for_each (match_existing (docfx_uid_to_confluence_id ix)) docfx_mappings [] w0
      = (Ok (existing_mappings ix), w1) /\
    new_mappings =
      filter (fun m => is_new (docfx_uid_to_confluence_id ix) m = true) docfx_mappings.
Proof.
  unfold survey. unfold bind at 1.
  destruct (get_confluence_mappings fuel w) as [[confluence_mappings| |] w0]
    eqn:Hlist; try discriminate.
  unfold bind at 1, lift at 1.
  destruct (uid_table confluence_mappings ∅) as [by_uid| |] eqn:Huid;
    try discriminate.
  unfold bind at 1, lift at 1.
  destruct (href_table confluence_mappings ∅) as [by_href| |] eqn:Hhref;
    try discriminate.
  unfold bind at 1.
  destruct (for_each (match_existing by_uid) docfx_mappings [] w0)
    as [[existing| |] w1'] eqn:Hexisting; try discriminate.
  unfold ret. intros [= <- <- <-]. simpl.
  exists confluence_mappings, w0. auto.
Qed.

(** What [create_new] returns when it returns. *)
Lemma create_new_ok ix m w ix' w' :
  create_new ix m w = (Ok ix', w') ->
  exists i,
    ix' = Index (<[uid m := i]> (docfx_uid_to_confluence_id ix))
                (<[href m := i]> (docfx_href_to_confluence_id ix))
                (existing_mappings ix
                 ++ [set_confluence_id (set_title m (derived_title m)) i])%list.
Proof.
  unfold create_new. unfold bind at 1, print at 1. cbv beta iota.
  unfold bind at 1.
  destruct (create_page _ _ _ _ _ _) as [[i| |] w1]; try discriminate.
  unfold bind, print, ret. simpl. intros [= <- _]. eauto.
Qed.

Lemma create_loop_resolves new_mappings :
  forall ix w ix' w',
    for_each create_new new_mappings ix w = (Ok ix', w') ->
    (forall k, is_Some (docfx_uid_to_confluence_id ix !! k) ->
               is_Some (docfx_uid_to_confluence_id ix' !! k)) /\
    (forall k, is_Some (docfx_href_to_confluence_id ix !! k) ->
               is_Some (docfx_href_to_confluence_id ix' !! k)) /\
    (forall m, m ∈ new_mappings ->
               is_Some (docfx_uid_to_confluence_id ix' !! uid m) /\
               is_Some (docfx_href_to_confluence_id ix' !! href m)).
Proof.
  induction new_mappings as [|m rest IH]; intros ix w ix' w' Hrun; simpl in Hrun.
  - injection Hrun as <- _. split; [auto|split; [auto|]].
    intros m0 Hm0. inversion Hm0.
  - unfold bind in Hrun.
    destruct (create_new ix m w) as [[ix1| |] w1] eqn:Hnew; try discriminate.
    destruct (create_new_ok _ _ _ _ _ Hnew) as (i & ->).
    destruct (IH _ _ _ _ Hrun) as (Huid & Hhref & Hall). simpl in Huid, Hhref.
    split; [|split].
    + intros k Hk. apply Huid. rewrite lookup_insert_is_Some. 
      destruct (decide (uid m = k)); auto.
    + intros k Hk. apply Hhref. rewrite lookup_insert_is_Some.
      destruct (decide (href m = k)); auto.
    + intros m' Hm'. apply elem_of_cons in Hm' as [->|Hm']; [|auto].
      split; [apply Huid|apply Hhref]; rewrite lookup_insert_is_Some; auto.
Qed.

End RunFacts.

(** C9. Every creation request of a run is the request for one of the
    references with the space key ["TEST"], and the run is the same
    whatever space key the command line names. *)
Theorem creation_uses_literal_space {P : Platform} {R : Remote}
    (fuel : nat) (args : arguments) (docfx_mappings : list mapping) (w : world)
    (space_key : string) :
  (exists rest,
     sent (snd (main fuel args docfx_mappings w)) = (sent w ++ rest)%list /\
     Forall (fun r => exists m, m ∈ docfx_mappings /\
                                r = create_request "TEST" (derived_title m) placeholder)
            (create_calls rest)) /\
  main fuel (with_space args space_key) docfx_mappings w =
  main fuel args docfx_mappings w.
Proof.
  split; [|reflexivity].
  set (Q := fun r => is_create r = true ->
                     exists m, m ∈ docfx_mappings /\ r = creation_of m).
  assert (Hquiet : forall r, is_create r = false -> Q r)
    by (unfold Q; congruence).
  assert (Hemits : exists rest,
             sent (snd (main fuel args docfx_mappings w)) = (sent w ++ rest)%list /\
             Forall Q rest).
  { unfold main, bind at 1.
    destruct (emits_weaken _ Q _ Hquiet (emits_survey fuel docfx_mappings) w)
      as (rest1 & Hsent1 & Hall1).
    destruct (survey fuel docfx_mappings w) as [[[ix new_mappings]| |] w1] eqn:Hsurvey;
      simpl in Hsent1; eauto.
    destruct (survey_ok _ _ _ _ _ _ Hsurvey) as (_ & _ & _ & _ & _ & _ & Hnew).
    destruct (emits_bind Q (create_all ix new_mappings)
                (fun ix' => update_all (os_path_dirname (docfx_manifest args)) ix'))
      with (w := w1) as (rest2 & Hsent2 & Hall2).
    - eapply emits_weaken; [|apply emits_create_all]. simpl.
      intros r Hr Hc. destruct (Hr Hc) as (m & Hm & ->). subst new_mappings.
      apply list_elem_of_filter in Hm as [_ Hm]. exists m. auto.
    - intros ix'. eapply emits_weaken; [exact Hquiet|apply emits_update_all].
    - exists (rest1 ++ rest2)%list. rewrite Hsent2, Hsent1, app_assoc.
      split; [reflexivity|]. apply Forall_app. auto. }
  destruct Hemits as (rest & Hsent & Hall).
  exists rest. split; [exact Hsent|]. apply create_calls_Forall. exact Hall.
Qed.

(** C3. Take a run whose listing and creation passes complete. The
    references to create are those whose identifier is not a key of the
    identifier table. Listing sends no creation request; the creation pass
    sends exactly one per such reference, in input order. After the pass
    both tables have an entry for each of them, under its identifier and
    under its site path, and the rest of the run, which rewrites the links
    with this path table, sends no creation request. *)
Theorem created_units_are_resolvable {P : Platform} {R : Remote}
    (fuel : nat) (args : arguments) (docfx_mappings : list mapping)
    (w w1 w2 : world) (ix ix' : index) (new_mappings : list mapping) :
  survey fuel docfx_mappings w = (Ok (ix, new_mappings), w1) ->
  create_all ix new_mappings w1 = (Ok ix', w2) ->
  new_mappings =
    filter (fun m => docfx_uid_to_confluence_id ix !! uid m = None) docfx_mappings /\
  create_calls (sent w1) = create_calls (sent w) /\
  create_calls (sent w2) =
    (create_calls (sent w1) ++ map creation_of new_mappings)%list /\
  (forall m, m ∈ new_mappings ->
             is_Some (docfx_uid_to_confluence_id ix' !! uid m) /\
             is_Some (docfx_href_to_confluence_id ix' !! href m)) /\
  main fuel args docfx_mappings w =
    update_all (os_path_dirname (docfx_manifest args)) ix' w2 /\
  create_calls (sent (snd (main fuel args docfx_mappings w))) = create_calls (sent w2).
Proof.
  intros Hsurvey Hcreate.
  assert (Hmain : main fuel args docfx_mappings w =
                  update_all (os_path_dirname (docfx_manifest args)) ix' w2).
  { unfold main. rewrite (bind_ok _ _ _ _ _ Hsurvey).
    rewrite (bind_ok _ _ _ _ _ Hcreate). reflexivity. }
  destruct (survey_ok _ _ _ _ _ _ Hsurvey) as (_ & _ & _ & _ & _ & _ & Hnew).
  split; [|split; [|split; [|split; [|split]]]].
  - rewrite Hnew. apply list_filter_iff. intros m. apply is_new_absent.
  - destruct (emits_survey fuel docfx_mappings w) as (rest & Hsent & Hall).
    rewrite Hsurvey in Hsent. simpl in Hsent.
    rewrite Hsent, create_calls_app, (create_calls_none _ Hall), app_nil_r.
    reflexivity.
  - unfold create_all in Hcreate. destruct new_mappings as [|m0 rest].
    + injection Hcreate as _ <-. simpl. rewrite app_nil_r. reflexivity.
    + unfold bind at 1, print at 1 in Hcreate. cbv beta iota in Hcreate.
      apply create_all_calls in Hcreate. exact Hcreate.
  - unfold create_all in Hcreate. destruct new_mappings as [|m0 rest].
    + intros m Hm. inversion Hm.
    + unfold bind at 1, print at 1 in Hcreate. cbv beta iota in Hcreate.
      apply create_loop_resolves in Hcreate. apply Hcreate.
  - exact Hmain.
  - rewrite Hmain.
    destruct (emits_update_all (os_path_dirname (docfx_manifest args)) ix' w2)
      as (rest & Hsent & Hall).
    rewrite Hsent, create_calls_app, (create_calls_none _ Hall), app_nil_r.
    reflexivity.
Qed.

(* ===================================================================== *)
(** * The client against the page store *)
(* ===================================================================== *)

Lemma insert_last {A} (l : list A) (x y : A) :
  <[length l := y]> (l ++ [x])%list = (l ++ [y])%list.
Proof. induction l as [|a l IH]; simpl; [reflexivity|]. f_equal. exact IH. Qed.

Lemma lookup_last {A} (l : list A) (x : A) : (l ++ [x])%list !! length l = Some x.
Proof. induction l as [|a l IH]; simpl; [reflexivity|exact IH]. Qed.

Lemma page_index_of_nat i : page_index (JNum (Z.of_nat i)) = Some i.
Proof.
  unfold page_index. rewrite bool_decide_eq_true_2 by lia.
  rewrite Nat2Z.id. reflexivity.
Qed.

Lemma change_page_eq i (f : page -> option page) (s : store) p p' :
  s !! i = Some p -> f p = Some p' ->
  change_page (JNum (Z.of_nat i)) f s = Some (i, p', <[i := p']> s).
Proof.
  intros Hi Hf. unfold change_page. rewrite page_index_of_nat, Hi, Hf. reflexivity.
Qed.

Ltac store_step :=
  cbn [handle store_remote]; unfold store_handle.

(** On the page store, the update of a page that carries the property
    goes through. *)
Lemma store_update_page i p title content docfx_uid docfx_href
    (w : @world store_remote) :
  server w !! i = Some p ->
  is_Some (page_docfx p) ->
  update_page (JNum (Z.of_nat i)) title content docfx_uid docfx_href w =
    (Ok (JNum (Z.of_nat i)),
     World (<[i := updated_page p title content docfx_uid docfx_href]> (server w))
           (sent w ++ [GET (UContentId (JNum (Z.of_nat i)));
                       PUT (UContentId (JNum (Z.of_nat i)))
                           (update_document (JNum (Z.of_nat i)) title
                              (page_space_key p) content (JNum (page_version p + 1)));
                       DELETE (UPropertyDocfx (JNum (Z.of_nat i)));
                       POST (UProperty (JNum (Z.of_nat i)))
                            (docfx_property docfx_uid docfx_href)])
           (stdout w)).
Proof.
  intros Hi [v Hv].
  assert (Hlt : (i < length (server w))%nat) by (eapply lookup_lt_Some; eauto).
  set (p1 := Page (JStr title) (page_space_key p) (storage_body (JStr content))
                  (page_version p + 1) (page_docfx p)).
  set (p2 := Page (JStr title) (page_space_key p) (storage_body (JStr content))
                  (page_version p + 1) None).
  apply (update_ignores_property_reply (R := store_remote)
           (JNum (Z.of_nat i)) title content docfx_uid docfx_href w
           (page_json i p) (JNum (page_version p)) (page_space_key p)
           (JNum (page_version p + 1)) (server w))
    with (submitted := page_json i p1) (s2 := <[i := p1]> (server w))
         (rep := EmptyBody) (removed := JObj []) (s3 := <[i := p2]> (server w))
         (attached := docfx_property docfx_uid docfx_href).
  - store_step. rewrite (change_page_eq i Some _ p p Hi eq_refl). reflexivity.
  - repeat split; reflexivity.
  - reflexivity.
  - store_step. rewrite (change_page_eq i _ _ p p1 Hi); [reflexivity|].
    unfold submit_page. simpl. rewrite bool_decide_eq_true_2 by reflexivity.
    reflexivity.
  - reflexivity.
  - store_step. rewrite (change_page_eq i detach_property _ p1 p2).
    + f_equal. apply list_insert_insert_eq.
    + apply list_lookup_insert_eq. exact Hlt.
    + unfold detach_property, p1. simpl. rewrite Hv. reflexivity.
  - reflexivity.
  - reflexivity.
  - store_step.
    rewrite (change_page_eq i _ _ p2 (updated_page p title content docfx_uid docfx_href)).
    + f_equal. apply list_insert_insert_eq.
    + apply list_lookup_insert_eq. exact Hlt.
    + reflexivity.
Qed.

(** On the page store, a creation goes through: the page is added at the
    end, with its property. *)
Lemma store_create_page space_key title content docfx_uid docfx_href
    (w : @world store_remote) :
  create_page space_key title content docfx_uid docfx_href w =
    (Ok (JNum (Z.of_nat (length (server w)))),
     World (server w ++ [created_page space_key title content docfx_uid docfx_href])%list
           (sent w ++ [create_request space_key title content;
                       POST (UProperty (JNum (Z.of_nat (length (server w)))))
                            (docfx_property docfx_uid docfx_href)])
           (stdout w)).
Proof.
  set (p0 := Page (JStr title) (JStr space_key) (storage_body (JStr content)) 1 None).
  apply (create_page_eq (R := store_remote)
           space_key title content docfx_uid docfx_href w
           (page_json (length (server w)) p0)
           (JNum (Z.of_nat (length (server w))))
           (docfx_property docfx_uid docfx_href)
           (server w ++ [p0])%list).
  - reflexivity.
  - reflexivity.
  - reflexivity.
  - store_step.
    rewrite (change_page_eq (length (server w)) _ _ p0
               (created_page space_key title content docfx_uid docfx_href)).
    + f_equal. apply insert_last.
    + apply lookup_last.
    + reflexivity.
Qed.

Lemma collect_results_app l1 l2 acc :
  collect_results (l1 ++ l2) acc = obind (collect_results l1 acc) (collect_results l2).
Proof.
  revert acc. induction l1 as [|x l1 IH]; intros acc; simpl; [reflexivity|].
  destruct (collect_result acc x); simpl; auto.
Qed.

Lemma listed_from_app o l1 l2 :
  listed_from o (l1 ++ l2) =
  (listed_from o l1 ++ listed_from (o + length l1) l2)%list.
Proof.
  revert o. induction l1 as [|p l1 IH]; intros o; simpl.
  - rewrite Nat.add_0_r. reflexivity.
  - rewrite IH. do 3 f_equal. lia.
Qed.

Lemma list_pages_size start limit s :
  getitem (list_pages start limit s) "size" =
  Ok (JNum (Z.of_nat (length (take (Z.to_nat limit) (drop (Z.to_nat start) s))))).
Proof. reflexivity. Qed.

Lemma list_pages_results start limit s :
  getitem (list_pages start limit s) "results" =
  Ok (JArr (listed_from (Z.to_nat start)
              (take (Z.to_nat limit) (drop (Z.to_nat start) s)))).
Proof. reflexivity. Qed.

(** On the page store the listing loop comes to its end: it returns what
    the loop body collects over all pages from [o] on, and it leaves the
    store as it is. *)
Lemma store_listing fuel :
  forall o acc (w : @world store_remote),
    (length (drop o (server w)) < fuel)%nat ->
    exists gets,
      get_confluence_mappings_from fuel (Z.of_nat o) acc w =
        (collect_results (listed_from o (drop o (server w))) acc,
         World (server w) (sent w ++ gets) (stdout w)).
Proof.
  induction fuel as [|fuel IH]; intros o acc w Hfuel; [lia|].
  cbn [get_confluence_mappings_from].
  erewrite bind_ok by (apply get_json_eq; store_step; reflexivity).
  unfold bind at 1, lift at 1. rewrite list_pages_size.
  rewrite Nat2Z.id. change (Z.to_nat step) with 50%nat.
  destruct (drop o (server w)) as [|p rest] eqn:Hdrop.
  - exists [GET (UContentList (Z.of_nat o) step)]. reflexivity.
  - rewrite <- Hdrop.
    set (found := take 50 (drop o (server w))).
    assert (Hfound : found <> []) by (unfold found; rewrite Hdrop; discriminate).
    unfold py_eq_zero. rewrite bool_decide_eq_false_2
      by (destruct found; [congruence|simpl; lia]).
    unfold bind at 1, lift at 1. rewrite list_pages_results.
    rewrite Nat2Z.id. change (Z.to_nat step) with 50%nat. fold found.
    unfold bind at 1, lift at 1. cbn [py_iter].
    assert (Hsplit : drop o (server w) = (found ++ drop (o + 50) (server w))%list).
    { unfold found. rewrite <- drop_drop. symmetry. apply take_drop. }
    assert (Hrest : listed_from (o + length found) (drop (o + 50) (server w)) =
                    listed_from (o + 50) (drop (o + 50) (server w))).
    { destruct (decide (length found = 50%nat)) as [->|Hshort]; [reflexivity|].
      assert (length found < 50)%nat
        by (unfold found in *; rewrite length_take in *; lia).
      assert (length (drop o (server w)) < 50)%nat
        by (unfold found in *; rewrite length_take in *; lia).
      rewrite (drop_ge (server w) (o + 50)); [reflexivity|].
      rewrite length_drop in *. lia. }
    assert (Hfull :
      collect_results (listed_from o (drop o (server w))) acc =
      obind (collect_results (listed_from o found) acc)
            (collect_results (listed_from (o + 50) (drop (o + 50) (server w))))).
    { rewrite Hsplit at 1. rewrite listed_from_app, collect_results_app, Hrest.
      reflexivity. }
    unfold bind at 1, lift at 1.
    destruct (collect_results (listed_from o found) acc) as [acc'| |] eqn:Hacc.
    + replace (Z.of_nat o + step) with (Z.of_nat (o + 50)) by (unfold step; lia).
      destruct (IH (o + 50)%nat acc'
                  (World (server w)
                     (sent w ++ [GET (UContentList (Z.of_nat o) step)]) (stdout w)))
        as (gets & Hgets).
      * assert (length (server w) - o = S (length rest))%nat
          by (rewrite <- length_drop, Hdrop; reflexivity).
        simpl in Hfuel |- *. rewrite length_drop. lia.
      * exists (GET (UContentList (Z.of_nat o) step) :: gets).
        rewrite Hgets, Hfull. simpl. rewrite <- app_assoc. reflexivity.
    + exists [GET (UContentList (Z.of_nat o) step)]. rewrite Hfull. reflexivity.
    + exists [GET (UContentList (Z.of_nat o) step)]. rewrite Hfull. reflexivity.
Qed.

Section UpdateStep.
Context {P : Platform} {R : Remote}.

(** One update, once the page's file is read and its links rewritten. *)
Lemma update_existing_eq base_directory mappings m w content out warnings i :
  read_page base_directory (href m) = Ok content ->
  transform_links (os_path_dirname (lstrip [slash] (href m))) content mappings
    = (Ok out, warnings) ->
  confluence_id m = Some i ->
  update_existing base_directory mappings tt m w =
    bind (update_page i (derived_title m) out (uid m) (href m))
         (fun _ => print (updated_line m i))
         (World (server w) (sent w)
                (stdout w ++ planned_line m (derived_title m)
                   :: warnings ++ [updating_line i])%list).
Proof.
  intros Hread Htransform Hid. unfold update_existing.
  unfold bind at 1, print at 1. cbv beta iota.
  unfold bind at 1, lift at 1. rewrite Hread. cbn [server sent stdout].
  rewrite Htransform.
  unfold bind at 1, prints at 1. cbv beta iota.
  unfold bind at 1, lift at 1. cbn [server sent stdout].
  unfold bind at 1, lift at 1. rewrite Hid.
  unfold bind at 1, print at 1. cbv beta iota. cbn [server sent stdout].
  rewrite <- !app_assoc. reflexivity.
Qed.

End UpdateStep.

Lemma scenario_survey fuel v :
  survey (S (S fuel)) [unit_a; unit_b] (@start store_remote [page_a v]) =
    (Ok (surveyed_index, [unit_b]), surveyed_world v).
Proof. vm_compute. reflexivity. Qed.

Lemma scenario_creation v :
  create_all surveyed_index [unit_b] (surveyed_world v) =
    (Ok created_index, created_world v).
Proof. vm_compute. reflexivity. Qed.

(** C2. The wiki holds one page, at version [v], whose attached
    identifier is ["a"]; the references are [a] and [b]; the two page
    files can be read and their links rewritten. The run then ends
    normally and sends, after the two listing requests: the creation of
    [b] with its metadata; the update of the page of [a], titled
    ["DocFX - A (a)"]; the update of the page of [b], titled
    ["DocFX - B (b)"]. There is one creation request, and the two content
    submissions follow it in this order. *)
Theorem two_unit_scenario {P : Platform} (fuel : nat) (args : arguments) (v : Z)
    (content_a content_b out_a out_b : string) (warnings_a warnings_b : list string) :
  let base_directory := os_path_dirname (docfx_manifest args) in
  read_page base_directory "a.html" = Ok content_a ->
  transform_links (os_path_dirname "a.html") content_a scenario_paths
    = (Ok out_a, warnings_a) ->
  read_page base_directory "sub/b.html" = Ok content_b ->
  transform_links (os_path_dirname "sub/b.html") content_b scenario_paths
    = (Ok out_b, warnings_b) ->
  let run :=
    main (S (S fuel)) args [unit_a; unit_b] (@start store_remote [page_a v]) in
  fst run = Ok tt /\
  sent (snd run) = scenario_requests v out_a out_b /\
  create_calls (sent (snd run)) = [create_request "TEST" "DocFX - B (b)" placeholder] /\
  List.filter is_update (sent (snd run)) =
    [PUT (UContentId (JNum 0))
         (update_document (JNum 0) "DocFX - A (a)" (JStr "DOCS") out_a (JNum (v + 1)));
     PUT (UContentId (JNum 1))
         (update_document (JNum 1) "DocFX - B (b)" (JStr "TEST") out_b (JNum 2))].
Proof.
  intros base_directory Hread_a Hlinks_a Hread_b Hlinks_b run.
  assert (Hrun : exists remote printed, run =
    (Ok tt, @World store_remote remote (scenario_requests v out_a out_b) printed)).
  { unfold run, main. rewrite (bind_ok _ _ _ _ _ (scenario_survey fuel v)).
    rewrite (bind_ok _ _ _ _ _ (scenario_creation v)).
    unfold update_all, created_index, created_world.
    cbn [existing_mappings docfx_href_to_confluence_id for_each].
    erewrite bind_ok.
    2: { rewrite (update_existing_eq _ _ matched_a _ content_a out_a warnings_a (JNum 0));
           [|exact Hread_a|exact Hlinks_a|reflexivity].
         erewrite bind_ok by
           (apply (store_update_page 0 (page_a v)); [reflexivity|eexists; reflexivity]).
         reflexivity. }
    erewrite bind_ok.
    2: { rewrite (update_existing_eq _ _ created_b _ content_b out_b warnings_b (JNum 1));
           [|exact Hread_b|exact Hlinks_b|reflexivity].
         erewrite bind_ok by
           (apply (store_update_page 1
                     (created_page "TEST" "DocFX - B (b)" placeholder "b" "sub/b.html"));
            [reflexivity|eexists; reflexivity]).
         reflexivity. }
    unfold ret. cbn [server sent stdout]. eexists. eexists. reflexivity. }
  destruct Hrun as (remote & printed & ->). repeat split; reflexivity.
Qed.

Lemma two_unit_scenario_witness :
  let run :=
    @main scenario_platform store_remote (S (S 3)) scenario_arguments
      [unit_a; unit_b] (@start store_remote [page_a 7]) in
  fst run = Ok tt /\
  sent (snd run) = scenario_requests 7 "<p>A</p>" "<p>B</p>" /\
  create_calls (sent (snd run)) = [create_request "TEST" "DocFX - B (b)" placeholder] /\
  List.filter is_update (sent (snd run)) =
    [PUT (UContentId (JNum 0))
         (update_document (JNum 0) "DocFX - A (a)" (JStr "DOCS") "<p>A</p>" (JNum (7 + 1)));
     PUT (UContentId (JNum 1))
         (update_document (JNum 1) "DocFX - B (b)" (JStr "TEST") "<p>B</p>" (JNum 2))].
Proof.
  apply (@two_unit_scenario scenario_platform 3 scenario_arguments 7
           "<p>A</p>" "<p>B</p>" "<p>A</p>" "<p>B</p>" [] []);
    reflexivity.
Defined.

Lemma created_units_are_resolvable_witness :
  [unit_b] =
    filter (fun m => docfx_uid_to_confluence_id surveyed_index !! uid m = None)
           [unit_a; unit_b] /\
  create_calls (sent (surveyed_world 7)) =
    create_calls (sent (@start store_remote [page_a 7])) /\
  create_calls (sent (created_world 7)) =
    (create_calls (sent (surveyed_world 7)) ++ map creation_of [unit_b])%list /\
  (forall m, m ∈ [unit_b] ->
             is_Some (docfx_uid_to_confluence_id created_index !! uid m) /\
             is_Some (docfx_href_to_confluence_id created_index !! href m)) /\
  @main scenario_platform store_remote 5 scenario_arguments [unit_a; unit_b]
    (@start store_remote [page_a 7]) =
    @update_all scenario_platform store_remote
      (@os_path_dirname scenario_platform (docfx_manifest scenario_arguments))
      created_index (created_world 7) /\
  create_calls
    (sent (snd (@main scenario_platform store_remote 5 scenario_arguments
                  [unit_a; unit_b] (@start store_remote [page_a 7]))))
    = create_calls (sent (created_world 7)).
Proof.
  apply (@created_units_are_resolvable scenario_platform store_remote 5
           scenario_arguments [unit_a; unit_b] (@start store_remote [page_a 7])
           (surveyed_world 7) (created_world 7) surveyed_index created_index [unit_b]).
  - vm_compute. reflexivity.
  - vm_compute. reflexivity.
Defined.

(* ===================================================================== *)
(** * Two runs in a row *)
(* ===================================================================== *)

Lemma keeps_identifiers_refl s : keeps_identifiers s s.
Proof. split; [|auto]. intros i p Hi. eauto. Qed.

Lemma keeps_identifiers_trans s1 s2 s3 :
  keeps_identifiers s1 s2 -> keeps_identifiers s2 s3 -> keeps_identifiers s1 s3.
Proof.
  intros [H12 L12] [H23 L23]. split; [|auto]. intros i p Hi.
  destruct (H12 i p Hi) as (p2 & Hi2 & Hu2).
  destruct (H23 i p2 Hi2) as (p3 & Hi3 & Hu3). exists p3. split; congruence.
Qed.

Lemma attached_kept s s' x :
  keeps_identifiers s s' -> attached s x -> attached s' x.
Proof.
  intros [Hkeep _] (i & p & Hi & Hu). destruct (Hkeep i p Hi) as (p' & Hi' & Hu').
  exists i, p'. split; congruence.
Qed.

Lemma well_matched_kept s s' m :
  keeps_identifiers s s' -> well_matched s m -> well_matched s' m.
Proof.
  intros [Hkeep _] (i & p & Hid & Hi & Hu). destruct (Hkeep i p Hi) as (p' & Hi' & Hu').
  exists i, p'. repeat split; congruence.
Qed.

Lemma legible_docfx_value p docfx_uid docfx_href :
  page_docfx p = Some (docfx_value docfx_uid docfx_href) -> legible p.
Proof.
  intros Hp. unfold legible. rewrite Hp.
  exists (JObj [("docfx_uid", JStr docfx_uid); ("docfx_href", JStr docfx_href)]),
         (JStr docfx_uid), docfx_href.
  repeat split; reflexivity.
Qed.

(** What the loop body collects from a listed page. *)
Lemma collect_result_listed acc i p :
  collect_result acc (listed_json i p) =
  match page_docfx p with
  | None => Ok acc
  | Some v =>
      do c <== getitem v "content";
      do u <== getitem c "docfx_uid";
      do h <== getitem c "docfx_href";
      Ok (acc ++ [Entry (JNum (Z.of_nat i)) u h])%list
  end.
Proof.
  unfold collect_result, listed_json. destruct (page_docfx p) as [v|]; reflexivity.
Qed.

Lemma collect_result_listed_ok acc i p entries :
  collect_result acc (listed_json i p) = Ok entries ->
  (attached_uid p = None /\ entries = acc) \/
  (exists u h, attached_uid p = Some u /\
               entries = (acc ++ [Entry (JNum (Z.of_nat i)) u h])%list).
Proof.
  rewrite collect_result_listed. unfold attached_uid.
  destruct (page_docfx p) as [v|]; [|intros [= <-]; auto].
  destruct (getitem v "content") as [c| |]; simpl; try discriminate.
  destruct (getitem c "docfx_uid") as [u| |]; simpl; try discriminate.
  destruct (getitem c "docfx_href") as [h| |]; simpl; try discriminate.
  intros [= <-]. right. eauto.
Qed.

(** The entries of a listing that came to its end: those it started with
    and one for each page that carries an identifier. *)
Lemma collect_results_listed ps :
  forall o acc entries,
    collect_results (listed_from o ps) acc = Ok entries ->
    (forall e, e ∈ acc -> e ∈ entries) /\
    (forall k p u, ps !! k = Some p -> attached_uid p = Some u ->
       exists e, e ∈ entries /\
                 entry_confluence_id e = JNum (Z.of_nat (o + k)) /\
                 entry_docfx_uid e = u) /\
    (forall e, e ∈ entries ->
       e ∈ acc \/
       exists k p, ps !! k = Some p /\
                   entry_confluence_id e = JNum (Z.of_nat (o + k)) /\
                   attached_uid p = Some (entry_docfx_uid e)).
Proof.
  induction ps as [|p ps IH]; intros o acc entries Hrun; simpl in Hrun.
  - injection Hrun as <-. repeat split; auto. intros k p u Hk. discriminate.
  - destruct (collect_result acc (listed_json o p)) as [acc1| |] eqn:Hp;
      try discriminate.
    simpl in Hrun. destruct (IH _ _ _ Hrun) as (Hacc & Hall & Hfrom).
    apply collect_result_listed_ok in Hp.
    split; [|split].
    + intros e He. apply Hacc.
      destruct Hp as [[_ ->]|(u & h & _ & ->)]; [assumption|].
      apply elem_of_app. auto.
    + intros [|k] q u Hk Hu; simpl in Hk.
      * injection Hk as ->.
        destruct Hp as [[Hnone _]|(u' & h & Hu' & ->)]; [congruence|].
        exists (Entry (JNum (Z.of_nat o)) u' h). split.
        -- apply Hacc, elem_of_app. right. apply list_elem_of_here.
        -- rewrite Nat.add_0_r. simpl. split; congruence.
      * destruct (Hall k q u Hk Hu) as (e & He & Hid & Heu).
        exists e. replace (o + S k)%nat with (S o + k)%nat by lia. auto.
    + intros e He. destruct (Hfrom e He) as [He1|(k & q & Hk & Hid & Hu)].
      * destruct Hp as [[_ ->]|(u & h & Hu & ->)]; [auto|].
        apply elem_of_app in He1 as [He1|He1]; [auto|].
        apply list_elem_of_singleton in He1 as ->. right.
        exists 0%nat, p. rewrite Nat.add_0_r. auto.
      * right. exists (S k), q. replace (o + S k)%nat with (S o + k)%nat by lia. auto.
Qed.

Lemma uid_table_spec entries :
  forall acc table,
    uid_table entries acc = Ok table ->
    (forall x, is_Some (acc !! x) -> is_Some (table !! x)) /\
    (forall e x, e ∈ entries -> entry_docfx_uid e = JStr x -> is_Some (table !! x)) /\
    (forall x i, table !! x = Some i ->
       acc !! x = Some i \/
       exists e, e ∈ entries /\ entry_docfx_uid e = JStr x /\
                 entry_confluence_id e = i).
Proof.
  induction entries as [|e entries IH]; intros acc table Hrun; simpl in Hrun.
  - injection Hrun as <-. repeat split; auto. intros e x He. inversion He.
  - destruct (entry_docfx_uid e) as [| | |x0| |] eqn:He; try discriminate.
    1-3: destruct (IH _ _ Hrun) as (Hacc & Hall & Hfrom); split; [|split];
      [ exact Hacc
      | intros e' x He' Hx; apply elem_of_cons in He' as [->|He']; [congruence|eauto]
      | intros x i Hx; destruct (Hfrom x i Hx) as [?|(e' & He' & ? & ?)];
        [auto|right; exists e'; split; [apply list_elem_of_further; exact He'|auto]] ].
    destruct (IH _ _ Hrun) as (Hacc & Hall & Hfrom). split; [|split].
    + intros x Hx. apply Hacc. rewrite lookup_insert_is_Some.
      destruct (decide (x0 = x)); auto.
    + intros e' x He' Hx. apply elem_of_cons in He' as [->|He']; [|eauto].
      apply Hacc. rewrite lookup_insert_is_Some. left. congruence.
    + intros x i Hx. destruct (Hfrom x i Hx) as [Hin|(e' & He' & ? & ?)].
      * destruct (decide (x0 = x)) as [->|Hne].
        -- rewrite lookup_insert_eq in Hin. injection Hin as <-. right.
           exists e. split; [apply list_elem_of_here|auto].
        -- rewrite lookup_insert_ne in Hin by exact Hne. auto.
      * right. exists e'. split; [apply list_elem_of_further; exact He'|auto].
Qed.

(** The first loop of [main] sends nothing: it returns the references the
    table knows, and leaves the wiki alone. *)
Lemma match_existing_loop {R : Remote} (table : gmap string json) docfx_mappings :
  forall acc w,
    exists printed,
      for_each (match_existing table) docfx_mappings acc w =
        (Ok (acc ++ matched table docfx_mappings)%list,
         World (server w) (sent w) (stdout w ++ printed)).
Proof.
  induction docfx_mappings as [|m rest IH]; intros acc w.
  - exists []. simpl. unfold ret. rewrite !app_nil_r. destruct w; reflexivity.
  - cbn [for_each matched]. unfold match_existing at 1.
    destruct (dict_get table (uid m)) as [i|].
    + unfold bind at 1, ret at 1.
      destruct (IH (acc ++ [set_confluence_id m i])%list w) as (printed & ->).
      exists printed. rewrite <- app_assoc. reflexivity.
    + unfold bind at 1. unfold bind at 1, print at 1, ret at 1. cbv beta iota.
      destruct (IH acc (World (server w) (sent w)
                          (stdout w ++ [warn_no_mapping (uid m)])%list))
        as (printed & ->).
      exists (warn_no_mapping (uid m) :: printed). simpl.
      rewrite <- app_assoc. reflexivity.
Qed.

Lemma matched_all (table : gmap string json) docfx_mappings :
  (forall m, m ∈ docfx_mappings -> is_Some (dict_get table (uid m))) ->
  map uid (matched table docfx_mappings) = map uid docfx_mappings.
Proof.
  induction docfx_mappings as [|m rest IH]; intros Hall; [reflexivity|].
  cbn [matched].
  destruct (Hall m (list_elem_of_here _ _)) as [i Hi]. rewrite Hi. simpl.
  f_equal. apply IH. intros m' Hm'. apply Hall. apply list_elem_of_further. exact Hm'.
Qed.

Lemma matched_inv (table : gmap string json) docfx_mappings m' :
  m' ∈ matched table docfx_mappings ->
  exists m i, m ∈ docfx_mappings /\ dict_get table (uid m) = Some i /\
              m' = set_confluence_id m i.
Proof.
  induction docfx_mappings as [|m rest IH]; cbn [matched]; intros Hm'.
  - inversion Hm'.
  - destruct (dict_get table (uid m)) as [i|] eqn:Hi.
    + apply elem_of_cons in Hm' as [->|Hm'].
      * exists m, i. split; [apply list_elem_of_here|auto].
      * destruct (IH Hm') as (m0 & i0 & Hm0 & Hi0 & ->).
        exists m0, i0. split; [apply list_elem_of_further; exact Hm0|auto].
    + destruct (IH Hm') as (m0 & i0 & Hm0 & Hi0 & ->).
      exists m0, i0. split; [apply list_elem_of_further; exact Hm0|auto].
Qed.

Lemma collect_results_total results :
  forall acc, collect_results results acc <> OutOfFuel.
Proof.
  induction results as [|r results IH]; intros acc; simpl; [discriminate|].
  destruct (collect_result acc r) as [acc1|e|] eqn:Hr; simpl; [apply IH|discriminate|].
  exfalso. revert Hr. unfold collect_result.
  repeat match goal with
         | |- context [getitem ?j ?k] =>
             let H := fresh in
             destruct (getitem j k) eqn:H; simpl; try discriminate;
             try (destruct j; simpl in H; try discriminate;
                  destruct (assoc _ _); discriminate)
         | |- context [contains ?k ?j] =>
             let H := fresh in
             destruct (contains k j) as [[|]| |] eqn:H; simpl; try discriminate;
             try (destruct j; discriminate)
         end.
Qed.

(** On the page store the listing pass comes to its end, computes
    [surveyed] and leaves the store as it is. *)
Lemma store_survey fuel docfx_mappings (w : @world store_remote) :
  (length (server w) < fuel)%nat ->
  exists gets printed,
    survey fuel docfx_mappings w =
      (surveyed (server w) docfx_mappings,
       World (server w) (sent w ++ gets) (stdout w ++ printed)).
Proof.
  intros Hfuel. unfold survey, surveyed, get_confluence_mappings.
  destruct (store_listing fuel 0 [] w) as (gets & Hlist).
  { rewrite drop_0. exact Hfuel. }
  rewrite drop_0 in Hlist. change (Z.of_nat 0) with 0 in Hlist.
  exists gets. unfold bind at 1. rewrite Hlist.
  destruct (collect_results (listed_from 0 (server w)) []) as [entries| |];
    try (exists []; rewrite app_nil_r; reflexivity).
  cbn [obind]. unfold bind at 1, lift at 1.
  destruct (uid_table entries ∅) as [by_uid| |];
    try (exists []; rewrite app_nil_r; reflexivity).
  cbn [obind]. unfold bind at 1, lift at 1.
  destruct (href_table entries ∅) as [by_href| |];
    try (exists []; rewrite app_nil_r; reflexivity).
  cbn [obind]. unfold bind at 1.
  destruct (match_existing_loop by_uid docfx_mappings []
              (World (server w) (sent w ++ gets) (stdout w)))
    as (printed & ->).
  exists printed. reflexivity.
Qed.

Lemma surveyed_total s docfx_mappings : surveyed s docfx_mappings <> OutOfFuel.
Proof.
  unfold surveyed.
  pose proof (collect_results_total (listed_from 0 s) []) as Hc.
  destruct (collect_results (listed_from 0 s) []) as [entries| |];
    [|discriminate|congruence].
  cbn [obind].
  assert (Huid : forall es acc, uid_table es acc <> OutOfFuel).
  { induction es as [|e es IH]; intros acc; simpl; [discriminate|].
    destruct (entry_docfx_uid e); auto; discriminate. }
  assert (Hhref : forall es acc, href_table es acc <> OutOfFuel).
  { induction es as [|e es IH]; intros acc; simpl; [discriminate|].
    destruct (entry_docfx_href e); auto; discriminate. }
  specialize (Huid entries ∅). specialize (Hhref entries ∅).
  destruct (uid_table entries ∅); [|discriminate|congruence]. cbn [obind].
  destruct (href_table entries ∅); [|discriminate|congruence]. discriminate.
Qed.

(** What the tables of a listing pass say about the store. *)
Lemma surveyed_ok s docfx_mappings ix new_mappings :
  surveyed s docfx_mappings = Ok (ix, new_mappings) ->
  existing_mappings ix = matched (docfx_uid_to_confluence_id ix) docfx_mappings /\
  new_mappings =
    filter (fun m => is_new (docfx_uid_to_confluence_id ix) m = true) docfx_mappings /\
  (forall x, attached s x -> is_Some (docfx_uid_to_confluence_id ix !! x)) /\
  (forall x i, docfx_uid_to_confluence_id ix !! x = Some i ->
     exists k p, i = JNum (Z.of_nat k) /\ s !! k = Some p /\
                 attached_uid p = Some (JStr x)).
Proof.
  unfold surveyed.
  destruct (collect_results (listed_from 0 s) []) as [entries| |] eqn:Hentries;
    try discriminate.
  cbn [obind].
  destruct (uid_table entries ∅) as [by_uid| |] eqn:Huid; try discriminate.
  cbn [obind].
  destruct (href_table entries ∅) as [by_href| |]; try discriminate.
  cbn [obind]. intros [= <- <-]. cbn [existing_mappings docfx_uid_to_confluence_id].
  destruct (collect_results_listed _ _ _ _ Hentries) as (_ & Hall & Hfrom).
  destruct (uid_table_spec _ _ _ Huid) as (_ & Hkeys & Hvalues).
  repeat split.
  - intros x (k & p & Hk & Hu).
    destruct (Hall k p _ Hk Hu) as (e & He & _ & Heu). eauto.
  - intros x i Hx. destruct (Hvalues x i Hx) as [Hx0|(e & He & Heu & Hei)].
    + rewrite lookup_empty in Hx0. discriminate.
    + destruct (Hfrom e He) as [He0|(k & p & Hk & Hid & Hu)]; [inversion He0|].
      exists k, p. change (0 + k)%nat with k in Hid.
      repeat split; first [assumption|congruence].
Qed.

Lemma keeps_identifiers_app (s : store) p :
  legible p -> keeps_identifiers s (s ++ [p])%list.
Proof.
  intros Hp. split.
  - intros i q Hi. exists q. split; [|reflexivity].
    apply lookup_app_l_Some. exact Hi.
  - intros Hs. apply Forall_app. split; [exact Hs|]. apply Forall_singleton. exact Hp.
Qed.

Lemma keeps_identifiers_insert (s : store) i p p' :
  s !! i = Some p -> attached_uid p' = attached_uid p -> legible p' ->
  keeps_identifiers s (<[i := p']> s).
Proof.
  intros Hi Hu Hp'. split.
  - intros j q Hj. destruct (decide (i = j)) as [<-|Hne].
    + exists p'. rewrite list_lookup_insert_eq by (eapply lookup_lt_Some; eauto).
      split; congruence.
    + exists q. rewrite list_lookup_insert_ne by exact Hne. auto.
  - intros Hs. apply Forall_insert; assumption.
Qed.

(** On the page store a creation step goes through. *)
Lemma store_create_new ix m (w : @world store_remote) :
  let i := JNum (Z.of_nat (length (server w))) in
  exists requests printed,
    create_new ix m w =
      (Ok (Index (<[uid m := i]> (docfx_uid_to_confluence_id ix))
                 (<[href m := i]> (docfx_href_to_confluence_id ix))
                 (existing_mappings ix
                  ++ [set_confluence_id (set_title m (derived_title m)) i])%list),
       World (server w
              ++ [created_page "TEST" (derived_title m) placeholder (uid m) (href m)])%list
             (sent w ++ requests) (stdout w ++ printed)).
Proof.
  intros i. unfold create_new.
  unfold bind at 1, print at 1. cbv beta iota.
  erewrite bind_ok by apply store_create_page.
  unfold bind at 1, print at 1, ret. cbv beta iota. cbn [server sent stdout].
  eexists. eexists. rewrite <- app_assoc. reflexivity.
Qed.

Lemma store_create_loop new_mappings :
  forall ix (w : @world store_remote),
    Forall (well_matched (server w)) (existing_mappings ix) ->
    exists ix' w',
      for_each create_new new_mappings ix w = (Ok ix', w') /\
      keeps_identifiers (server w) (server w') /\
      Forall (well_matched (server w')) (existing_mappings ix') /\
      (forall m, m ∈ new_mappings -> attached (server w') (uid m)).
Proof.
  induction new_mappings as [|m rest IH]; intros ix w Hmatched.
  - exists ix, w. split; [reflexivity|]. split; [apply keeps_identifiers_refl|].
    split; [exact Hmatched|]. intros m Hm. inversion Hm.
  - cbn [for_each].
    destruct (store_create_new ix m w) as (requests & printed & Hnew).
    cbv zeta in Hnew. rewrite (bind_ok _ _ _ _ _ Hnew).
    set (p := created_page "TEST" (derived_title m) placeholder (uid m) (href m)) in *.
    assert (Hkeep : keeps_identifiers (server w) (server w ++ [p])%list)
      by (apply keeps_identifiers_app; eapply legible_docfx_value; reflexivity).
    match goal with
    | |- context [for_each create_new rest ?ix1 ?w1] =>
        destruct (IH ix1 w1) as (ix' & w' & Hrun & Hkeep' & Hmatched' & Hnew')
    end.
    + cbn [existing_mappings server]. apply Forall_app. split.
      * eapply Forall_impl; [exact Hmatched|].
        intros m0. apply well_matched_kept. exact Hkeep.
      * apply Forall_singleton. exists (length (server w)), p.
        repeat split; [apply lookup_last].
    + exists ix', w'. cbn [server] in Hkeep', Hnew'.
      split; [exact Hrun|]. split; [eapply keeps_identifiers_trans; eauto|].
      split; [exact Hmatched'|].
      intros m0 Hm0. apply elem_of_cons in Hm0 as [->|Hm0]; [|auto].
      eapply attached_kept; [exact Hkeep'|].
      exists (length (server w)), p. split; [apply lookup_last|reflexivity].
Qed.

Section UpdatePass.
Context {P : Platform}.

(** On the page store an update step, however it ends, leaves every page
    with the identifier it had. *)
Lemma store_update_existing base_directory mappings m (w : @world store_remote) :
  well_matched (server w) m ->
  keeps_identifiers (server w)
    (server (snd (update_existing base_directory mappings tt m w))).
Proof.
  intros (i & p & Hid & Hi & Hu). unfold update_existing.
  unfold bind at 1, print at 1. cbv beta iota.
  unfold bind at 1, lift at 1.
  destruct (read_page base_directory (href m)) as [content| |];
    try apply keeps_identifiers_refl.
  destruct (transform_links _ content mappings) as [transformed warnings].
  unfold bind at 1, prints at 1. cbv beta iota.
  unfold bind at 1, lift at 1.
  destruct transformed as [out| |]; try apply keeps_identifiers_refl.
  unfold bind at 1, lift at 1. rewrite Hid.
  unfold bind at 1, print at 1. cbv beta iota.
  assert (Hdocfx : is_Some (page_docfx p)).
  { unfold attached_uid in Hu. destruct (page_docfx p); [eauto|discriminate]. }
  erewrite bind_ok by (apply (store_update_page i p); [exact Hi|exact Hdocfx]).
  unfold print. cbn [snd server].
  apply (keeps_identifiers_insert _ i p); [exact Hi| |].
  - rewrite Hu. reflexivity.
  - eapply legible_docfx_value. reflexivity.
Qed.

Lemma store_update_loop base_directory mappings existing :
  forall (w : @world store_remote),
    Forall (well_matched (server w)) existing ->
    keeps_identifiers (server w)
      (server (snd (for_each (update_existing base_directory mappings) existing tt w))).
Proof.
  induction existing as [|m rest IH]; intros w Hmatched; cbn [for_each].
  - apply keeps_identifiers_refl.
  - inversion Hmatched as [|? ? Hm Hrest]; subst.
    pose proof (store_update_existing base_directory mappings m w Hm) as Hstep.
    unfold bind.
    destruct (update_existing base_directory mappings tt m w) as [[[]| |] w1];
      cbn [snd] in *; try exact Hstep.
    eapply keeps_identifiers_trans; [exact Hstep|]. apply IH.
    eapply Forall_impl; [exact Hrest|]. intros m0. apply well_matched_kept. exact Hstep.
Qed.

End UpdatePass.

Lemma collect_result_listed_inv acc i p entries :
  collect_result acc (listed_json i p) = Ok entries ->
  (page_docfx p = None /\ entries = acc) \/
  (exists v c u h,
     page_docfx p = Some v /\ getitem v "content" = Ok c /\
     getitem c "docfx_uid" = Ok u /\ getitem c "docfx_href" = Ok h /\
     entries = (acc ++ [Entry (JNum (Z.of_nat i)) u h])%list).
Proof.
  rewrite collect_result_listed.
  destruct (page_docfx p) as [v|]; [|intros [= <-]; auto].
  destruct (getitem v "content") as [c| |] eqn:Hc; simpl; try discriminate.
  destruct (getitem c "docfx_uid") as [u| |] eqn:Hu; simpl; try discriminate.
  destruct (getitem c "docfx_href") as [h| |] eqn:Hh; simpl; try discriminate.
  intros [= <-]. right. exists v, c, u, h. auto.
Qed.

Lemma uid_table_accepts entries :
  forall acc table, uid_table entries acc = Ok table ->
                    Forall (fun e => hashable (entry_docfx_uid e) = true) entries.
Proof.
  induction entries as [|e entries IH]; intros acc table Hrun; [constructor|].
  simpl in Hrun. destruct (entry_docfx_uid e) eqn:He; try discriminate;
    (constructor; [rewrite He; reflexivity|eapply IH; eauto]).
Qed.

Lemma href_table_accepts entries :
  forall acc table, href_table entries acc = Ok table ->
                    Forall (fun e => exists h, entry_docfx_href e = JStr h) entries.
Proof.
  induction entries as [|e entries IH]; intros acc table Hrun; [constructor|].
  simpl in Hrun. destruct (entry_docfx_href e) eqn:He; try discriminate.
  constructor; [eauto|eapply IH; eauto].
Qed.

Lemma uid_table_builds entries :
  Forall entry_ok entries -> forall acc, exists table, uid_table entries acc = Ok table.
Proof.
  induction 1 as [|e entries [He _] _ IH]; intros acc; simpl; [eauto|].
  destruct (entry_docfx_uid e); try discriminate; apply IH.
Qed.

Lemma href_table_builds entries :
  Forall entry_ok entries -> forall acc, exists table, href_table entries acc = Ok table.
Proof.
  induction 1 as [|e entries [_ [h He]] _ IH]; intros acc; simpl; [eauto|].
  rewrite He. apply IH.
Qed.

Lemma legible_of_listing ps :
  forall o acc entries,
    collect_results (listed_from o ps) acc = Ok entries ->
    Forall (fun e => hashable (entry_docfx_uid e) = true) entries ->
    Forall (fun e => exists h, entry_docfx_href e = JStr h) entries ->
    Forall legible ps.
Proof.
  induction ps as [|p ps IH]; intros o acc entries Hrun Huid Hhref; [constructor|].
  simpl in Hrun.
  destruct (collect_result acc (listed_json o p)) as [acc1| |] eqn:Hp;
    try discriminate.
  simpl in Hrun. constructor; [|eapply IH; eauto].
  destruct (collect_results_listed _ _ _ _ Hrun) as (Hacc & _ & _).
  apply collect_result_listed_inv in Hp
    as [[Hnone _]|(v & c & u & h & Hv & Hc & Hu & Hh & ->)];
    unfold legible.
  - rewrite Hnone. exact I.
  - rewrite Hv.
    assert (He : Entry (JNum (Z.of_nat o)) u h ∈ entries).
    { apply Hacc, elem_of_app. right. apply list_elem_of_here. }
    rewrite Forall_forall in Huid, Hhref.
    pose proof (Huid _ He) as Hhash. destruct (Hhref _ He) as [h' Hh']. simpl in *.
    subst h. exists c, u, h'. auto.
Qed.

Lemma listing_of_legible ps :
  Forall legible ps ->
  forall o acc, exists entries,
    collect_results (listed_from o ps) acc = Ok (acc ++ entries)%list /\
    Forall entry_ok entries.
Proof.
  induction 1 as [|p ps Hp _ IH]; intros o acc; simpl.
  - exists []. rewrite app_nil_r. auto.
  - rewrite collect_result_listed. unfold legible in Hp.
    destruct (page_docfx p) as [v|].
    + destruct Hp as (c & u & h & Hc & Hu & Hh & Hhash).
      rewrite Hc. cbn [obind]. rewrite Hu. cbn [obind]. rewrite Hh. cbn [obind].
      destruct (IH (S o) (acc ++ [Entry (JNum (Z.of_nat o)) u (JStr h)])%list)
        as (entries & -> & Hok).
      exists (Entry (JNum (Z.of_nat o)) u (JStr h) :: entries).
      rewrite <- app_assoc. split; [reflexivity|].
      constructor; [|exact Hok]. split; simpl; eauto.
    + simpl. apply IH.
Qed.

(** The listing pass completes exactly on stores whose metadata is
    legible. *)
Lemma surveyed_legible s docfx_mappings r :
  surveyed s docfx_mappings = Ok r -> Forall legible s.
Proof.
  unfold surveyed.
  destruct (collect_results (listed_from 0 s) []) as [entries| |] eqn:Hentries;
    try discriminate.
  cbn [obind].
  destruct (uid_table entries ∅) as [by_uid| |] eqn:Huid; try discriminate.
  cbn [obind].
  destruct (href_table entries ∅) as [by_href| |] eqn:Hhref; try discriminate.
  intros _. eapply legible_of_listing; eauto using uid_table_accepts, href_table_accepts.
Qed.

Lemma legible_surveyed s docfx_mappings :
  Forall legible s -> exists r, surveyed s docfx_mappings = Ok r.
Proof.
  intros Hs. unfold surveyed.
  destruct (listing_of_legible s Hs 0%nat []) as (entries & -> & Hok).
  cbn [obind app].
  destruct (uid_table_builds entries Hok ∅) as (by_uid & ->). cbn [obind].
  destruct (href_table_builds entries Hok ∅) as (by_href & ->). cbn [obind].
  eauto.
Qed.

Lemma filter_none {A} (Q : A -> Prop) `{forall x, Decision (Q x)} (l : list A) :
  (forall x, x ∈ l -> ~ Q x) -> filter Q l = [].
Proof.
  induction l as [|x l IH]; intros Hnone; [reflexivity|].
  rewrite filter_cons_False by (apply Hnone, list_elem_of_here).
  apply IH. intros y Hy. apply Hnone, list_elem_of_further, Hy.
Qed.

Lemma dict_get_Some (d : gmap string json) k v :
  dict_get d k = Some v -> d !! k = Some v.
Proof.
  unfold dict_get. destruct (d !! k) as [[]|]; congruence.
Qed.

Lemma dict_get_number (d : gmap string json) k n :
  d !! k = Some (JNum n) -> dict_get d k = Some (JNum n).
Proof. unfold dict_get. intros ->. reflexivity. Qed.

Lemma store_create_all ix new_mappings (w : @world store_remote) :
  Forall (well_matched (server w)) (existing_mappings ix) ->
  exists ix' w',
    create_all ix new_mappings w = (Ok ix', w') /\
    keeps_identifiers (server w) (server w') /\
    Forall (well_matched (server w')) (existing_mappings ix') /\
    (forall m, m ∈ new_mappings -> attached (server w') (uid m)).
Proof.
  intros Hmatched. unfold create_all. destruct new_mappings as [|m0 rest].
  - exists ix, w. split; [reflexivity|]. split; [apply keeps_identifiers_refl|].
    split; [exact Hmatched|]. intros m Hm. inversion Hm.
  - unfold bind at 1, print at 1. cbv beta iota.
    apply (store_create_loop (m0 :: rest) ix
             (World (server w) (sent w)
                    (stdout w ++ [need_to_create (length (m0 :: rest))])%list)).
    exact Hmatched.
Qed.

Lemma surveyed_well_matched s docfx_mappings ix new_mappings :
  surveyed s docfx_mappings = Ok (ix, new_mappings) ->
  Forall (well_matched s) (existing_mappings ix).
Proof.
  intros Hs. destruct (surveyed_ok _ _ _ _ Hs) as (-> & _ & _ & Hvalues).
  apply Forall_forall. intros m' Hm'.
  destruct (matched_inv _ _ _ Hm') as (m & i & _ & Hi & ->).
  destruct (Hvalues _ _ (dict_get_Some _ _ _ Hi)) as (k & p & -> & Hk & Hu).
  exists k, p. auto.
Qed.

Section TwoRuns.
Context {P : Platform}.
Variables (args : arguments) (docfx_mappings : list mapping).

(** A run that gets past its listing pass leaves every reference with a
    page that carries its identifier. *)
Lemma first_run_covers (s0 : store) ix new_mappings :
  surveyed s0 docfx_mappings = Ok (ix, new_mappings) ->
  let s1 := server (snd (main (enough_fuel s0) args docfx_mappings
                           (@start store_remote s0))) in
  keeps_identifiers s0 s1 /\
  (forall m, m ∈ docfx_mappings -> attached s1 (uid m)).
Proof.
  intros Hsurveyed.
  destruct (store_survey (enough_fuel s0) docfx_mappings (@start store_remote s0))
    as (gets & printed & Hsurvey); [unfold enough_fuel; simpl; lia|].
  cbn [server start] in Hsurvey. rewrite Hsurveyed in Hsurvey.
  unfold main. rewrite (bind_ok _ _ _ _ _ Hsurvey).
  match type of Hsurvey with
  | _ = (_, ?w1) =>
      destruct (store_create_all ix new_mappings w1)
        as (ix' & w2 & Hcreate & Hkeep & Hmatched & Hnew)
  end.
  { cbn [server]. eapply surveyed_well_matched; eauto. }
  rewrite (bind_ok _ _ _ _ _ Hcreate). cbn [server] in Hkeep.
  pose proof (store_update_loop (os_path_dirname (docfx_manifest args))
                (docfx_href_to_confluence_id ix') (existing_mappings ix') w2 Hmatched)
    as Hupdate.
  fold (update_all (os_path_dirname (docfx_manifest args)) ix') in Hupdate.
  cbv zeta. split; [eapply keeps_identifiers_trans; eauto|].
  intros m Hm. eapply attached_kept; [exact Hupdate|].
  destruct (surveyed_ok _ _ _ _ Hsurveyed) as (_ & Hfilter & _ & Hvalues).
  destruct (is_new (docfx_uid_to_confluence_id ix) m) eqn:Hnewm.
  - apply Hnew. rewrite Hfilter. apply list_elem_of_filter. auto.
  - eapply attached_kept; [exact Hkeep|].
    unfold is_new in Hnewm. apply negb_false_iff, bool_decide_eq_true in Hnewm.
    destruct Hnewm as [i Hi].
    destruct (Hvalues _ _ Hi) as (k & p & _ & Hk & Hu). exists k, p. auto.
Qed.

(** A run that does not get past its listing pass leaves the store as it
    was. *)
Lemma first_run_idle (s0 : store) :
  (forall r, surveyed s0 docfx_mappings <> Ok r) ->
  server (snd (main (enough_fuel s0) args docfx_mappings (@start store_remote s0)))
    = s0.
Proof.
  intros Hfail.
  destruct (store_survey (enough_fuel s0) docfx_mappings (@start store_remote s0))
    as (gets & printed & Hsurvey); [unfold enough_fuel; simpl; lia|].
  cbn [server start] in Hsurvey. unfold main, bind at 1. rewrite Hsurvey.
  destruct (surveyed s0 docfx_mappings) as [r| |]; [|reflexivity..].
  exfalso. eapply Hfail. reflexivity.
Qed.

(** On a store where every reference has a page with its identifier, the
    listing pass finds nothing to create and matches every reference. *)
Lemma covered_store_matches (s1 : store) ix new_mappings :
  (forall m, m ∈ docfx_mappings -> attached s1 (uid m)) ->
  surveyed s1 docfx_mappings = Ok (ix, new_mappings) ->
  new_mappings = [] /\
  map uid (existing_mappings ix) = map uid docfx_mappings.
Proof.
  intros Hcovered Hsurveyed.
  destruct (surveyed_ok _ _ _ _ Hsurveyed) as (-> & -> & Hkeys & Hvalues).
  split.
  - apply filter_none. intros m Hm Hnewm. apply is_new_absent in Hnewm.
    destruct (Hkeys _ (Hcovered m Hm)) as [i Hi]. congruence.
  - apply matched_all. intros m Hm.
    destruct (Hkeys _ (Hcovered m Hm)) as [i Hi].
    destruct (Hvalues _ _ Hi) as (k & _ & -> & _).
    rewrite (dict_get_number _ _ _ Hi). eauto.
Qed.

(** A run whose listing pass finds nothing to create sends no creation
    request. *)
Lemma run_without_new {R : Remote} fuel (w : world) r w1 :
  survey fuel docfx_mappings w = (r, w1) ->
  (forall ix new_mappings, r = Ok (ix, new_mappings) -> new_mappings = []) ->
  create_calls (sent (snd (main fuel args docfx_mappings w))) = create_calls (sent w).
Proof.
  intros Hsurvey Hnone.
  destruct (emits_survey fuel docfx_mappings w) as (rest & Hsent & Hquiet).
  rewrite Hsurvey in Hsent. cbn [snd] in Hsent.
  assert (Hw1 : create_calls (sent w1) = create_calls (sent w)).
  { rewrite Hsent, create_calls_app, (create_calls_none _ Hquiet), app_nil_r.
    reflexivity. }
  unfold main, bind at 1. rewrite Hsurvey.
  destruct r as [[ix new_mappings]| |]; [|exact Hw1..].
  rewrite (Hnone ix new_mappings eq_refl). unfold create_all.
  unfold bind at 1, ret at 1.
  destruct (emits_update_all (os_path_dirname (docfx_manifest args)) ix w1)
    as (rest' & Hsent' & Hquiet').
  rewrite Hsent', create_calls_app, (create_calls_none _ Hquiet'), app_nil_r.
  exact Hw1.
Qed.

End TwoRuns.

Lemma store_listing_total (s : store) :
  fst (get_confluence_mappings (enough_fuel s) (@start store_remote s)) <> OutOfFuel.
Proof.
  unfold get_confluence_mappings.
  destruct (store_listing (enough_fuel s) 0 [] (@start store_remote s)) as (gets & Hlist).
  { rewrite drop_0. unfold enough_fuel. simpl. lia. }
  change (Z.of_nat 0) with 0 in Hlist. rewrite Hlist. cbn [fst].
  apply collect_results_total.
Qed.

(** C1. Against a wiki that honours its interface, run the script twice in
    a row on the same references, the second run starting from the store
    the first one left. Both listings come to their end, and the second
    run sends no creation request. Moreover, when the first run got past
    its listing pass (so that it created what was missing), the listing
    pass of the second run completes, finds no reference to create and
    matches every reference by its identifier, so each one is only
    updated. *)
Theorem second_run_creates_nothing {P : Platform}
    (args : arguments) (docfx_mappings : list mapping) (s0 : store) :
  let run1 := main (enough_fuel s0) args docfx_mappings (@start store_remote s0) in
  let s1 : store := server (snd run1) in
  let run2 := main (enough_fuel s1) args docfx_mappings (@start store_remote s1) in
  fst (get_confluence_mappings (enough_fuel s0) (@start store_remote s0)) <> OutOfFuel /\
  fst (get_confluence_mappings (enough_fuel s1) (@start store_remote s1)) <> OutOfFuel /\
  create_calls (sent (snd run2)) = [] /\
  (forall r w1,
     survey (enough_fuel s0) docfx_mappings (@start store_remote s0) = (Ok r, w1) ->
     exists ix w2,
       survey (enough_fuel s1) docfx_mappings (@start store_remote s1)
         = (Ok (ix, []), w2) /\
       map uid (existing_mappings ix) = map uid docfx_mappings).
Proof.
  intros run1 s1 run2.
  destruct (store_survey (enough_fuel s0) docfx_mappings (@start store_remote s0))
    as (gets0 & printed0 & Hsurvey0); [unfold enough_fuel; simpl; lia|].
  destruct (store_survey (enough_fuel s1) docfx_mappings (@start store_remote s1))
    as (gets1 & printed1 & Hsurvey1); [unfold enough_fuel; simpl; lia|].
  cbn [server start] in Hsurvey0, Hsurvey1.
  split; [apply store_listing_total|]. split; [apply store_listing_total|].
  assert (Hcovered : forall ix new_mappings,
            surveyed s0 docfx_mappings = Ok (ix, new_mappings) ->
            keeps_identifiers s0 s1 /\
            (forall m, m ∈ docfx_mappings -> attached s1 (uid m))).
  { intros ix new_mappings Hs0. exact (first_run_covers args docfx_mappings s0 _ _ Hs0). }
  split.
  - unfold run2. erewrite run_without_new; [reflexivity|exact Hsurvey1|].
    intros ix2 new2 Hs1.
    destruct (surveyed s0 docfx_mappings) as [[ix new_mappings]| |] eqn:Hs0.
    + destruct (Hcovered _ _ eq_refl) as [_ Hall].
      eapply covered_store_matches; eauto.
    + assert (Hidle : s1 = s0).
      { apply first_run_idle. intros r. rewrite Hs0. discriminate. }
      rewrite Hidle, Hs0 in Hs1. discriminate.
    + assert (Hidle : s1 = s0).
      { apply first_run_idle. intros r. rewrite Hs0. discriminate. }
      rewrite Hidle, Hs0 in Hs1. discriminate.
  - intros [ix new_mappings] w1 Hrun. rewrite Hsurvey0 in Hrun.
    injection Hrun as Hs0 _.
    destruct (Hcovered _ _ Hs0) as [[_ Hlegible] Hall].
    destruct (legible_surveyed s1 docfx_mappings) as ([ix2 new2] & Hs1).
    { apply Hlegible. eapply surveyed_legible; eauto. }
    destruct (covered_store_matches docfx_mappings s1 _ _ Hall Hs1) as [-> Huids].
    rewrite Hs1 in Hsurvey1. eauto.
Qed.

(** The two-unit scenario, run twice: the first run creates the page of
    [b], the second run creates nothing. *)
Example scenario_twice :
  let run1 :=
    @main scenario_platform store_remote (enough_fuel [page_a 7]) scenario_arguments
      [unit_a; unit_b] (@start store_remote [page_a 7]) in
  let s1 : store := server (snd run1) in
  let run2 :=
    @main scenario_platform store_remote (enough_fuel s1) scenario_arguments
      [unit_a; unit_b] (@start store_remote s1) in
  fst run1 = Ok tt /\
  create_calls (sent (snd run1)) = [creation_of unit_b] /\
  fst run2 = Ok tt /\
  create_calls (sent (snd run2)) = [] /\
  length (List.filter is_update (sent (snd run2))) = 2%nat.
Proof. vm_compute. repeat split; reflexivity. Qed.

(* ===================================================================== *)
(** * Further properties of the link rewriter *)
(* ===================================================================== *)

Lemma lstrip_slash_no_leading_slash s : leading_slash (lstrip [slash] s) = false.
Proof.
  induction s as [|c s IH]; [reflexivity|]. simpl.
  destruct (bool_decide (c ∈ [slash])) eqn:Hc; [exact IH|].
  simpl. apply bool_decide_eq_false. intros ->.
  apply bool_decide_eq_false in Hc. apply Hc, list_elem_of_here.
Qed.

(** The keys of the path table built from the wiki's listing never start
    with a slash. *)
Theorem href_table_keys_have_no_leading_slash (entries : list entry)
    (acc table : gmap string json) :
  (forall k, is_Some (acc !! k) -> leading_slash k = false) ->
  href_table entries acc = Ok table ->
  forall k, is_Some (table !! k) -> leading_slash k = false.
Proof.
  revert acc. induction entries as [|e entries IH]; intros acc Hacc Hrun; simpl in Hrun.
  - injection Hrun as <-. exact Hacc.
  - destruct (entry_docfx_href e) as [| | |h| |]; try discriminate.
    eapply IH; [|exact Hrun]. intros k Hk.
    apply lookup_insert_is_Some in Hk as [<-|[_ Hk]]; [|auto].
    apply lstrip_slash_no_leading_slash.
Qed.

Lemma href_table_keys_have_no_leading_slash_witness :
  leading_slash "a.html" = false.
Proof.
  apply (href_table_keys_have_no_leading_slash
           [Entry (JNum 0) (JStr "a") (JStr "//a.html")] ∅
           (<["a.html" := JNum 0]> ∅)).
  - intros k [v Hk]. rewrite lookup_empty in Hk. discriminate.
  - reflexivity.
  - exists (JNum 0). apply lookup_insert_eq.
Defined.

Section RootLinks.
Context {P : Platform}.
Variable mappings : gmap string json.
Hypothesis Hkeys : forall k, is_Some (mappings !! k) -> leading_slash k = false.

Lemma root_lookup_misses path : dict_get mappings (relative_path_of "" path) = None.
Proof.
  unfold dict_get.
  destruct (mappings !! relative_path_of "" path) as [v|] eqn:Hv; [|reflexivity].
  assert (Hs : leading_slash (relative_path_of "" path) = false) by (apply Hkeys; eauto).
  discriminate Hs.
Qed.

Lemma root_anchor_unchanged root p r out :
  rewrite_anchor "" mappings root p = (r, out) ->
  r = Ok root \/ r = Raise ValueError.
Proof.
  unfold rewrite_anchor.
  destruct (element_at root p) as [anchor|]; [|intros [= <- _]; auto].
  destruct (attrib_get "href" (attrib_of anchor)) as [h|]; [|intros [= <- _]; auto].
  destruct (urlparse_path h) as [path|]; [|intros [= <- _]; auto].
  rewrite root_lookup_misses. intros [= <- _]. auto.
Qed.

Lemma root_anchors_unchanged anchors :
  forall root r out,
    rewrite_anchors "" mappings anchors root = (r, out) ->
    r = Ok root \/ r = Raise ValueError.
Proof.
  induction anchors as [|p rest IH]; intros root r out Hrun; simpl in Hrun.
  - injection Hrun as <- _. auto.
  - destruct (rewrite_anchor "" mappings root p) as [r1 out1] eqn:Hp.
    destruct (root_anchor_unchanged _ _ _ _ Hp) as [->| ->].
    + destruct (rewrite_anchors "" mappings rest root) as [r2 out2] eqn:Hrest.
      injection Hrun as <- _. eapply IH; eauto.
    + injection Hrun as <- _. auto.
Qed.

End RootLinks.

(** For a page at the site root (base directory [""]) and a path table
    whose keys have no leading slash, no link is rewritten: the result is
    the serialization of the tree as parsed, unless the URL parser raises. *)
Theorem root_page_links_never_rewritten {P : Platform}
    (content : string) (mappings : gmap string json) (root : element) :
  (forall k, is_Some (mappings !! k) -> leading_slash k = false) ->
  fragment_fromstring content = Some root ->
  fst (transform_links "" content mappings) = Ok (serialize_children root) \/
  fst (transform_links "" content mappings) = Raise ValueError.
Proof.
  intros Hkeys Hparse. unfold transform_links. rewrite Hparse.
  destruct (rewrite_anchors "" mappings (cssselect_xref root) root) as [r out] eqn:Hrun.
  destruct (root_anchors_unchanged mappings Hkeys _ _ _ _ Hrun) as [->| ->]; auto.
Qed.

Lemma root_page_links_never_rewritten_witness :
  fst (@transform_links link_platform "" anchor_c_markup {["c.html" := JNum 42]})
    = Ok (@serialize_children link_platform (fragment EmptyString [anchor_c])) \/
  fst (@transform_links link_platform "" anchor_c_markup {["c.html" := JNum 42]})
    = Raise ValueError.
Proof.
  apply (@root_page_links_never_rewritten link_platform anchor_c_markup
           {["c.html" := JNum 42]} (fragment EmptyString [anchor_c])).
  - intros k [v Hk]. apply lookup_singleton_Some in Hk as [<- _]. reflexivity.
  - reflexivity.
Defined.

Lemma attrib_get_set_eq k v a : attrib_get k (attrib_set k v a) = Some v.
Proof.
  induction a as [|[k' v'] a IH]; simpl.
  - rewrite String.eqb_refl. reflexivity.
  - destruct (String.eqb k k') eqn:Hk; simpl.
    + rewrite String.eqb_refl. reflexivity.
    + rewrite Hk. exact IH.
Qed.

Lemma attrib_get_set_ne k k0 v a :
  k0 <> k -> attrib_get k0 (attrib_set k v a) = attrib_get k0 a.
Proof.
  intros Hne. induction a as [|[k' v'] a IH]; simpl.
  - destruct (String.eqb k0 k) eqn:Hk; [|reflexivity].
    apply String.eqb_eq in Hk. contradiction.
  - destruct (String.eqb k k') eqn:Hk; simpl.
    + apply String.eqb_eq in Hk. subst k'.
      destruct (String.eqb k0 k) eqn:Hk0; [|reflexivity].
      apply String.eqb_eq in Hk0. contradiction.
    + destruct (String.eqb k0 k'); [reflexivity|exact IH].
Qed.

Lemma attrib_set_names k v a h :
  attrib_get k a = Some h -> map fst (attrib_set k v a) = map fst a.
Proof.
  induction a as [|[k' v'] a IH]; simpl; [discriminate|].
  destruct (String.eqb k k') eqn:Hk; simpl.
  - apply String.eqb_eq in Hk. subst k'. reflexivity.
  - intros Hget. rewrite IH by exact Hget. reflexivity.
Qed.

Lemma same_shell_refl e : same_shell e e.
Proof. repeat split. Qed.

Lemma same_shell_trans e1 e2 e3 : same_shell e1 e2 -> same_shell e2 e3 -> same_shell e1 e3.
Proof.
  intros (H1 & H2 & H3 & H4) (G1 & G2 & G3 & G4).
  unfold same_shell. rewrite G1, G2, G3, G4. auto.
Qed.

Lemma only_href_differs_refl e : only_href_differs e e.
Proof. split; [apply same_shell_refl|]. split; [reflexivity|]. intros; reflexivity. Qed.

Lemma only_href_differs_trans e1 e2 e3 :
  only_href_differs e1 e2 -> only_href_differs e2 e3 -> only_href_differs e1 e3.
Proof.
  intros (H1 & H2 & H3) (G1 & G2 & G3).
  split; [eapply same_shell_trans; eauto|].
  split; [congruence|]. intros k Hk. rewrite G3, H3 by exact Hk. reflexivity.
Qed.

Lemma only_href_differs_same_attrib e e' :
  same_shell e e' -> attrib_of e' = attrib_of e -> only_href_differs e e'.
Proof.
  intros Hs Ha. split; [exact Hs|]. rewrite Ha. split; [reflexivity|]. intros; reflexivity.
Qed.

(** What [anchor.attrib[k] = v] at position [q] does to the element at
    any position [p]. *)
Lemma element_at_set_attrib_at p : forall root q k v e,
  element_at root p = Some e ->
  exists e',
    element_at (set_attrib_at root q k v) p = Some e' /\
    same_shell e e' /\
    (p <> q -> attrib_of e' = attrib_of e) /\
    (p = q -> attrib_of e' = attrib_set k v (attrib_of e)).
Proof.
  induction p as [|j p IH]; intros root q k v e Hat.
  - simpl in Hat. injection Hat as <-. destruct root as [t a x cs tl].
    destruct q as [|i q]; simpl.
    + eexists. split; [reflexivity|]. split; [repeat split|].
      split; [intros H; contradiction|reflexivity].
    + destruct (cs !! i) as [c|] eqn:Hc.
      * eexists. split; [reflexivity|].
        split; [repeat split; simpl; apply length_insert|].
        split; [reflexivity|discriminate].
      * eexists. split; [reflexivity|]. split; [apply same_shell_refl|].
        split; [reflexivity|discriminate].
  - destruct root as [t a x cs tl]. simpl in Hat.
    destruct (cs !! j) as [c|] eqn:Hc; [|discriminate].
    destruct q as [|i q]; simpl.
    + rewrite Hc. exists e. split; [exact Hat|]. split; [apply same_shell_refl|].
      split; [reflexivity|discriminate].
    + destruct (cs !! i) as [ci|] eqn:Hci.
      * simpl. destruct (decide (i = j)) as [->|Hij].
        -- rewrite list_lookup_insert_eq by (eapply lookup_lt_Some; eauto).
           assert (ci = c) by congruence. subst ci.
           destruct (IH c q k v e Hat) as (e' & He' & Hs & Hne & Heq).
           exists e'. split; [exact He'|]. split; [exact Hs|].
           split; [intros Hpq; apply Hne; congruence|intros Hpq; apply Heq; congruence].
        -- rewrite list_lookup_insert_ne by exact Hij. rewrite Hc.
           exists e. split; [exact Hat|]. split; [apply same_shell_refl|].
           split; [reflexivity|intros Hpq; congruence].
      * simpl. rewrite Hc. exists e. split; [exact Hat|].
        split; [apply same_shell_refl|]. split; [reflexivity|].
        intros Hpq. injection Hpq as -> ->. congruence.
Qed.

Section RewriteFrame.
Context {P : Platform}.
Variables (base_dir : string) (mappings : gmap string json).

(** One iteration changes at most the [href] of the anchor it visits. *)
Lemma rewrite_anchor_frame root q root' out :
  rewrite_anchor base_dir mappings root q = (Ok root', out) ->
  forall p e, element_at root p = Some e ->
    exists e', element_at root' p = Some e' /\ only_href_differs e e' /\
      (p <> q \/ attrib_get "href" (attrib_of e) = None -> attrib_of e' = attrib_of e).
Proof.
  intros Hrun p e Hat.
  assert (Hsame : root' = root ->
    exists e', element_at root' p = Some e' /\ only_href_differs e e' /\
      (p <> q \/ attrib_get "href" (attrib_of e) = None -> attrib_of e' = attrib_of e)).
  { intros ->. exists e. split; [exact Hat|].
    split; [apply only_href_differs_refl|reflexivity]. }
  unfold rewrite_anchor in Hrun.
  destruct (element_at root q) as [anchor|] eqn:Hq; [|injection Hrun as <- _; auto].
  destruct (attrib_get "href" (attrib_of anchor)) as [h|] eqn:Hh;
    [|injection Hrun as <- _; auto].
  destruct (urlparse_path h) as [path|]; [|discriminate].
  destruct (dict_get mappings (relative_path_of base_dir path)) as [page_id|];
    [|injection Hrun as <- _; auto].
  injection Hrun as <- _.
  destruct (element_at_set_attrib_at p root q "href"
              (str_replace path (viewpage_url page_id) h) e Hat)
    as (e' & He' & Hs & Hne & Heq).
  exists e'. split; [exact He'|].
  destruct (decide (p = q)) as [->|Hpq].
  - assert (e = anchor) by congruence. subst e.
    specialize (Heq eq_refl). split.
    + split; [exact Hs|]. rewrite Heq. split.
      * eapply attrib_set_names; eauto.
      * intros k Hk. apply attrib_get_set_ne. exact Hk.
    + intros [Hne'|Hnone]; [contradiction|congruence].
  - split; [apply only_href_differs_same_attrib; auto|]. intros _. auto.
Qed.

(** The loop changes at most the [href] values of the anchors it visits. *)
Lemma rewrite_anchors_frame anchors : forall root root' out,
  rewrite_anchors base_dir mappings anchors root = (Ok root', out) ->
  forall p e, element_at root p = Some e ->
    exists e', element_at root' p = Some e' /\ only_href_differs e e' /\
      (p ∉ anchors \/ attrib_get "href" (attrib_of e) = None -> attrib_of e' = attrib_of e).
Proof.
  induction anchors as [|q rest IH]; intros root root' out Hrun p e Hat; simpl in Hrun.
  - injection Hrun as <- _. exists e. split; [exact Hat|].
    split; [apply only_href_differs_refl|reflexivity].
  - destruct (rewrite_anchor base_dir mappings root q) as [[root1| |] out1] eqn:Hq;
      try discriminate.
    destruct (rewrite_anchors base_dir mappings rest root1) as [r out2] eqn:Hrest.
    injection Hrun as -> _.
    destruct (rewrite_anchor_frame _ _ _ _ Hq p e Hat) as (e1 & He1 & Hd1 & Hk1).
    destruct (IH _ _ _ Hrest p e1 He1) as (e' & He' & Hd' & Hk').
    exists e'. split; [exact He'|].
    split; [eapply only_href_differs_trans; eauto|].
    intros Hcase.
    assert (Ha1 : attrib_of e1 = attrib_of e).
    { apply Hk1. destruct Hcase as [Hnot|Hnone]; [left|right; exact Hnone].
      intros ->. apply Hnot. apply list_elem_of_here. }
    rewrite <- Ha1. apply Hk'.
    destruct Hcase as [Hnot|Hnone].
    + left. intros Hin. apply Hnot. apply list_elem_of_further. exact Hin.
    + right. rewrite Ha1. exact Hnone.
Qed.

End RewriteFrame.

(** [transform_links] changes nothing of the parsed tree but [href]
    values: every element keeps its place, tag, text, tail, number of
    children, attribute names and every attribute value other than
    [href]; an element that is no [a.xref] anchor, or has no [href],
    keeps all its attributes. *)
Theorem transform_links_changes_only_hrefs {P : Platform}
    (base_dir content : string) (mappings : gmap string json)
    (root : element) (out : string) :
  fragment_fromstring content = Some root ->
  fst (transform_links base_dir content mappings) = Ok out ->
  exists root',
    out = serialize_children root' /\
    forall p e, element_at root p = Some e ->
      exists e', element_at root' p = Some e' /\ only_href_differs e e' /\
        (is_xref_anchor e = false \/ attrib_get "href" (attrib_of e) = None ->
         attrib_of e' = attrib_of e).
Proof.
  intros Hparse Hrun. unfold transform_links in Hrun. rewrite Hparse in Hrun.
  destruct (rewrite_anchors base_dir mappings (cssselect_xref root) root)
    as [[root'| |] printed] eqn:Hloop; simpl in Hrun; try discriminate.
  injection Hrun as <-. exists root'. split; [reflexivity|].
  intros p e Hat.
  destruct (rewrite_anchors_frame base_dir mappings _ _ _ _ Hloop p e Hat)
    as (e' & He' & Hd & Hk).
  exists e'. split; [exact He'|]. split; [exact Hd|].
  intros [Hno|Hnone]; apply Hk; [left|right; exact Hnone].
  intros Hin. destruct (cssselect_xref_sound root p Hin) as (e0 & He0 & Hx).
  congruence.
Qed.

Lemma transform_links_changes_only_hrefs_witness :
  exists root',
    @serialize_children link_platform (fragment EmptyString [anchor_c_rewritten])
      = @serialize_children link_platform root' /\
    forall p e, element_at (fragment EmptyString [anchor_c]) p = Some e ->
      exists e', element_at root' p = Some e' /\ only_href_differs e e' /\
        (is_xref_anchor e = false \/ attrib_get "href" (attrib_of e) = None ->
         attrib_of e' = attrib_of e).
Proof.
  apply (@transform_links_changes_only_hrefs link_platform "" anchor_c_markup
           {["/c.html" := JNum 42]}).
  - reflexivity.
  - vm_compute. reflexivity.
Defined.

(* ===================================================================== *)
(** * The selection visits every anchor once *)
(* ===================================================================== *)

Lemma select_children_heads cs : forall n q,
  q ∈ select_children n cs -> exists i q', q = i :: q' /\ (n <= i)%nat.
Proof.
  intros n q Hin. destruct (select_children_inv cs n q Hin) as (i & c & q' & -> & _ & _).
  exists (n + i)%nat, q'. split; [reflexivity|lia].
Qed.

Lemma select_children_NoDup cs :
  Forall (fun c => NoDup (cssselect_xref c)) cs ->
  forall n, NoDup (select_children n cs).
Proof.
  induction 1 as [|c cs Hc Hcs IH]; intros n; simpl; [constructor|].
  apply NoDup_app. split; [|split].
  - apply NoDup_fmap_2; [|exact Hc]. intros a b Hab. congruence.
  - intros q Hq1 Hq2. apply list_elem_of_fmap in Hq1 as (q0 & -> & _).
    apply select_children_heads in Hq2 as (i & q' & Heq & Hle).
    injection Heq as -> _. lia.
  - apply IH.
Qed.

Lemma cssselect_xref_NoDup root : NoDup (cssselect_xref root).
Proof.
  induction root as [t a x cs tl IH] using element_nested_ind.
  rewrite cssselect_xref_unfold. simpl getchildren.
  apply NoDup_app. split; [|split].
  - destruct (is_xref_anchor _); [apply NoDup_singleton|constructor].
  - intros q Hq1 Hq2. apply select_children_heads in Hq2 as (i & q' & -> & _).
    destruct (is_xref_anchor _).
    + apply list_elem_of_singleton in Hq1. discriminate.
    + inversion Hq1.
  - apply select_children_NoDup. exact IH.
Qed.

Section RewriteMapped.
Context {P : Platform}.
Variables (base_dir : string) (mappings : gmap string json).

Lemma rewrite_anchors_sets_href anchors : forall root p anchor h path page_id root' out,
  NoDup anchors -> p ∈ anchors ->
  element_at root p = Some anchor ->
  attrib_get "href" (attrib_of anchor) = Some h ->
  urlparse_path h = Some path ->
  dict_get mappings (relative_path_of base_dir path) = Some page_id ->
  rewrite_anchors base_dir mappings anchors root = (Ok root', out) ->
  exists anchor',
    element_at root' p = Some anchor' /\
    attrib_get "href" (attrib_of anchor')
      = Some (str_replace path (viewpage_url page_id) h).
Proof.
  induction anchors as [|q rest IH];
    intros root p anchor h path page_id root' out Hnd Hin Hat Hh Hpath Hid Hrun.
  - inversion Hin.
  - simpl in Hrun.
    destruct (rewrite_anchor base_dir mappings root q) as [[root1| |] out1] eqn:Hq;
      try discriminate.
    destruct (rewrite_anchors base_dir mappings rest root1) as [r out2] eqn:Hrest.
    injection Hrun as -> _.
    apply NoDup_cons in Hnd as [Hfresh Hnd].
    destruct (decide (p = q)) as [->|Hpq].
    + unfold rewrite_anchor in Hq. rewrite Hat, Hh, Hpath, Hid in Hq.
      injection Hq as <- _.
      destruct (element_at_set_attrib_at q root q "href"
                  (str_replace path (viewpage_url page_id) h) anchor Hat)
        as (a1 & Ha1 & _ & _ & Heq).
      specialize (Heq eq_refl).
      destruct (rewrite_anchors_frame base_dir mappings rest _ _ _ Hrest q a1 Ha1)
        as (a2 & Ha2 & _ & Hkeep).
      exists a2. split; [exact Ha2|].
      rewrite Hkeep by (left; exact Hfresh). rewrite Heq. apply attrib_get_set_eq.
    + apply elem_of_cons in Hin as [Heq|Hin]; [contradiction|].
      destruct (rewrite_anchor_frame base_dir mappings _ _ _ _ Hq p anchor Hat)
        as (a1 & Ha1 & _ & Hkeep).
      specialize (Hkeep (or_introl Hpq)).
      eapply (IH root1 p a1 h path page_id); eauto. rewrite Hkeep. exact Hh.
Qed.

End RewriteMapped.

(** An [a.xref] anchor whose path is in the table leaves [transform_links]
    with its [href] replaced by [href.replace(path, viewer URL of the
    page)], whatever the other anchors of the page are. *)
Theorem mapped_link_points_to_page {P : Platform}
    (base_dir content : string) (mappings : gmap string json)
    (root anchor : element) (p : position) (h path out : string) (page_id : json) :
  fragment_fromstring content = Some root ->
  element_at root p = Some anchor ->
  is_xref_anchor anchor = true ->
  attrib_get "href" (attrib_of anchor) = Some h ->
  urlparse_path h = Some path ->
  dict_get mappings (relative_path_of base_dir path) = Some page_id ->
  fst (transform_links base_dir content mappings) = Ok out ->
  exists root' anchor',
    out = serialize_children root' /\
    element_at root' p = Some anchor' /\
    attrib_get "href" (attrib_of anchor')
      = Some (str_replace path (viewpage_url page_id) h).
Proof.
  intros Hparse Hat Hx Hh Hpath Hid Hrun.
  unfold transform_links in Hrun. rewrite Hparse in Hrun.
  destruct (rewrite_anchors base_dir mappings (cssselect_xref root) root)
    as [[root'| |] printed] eqn:Hloop; simpl in Hrun; try discriminate.
  injection Hrun as <-.
  destruct (rewrite_anchors_sets_href base_dir mappings (cssselect_xref root)
              root p anchor h path page_id root' printed) as (anchor' & Ha' & Hh');
    auto using cssselect_xref_NoDup.
  { eapply cssselect_xref_complete; eauto. }
  exists root', anchor'. auto.
Qed.

Lemma mapped_link_points_to_page_witness :
  exists root' anchor',
    @serialize_children link_platform (fragment EmptyString [anchor_c_rewritten])
      = @serialize_children link_platform root' /\
    element_at root' [0%nat] = Some anchor' /\
    attrib_get "href" (attrib_of anchor')
      = Some (str_replace "/c.html" (viewpage_url (JNum 42)) "/c.html#frag").
Proof.
  apply (@mapped_link_points_to_page link_platform "" anchor_c_markup
           {["/c.html" := JNum 42]} (fragment EmptyString [anchor_c]) anchor_c).
  - reflexivity.
  - reflexivity.
  - reflexivity.
  - reflexivity.
  - reflexivity.
  - vm_compute. reflexivity.
  - vm_compute. reflexivity.
Defined.

(* ===================================================================== *)
(** * Replacing the path inside the link *)
(* ===================================================================== *)

Lemma prefix_app_self a b : String.prefix a (a +:+ b) = true.
Proof.
  induction a as [|c a IH]; simpl; [destruct b; reflexivity|].
  destruct (ascii_dec c c); [exact IH|contradiction].
Qed.

Lemma replace_scan_drop old new t s :
  replace_scan old new (String.length t) (t +:+ s)
    = match s with
      | EmptyString => EmptyString
      | _ => replace_scan old new 0 s
      end.
Proof.
  induction t as [|c t IH]; simpl.
  - destruct s; reflexivity.
  - exact IH.
Qed.

Lemma replace_scan_absent old new s :
  str_contains old s = false -> replace_scan old new 0 s = s.
Proof.
  induction s as [|c s IH]; [reflexivity|].
  intros Habs.
  change (str_contains old (String c s))
    with (String.prefix old (String c s) || str_contains old s) in Habs.
  apply orb_false_iff in Habs as [Hpre Hrest].
  change (replace_scan old new 0 (String c s))
    with (if String.prefix old (String c s)
          then new +:+ replace_scan old new (String.length old - 1) s
          else String c (replace_scan old new 0 s)).
  rewrite Hpre, IH by exact Hrest. reflexivity.
Qed.

Lemma str_replace_prefix old new s :
  old <> EmptyString ->
  str_replace old new (old +:+ s) = new +:+ str_replace old new s.
Proof.
  intros Hold. destruct old as [|c old]; [contradiction|].
  unfold str_replace.
  change (replace_scan (String c old) new 0 (String c old +:+ s))
    with (if String.prefix (String c old) (String c (old +:+ s))
          then new +:+ replace_scan (String c old) new
                         (String.length (String c old) - 1) (old +:+ s)
          else String c (replace_scan (String c old) new 0 (old +:+ s))).
  change (String c (old +:+ s)) with (String c old +:+ s).
  rewrite prefix_app_self.
  replace (String.length (String c old) - 1)%nat with (String.length old)
    by (simpl; lia).
  rewrite replace_scan_drop. destruct s; reflexivity.
Qed.

(** When the link starts with its path and the path does not occur in
    what follows it (query, fragment), the rewritten link is the viewer
    URL of the page followed by that remainder, unchanged. *)
Theorem rewritten_link_keeps_suffix (path suffix : string) (page_id : json) :
  path <> EmptyString ->
  str_contains path suffix = false ->
  str_replace path (viewpage_url page_id) (path +:+ suffix)
    = viewpage_url page_id +:+ suffix.
Proof.
  intros Hpath Habs. rewrite str_replace_prefix by exact Hpath. f_equal.
  destruct path; [contradiction|]. apply replace_scan_absent. exact Habs.
Qed.

Lemma rewritten_link_keeps_suffix_witness :
  str_replace "sub/b.html" (viewpage_url (JNum 7)) ("sub/b.html" +:+ "#top")
    = viewpage_url (JNum 7) +:+ "#top".
Proof.
  apply (rewritten_link_keeps_suffix "sub/b.html" "#top" (JNum 7)).
  - discriminate.
  - reflexivity.
Defined.

(* ===================================================================== *)
(** * What the link rewriter prints *)
(* ===================================================================== *)

Section RewriteWarnings.
Context {P : Platform}.
Variables (base_dir : string) (mappings : gmap string json).

(** A line the rewriter may print: the warning for a path the table does
    not map. *)
Let unmapped_warning (line : string) : Prop :=
  exists path,
    line = warn_no_xref (relative_path_of base_dir path) /\
    dict_get mappings (relative_path_of base_dir path) = None.

Lemma rewrite_anchor_warns root p :
  Forall unmapped_warning (snd (rewrite_anchor base_dir mappings root p)) /\
  (length (snd (rewrite_anchor base_dir mappings root p)) <= 1)%nat.
Proof.
  unfold rewrite_anchor.
  destruct (element_at root p) as [anchor|]; [|simpl; auto].
  destruct (attrib_get "href" (attrib_of anchor)) as [h|]; [|simpl; auto].
  destruct (urlparse_path h) as [path|]; [|simpl; auto].
  destruct (dict_get mappings (relative_path_of base_dir path)) eqn:Hid; [simpl; auto|].
  simpl. split; [|lia]. constructor; [|constructor]. exists path. auto.
Qed.

Lemma rewrite_anchors_warns anchors : forall root,
  Forall unmapped_warning (snd (rewrite_anchors base_dir mappings anchors root)) /\
  (length (snd (rewrite_anchors base_dir mappings anchors root)) <= length anchors)%nat.
Proof.
  induction anchors as [|p rest IH]; intros root; simpl; [auto|].
  pose proof (rewrite_anchor_warns root p) as [Hw Hl].
  destruct (rewrite_anchor base_dir mappings root p) as [[root1| |] out1];
    simpl in Hw, Hl |- *; try (split; [exact Hw|lia]).
  specialize (IH root1) as [Hw' Hl'].
  destruct (rewrite_anchors base_dir mappings rest root1) as [r out2];
    simpl in Hw', Hl' |- *.
  split; [apply Forall_app; auto|]. rewrite length_app. lia.
Qed.

End RewriteWarnings.

(** [transform_links] prints nothing but warnings for link paths the
    table does not map: a link it rewrites, an anchor without [href] and
    a failure of the parser print nothing. *)
Theorem transform_links_prints_only_warnings {P : Platform}
    (base_dir content : string) (mappings : gmap string json) :
  Forall (fun line => exists path,
            line = warn_no_xref (relative_path_of base_dir path) /\
            dict_get mappings (relative_path_of base_dir path) = None)
         (snd (transform_links base_dir content mappings)).
Proof.
  unfold transform_links.
  destruct (fragment_fromstring content) as [root|]; [|constructor].
  pose proof (rewrite_anchors_warns base_dir mappings (cssselect_xref root) root)
    as [Hw _].
  destruct (rewrite_anchors base_dir mappings (cssselect_xref root) root) as [r out].
  exact Hw.
Qed.

(* ===================================================================== *)
(** * Refusals met by the client *)
(* ===================================================================== *)

(** When the reply to the creation request carries no [id],
    [create_page] stops there: it raises the reply's [message] (a
    [KeyError] when the reply has none) and sends no property request. *)
Theorem create_reports_refusal {R : Remote}
    (space_key title content docfx_uid docfx_href : string) (w : world)
    (response : json) (s1 : remote_state) :
  handle (create_request space_key title content) (server w)
    = (JsonBody response, s1) ->
  contains "id" response = Ok false ->
  create_page space_key title content docfx_uid docfx_href w =
    (obind (getitem response "message") (fun m => Raise (PyException m)),
     World s1 (sent w ++ [create_request space_key title content]) (stdout w)).
Proof.
  intros Hcreate Hid. unfold create_page.
  erewrite bind_ok by (apply post_json_eq; exact Hcreate).
  unfold bind at 1, lift at 1. rewrite Hid. cbn [negb].
  rewrite raise_message_eq. destruct (getitem response "message"); reflexivity.
Qed.

Lemma create_reports_refusal_witness :
  @create_page readonly_remote "TEST" "T" "c" "a" "a.html" (@start readonly_remote []) =
    (obind (getitem (JObj [("message", JStr "Read only")]) "message")
           (fun m => Raise (PyException m)),
     @World readonly_remote [] ([] ++ [create_request "TEST" "T" "c"]) []).
Proof.
  apply (@create_reports_refusal readonly_remote "TEST" "T" "c" "a" "a.html"
           (@start readonly_remote []) (JObj [("message", JStr "Read only")]) []).
  - reflexivity.
  - reflexivity.
Defined.

(** When the fetched page carries no [id] (the page does not exist),
    [update_page] stops there: it raises the reply's [message] and
    submits nothing. *)
Theorem update_reports_missing_page {R : Remote}
    (page_id : json) (title content docfx_uid docfx_href : string) (w : world)
    (response : json) (s1 : remote_state) :
  handle (GET (UContentId page_id)) (server w) = (JsonBody response, s1) ->
  contains "id" response = Ok false ->
  update_page page_id title content docfx_uid docfx_href w =
    (obind (getitem response "message") (fun m => Raise (PyException m)),
     World s1 (sent w ++ [GET (UContentId page_id)]) (stdout w)).
Proof.
  intros Hget Hid. unfold update_page.
  rewrite (bind_ok _ _ _ _ _ (get_json_eq _ _ _ _ Hget)).
  unfold bind at 1, lift at 1. rewrite Hid. cbn [negb].
  rewrite raise_message_eq. destruct (getitem response "message"); reflexivity.
Qed.

Lemma update_reports_missing_page_witness :
  @update_page store_remote (JNum 5) "T" "c" "a" "a.html" (@start store_remote []) =
    (obind (getitem (JObj [("message", JStr "No content found")]) "message")
           (fun m => Raise (PyException m)),
     @World store_remote [] ([] ++ [GET (UContentId (JNum 5))]) []).
Proof.
  apply (@update_reports_missing_page store_remote (JNum 5) "T" "c" "a" "a.html"
           (@start store_remote []) (JObj [("message", JStr "No content found")]) []).
  - reflexivity.
  - reflexivity.
Defined.

Lemma update_raises_on_refused_submission_witness :
  @update_page readonly_remote (JNum 0) "T" "c" "a" "a.html"
     (@start readonly_remote [page_a 3]) =
    (Raise (PyException (JStr "Read only")),
     @World readonly_remote [page_a 3]
       ([] ++ [GET (UContentId (JNum 0));
               PUT (UContentId (JNum 0))
                   (update_document (JNum 0) "T" (JStr "DOCS") "c" (JNum 4))]) []).
Proof.
  apply (@update_raises_on_refused_submission readonly_remote (JNum 0) "T" "c"
           "a" "a.html" (@start readonly_remote [page_a 3])
           (page_json 0 (page_a 3)) (JNum 3) (JStr "DOCS") (JNum 4) [page_a 3])
    with (submitted := JObj [("message", JStr "Read only")]).
  - reflexivity.
  - split; [reflexivity|]. split; reflexivity.
  - reflexivity.
  - reflexivity.
  - reflexivity.
  - reflexivity.
Defined.

Lemma update_raises_on_refused_delete_witness :
  @update_page store_remote (JNum 0) "T" "c" "a" "a.html"
     (@start store_remote [bare_page 3]) =
    (Raise (PyException (JStr "No such property")),
     @World store_remote
       [Page (JStr "T") (JStr "DOCS") (storage_body (JStr "c")) 4 None]
       ([] ++ [GET (UContentId (JNum 0));
               PUT (UContentId (JNum 0))
                   (update_document (JNum 0) "T" (JStr "DOCS") "c" (JNum 4));
               DELETE (UPropertyDocfx (JNum 0))]) []).
Proof.
  apply (@update_raises_on_refused_delete store_remote (JNum 0) "T" "c"
           "a" "a.html" (@start store_remote [bare_page 3])
           (page_json 0 (bare_page 3)) (JNum 3) (JStr "DOCS") (JNum 4) [bare_page 3])
    with (submitted :=
            page_json 0 (Page (JStr "T") (JStr "DOCS") (storage_body (JStr "c")) 4 None))
         (s2 := [Page (JStr "T") (JStr "DOCS") (storage_body (JStr "c")) 4 None])
         (removed := JObj [("message", JStr "No such property")]).
  - reflexivity.
  - split; [reflexivity|]. split; reflexivity.
  - reflexivity.
  - reflexivity.
  - reflexivity.
  - reflexivity.
  - reflexivity.
  - reflexivity.
Defined.

(** An update leaves the page ready for the next one: against a wiki that
    honours its interface, two updates of a page with metadata both
    succeed, the version advances by two and the page ends with the
    content and the metadata of the second. *)
Theorem update_is_repeatable (i : nat) (p : page)
    (t1 c1 u1 h1 t2 c2 u2 h2 : string) (w : @world store_remote) :
  server w !! i = Some p ->
  is_Some (page_docfx p) ->
  exists w1 w2 p2,
    update_page (JNum (Z.of_nat i)) t1 c1 u1 h1 w = (Ok (JNum (Z.of_nat i)), w1) /\
    update_page (JNum (Z.of_nat i)) t2 c2 u2 h2 w1 = (Ok (JNum (Z.of_nat i)), w2) /\
    server w2 !! i = Some p2 /\
    page_version p2 = page_version p + 2 /\
    page_body p2 = storage_body (JStr c2) /\
    page_docfx p2 = Some (docfx_value u2 h2) /\
    length (server w2) = length (server w).
Proof.
  intros Hp Hdocfx.
  pose proof (store_update_page i p t1 c1 u1 h1 w Hp Hdocfx) as H1.
  eexists.
  assert (Hp1 : (<[i := updated_page p t1 c1 u1 h1]> (server w) : store) !! i
                = Some (updated_page p t1 c1 u1 h1)).
  { apply list_lookup_insert_eq. eapply lookup_lt_Some; eauto. }
  match type of H1 with _ = (_, ?w1) =>
    pose proof (store_update_page i (updated_page p t1 c1 u1 h1) t2 c2 u2 h2 w1
                  Hp1 (ltac:(simpl; eauto))) as H2 end.
  eexists. exists (updated_page (updated_page p t1 c1 u1 h1) t2 c2 u2 h2).
  split; [exact H1|]. split; [exact H2|].
  cbn [server]. split.
  - apply list_lookup_insert_eq. eapply lookup_lt_Some. exact Hp1.
  - split; [simpl; lia|]. split; [reflexivity|]. split; [reflexivity|].
    etrans; [apply length_insert|apply length_insert].
Qed.

Lemma update_is_repeatable_witness :
  exists w1 w2 p2,
    @update_page store_remote (JNum (Z.of_nat 0)) "T" "c" "a" "a.html"
       (@start store_remote [page_a 3]) = (Ok (JNum (Z.of_nat 0)), w1) /\
    @update_page store_remote (JNum (Z.of_nat 0)) "T" "d" "a" "a.html" w1
       = (Ok (JNum (Z.of_nat 0)), w2) /\
    server w2 !! 0%nat = Some p2 /\
    page_version p2 = page_version (page_a 3) + 2 /\
    page_body p2 = storage_body (JStr "d") /\
    page_docfx p2 = Some (docfx_value "a" "a.html") /\
    length (server w2) = length (server (@start store_remote [page_a 3])).
Proof.
  apply (update_is_repeatable 0 (page_a 3) "T" "c" "a" "a.html" "T" "d" "a" "a.html"
           (@start store_remote [page_a 3])).
  - reflexivity.
  - simpl. eauto.
Defined.

(* ===================================================================== *)
(** * The listing loop *)
(* ===================================================================== *)

Section ListingLoop.
Context {R : Remote}.

Lemma listing_sends_pages fuel : forall offset mappings w,
  exists n s',
    (n <= fuel)%nat /\
    snd (get_confluence_mappings_from fuel offset mappings w)
      = World s' (sent w ++ listing_requests n offset)%list (stdout w).
Proof.
  induction fuel as [|fuel IH]; intros offset mappings w.
  - exists 0%nat, (server w). simpl. rewrite app_nil_r. destruct w; auto.
  - cbn [get_confluence_mappings_from]. unfold get_json.
    rewrite bind_assoc. unfold bind at 1. unfold send.
    destruct (handle (GET (UContentList offset step)) (server w)) as [rep s'].
    set (w1 := World s' (sent w ++ [GET (UContentList offset step)]) (stdout w)).
    assert (Hone : forall r : (outcome (list entry) * world)%type,
              snd r = w1 ->
              exists n s'', (n <= S fuel)%nat /\
                snd r = World s'' (sent w ++ listing_requests n offset)%list (stdout w)).
    { intros r ->. exists 1%nat, s'. split; [lia|]. reflexivity. }
    destruct rep as [results| |]; try (apply Hone; reflexivity).
    unfold bind at 1. unfold ret at 1.
    unfold bind at 1, lift at 1.
    destruct (getitem results "size") as [size| |]; try (apply Hone; reflexivity).
    destruct (py_eq_zero size); [apply Hone; reflexivity|].
    unfold bind at 1, lift at 1.
    destruct (getitem results "results") as [found| |]; try (apply Hone; reflexivity).
    unfold bind at 1, lift at 1.
    destruct (py_iter found) as [items| |]; try (apply Hone; reflexivity).
    unfold bind at 1, lift at 1.
    destruct (collect_results items mappings) as [mappings'| |];
      try (apply Hone; reflexivity).
    destruct (IH (offset + step) mappings' w1) as (n & s'' & Hn & Hsnd).
    exists (S n), s''. split; [lia|]. rewrite Hsnd. simpl.
    rewrite <- app_assoc. reflexivity.
Qed.

Lemma listing_goes_on fuel : forall offset mappings w,
  (forall offset s, exists results s',
     handle (GET (UContentList offset step)) s = (JsonBody results, s') /\
     goes_on results) ->
  fst (get_confluence_mappings_from fuel offset mappings w) = OutOfFuel.
Proof.
  induction fuel as [|fuel IH]; intros offset mappings w Hremote; [reflexivity|].
  destruct (Hremote offset (server w))
    as (results & s' & Hh & size & found & items & Hsize & Hnz & Hfound & Hiter & Hcollect).
  destruct (Hcollect mappings) as [mappings' Hm].
  cbn [get_confluence_mappings_from].
  rewrite (bind_ok _ _ _ _ _ (get_json_eq _ _ _ _ Hh)).
  unfold bind at 1, lift at 1. rewrite Hsize, Hnz.
  unfold bind at 1, lift at 1. rewrite Hfound.
  unfold bind at 1, lift at 1. rewrite Hiter.
  unfold bind at 1, lift at 1. rewrite Hm.
  apply IH. exact Hremote.
Qed.

End ListingLoop.

(** [get_confluence_mappings] only reads: whatever the wiki answers, the
    requests it sends are listing requests of [step] pages at the offsets
    0, 50, 100, ..., in this order, and it prints nothing. *)
Theorem listing_sends_consecutive_pages {R : Remote} (fuel : nat) (w : world) :
  exists n,
    (n <= fuel)%nat /\
    sent (snd (get_confluence_mappings fuel w)) = (sent w ++ listing_requests n 0)%list /\
    stdout (snd (get_confluence_mappings fuel w)) = stdout w.
Proof.
  destruct (listing_sends_pages fuel 0 [] w) as (n & s' & Hn & Hsnd).
  exists n. unfold get_confluence_mappings. rewrite Hsnd. auto.
Qed.

(** The listing loop ends on an empty page only: against a wiki that
    answers every listing request with a page the loop goes on after,
    [get_confluence_mappings] does not return, however many turns it is
    given. *)
Theorem listing_ends_on_empty_page_only {R : Remote} (fuel : nat) (w : world) :
  (forall offset s, exists results s',
     handle (GET (UContentList offset step)) s = (JsonBody results, s') /\
     goes_on results) ->
  fst (get_confluence_mappings fuel w) = OutOfFuel.
Proof. intros Hremote. apply listing_goes_on. exact Hremote. Qed.

Lemma listing_ends_on_empty_page_only_witness :
  fst (@get_confluence_mappings endless_remote 7 (@start endless_remote tt)) = OutOfFuel.
Proof.
  apply (@listing_ends_on_empty_page_only endless_remote 7 (@start endless_remote tt)).
  intros offset s. eexists. exists s. split; [reflexivity|].
  eexists. eexists. eexists.
  split; [reflexivity|]. split; [reflexivity|]. split; [reflexivity|].
  split; [reflexivity|]. intros mappings. exists mappings. reflexivity.
Defined.

Lemma collect_results_legible ps : forall o acc,
  Forall legible ps ->
  collect_results (listed_from o ps) acc = Ok (acc ++ page_entries o ps)%list.
Proof.
  induction ps as [|p ps IH]; intros o acc Hleg; simpl.
  - rewrite app_nil_r. reflexivity.
  - apply Forall_cons in Hleg as [Hp Hps].
    rewrite collect_result_listed. unfold legible in Hp. unfold page_entry.
    destruct (page_docfx p) as [v|].
    + destruct Hp as (c & u & h & Hc & Hu & Hh & _).
      rewrite Hc. cbn [obind]. rewrite Hu. cbn [obind]. rewrite Hh. cbn [obind].
      rewrite IH by exact Hps. rewrite <- app_assoc. reflexivity.
    + cbn [obind]. rewrite IH by exact Hps. reflexivity.
Qed.

(** Against a wiki that honours its interface and whose pages have
    complete metadata or none, the listing returns one entry for each
    page with metadata, in the order of the page ids, however many pages
    of results it takes; pages without metadata are skipped and the wiki
    is left as it was. *)
Theorem listing_finds_every_described_page (s : store) :
  Forall legible s ->
  fst (get_confluence_mappings (enough_fuel s) (@start store_remote s))
    = Ok (page_entries 0 s) /\
  server (snd (get_confluence_mappings (enough_fuel s) (@start store_remote s))) = s.
Proof.
  intros Hleg. unfold get_confluence_mappings.
  destruct (store_listing (enough_fuel s) 0 [] (@start store_remote s)) as [gets Hrun].
  { unfold enough_fuel, start. cbn [server]. rewrite length_drop. lia. }
  change (Z.of_nat 0) with 0 in Hrun. rewrite Hrun. simpl. rewrite drop_0.
  split; [|reflexivity]. apply (collect_results_legible s 0%nat []). exact Hleg.
Qed.

Lemma listing_finds_every_described_page_witness :
  fst (get_confluence_mappings
         (enough_fuel (replicate 60 (bare_page 1) ++ [page_a 3])%list)
         (@start store_remote (replicate 60 (bare_page 1) ++ [page_a 3])%list))
    = Ok (page_entries 0 (replicate 60 (bare_page 1) ++ [page_a 3])%list) /\
  server (snd (get_confluence_mappings
                 (enough_fuel (replicate 60 (bare_page 1) ++ [page_a 3])%list)
                 (@start store_remote (replicate 60 (bare_page 1) ++ [page_a 3])%list)))
    = (replicate 60 (bare_page 1) ++ [page_a 3])%list.
Proof.
  apply (listing_finds_every_described_page
           (replicate 60 (bare_page 1) ++ [page_a 3])%list).
  apply Forall_app. split.
  - apply Forall_replicate. exact I.
  - constructor; [|constructor]. simpl.
    exists (JObj [("docfx_uid", JStr "a"); ("docfx_href", JStr "a.html")]),
           (JStr "a"), "a.html".
    split; [reflexivity|]. split; [reflexivity|]. split; reflexivity.
Defined.

(* ===================================================================== *)
(** * The order of a run *)
(* ===================================================================== *)

Section RunPhases.
Context {P : Platform} {R : Remote}.

Lemma survey_lists fuel docfx_mappings :
  emits (fun r => is_listing_request r = true) (survey fuel docfx_mappings).
Proof.
  assert (Hloop : forall fuel offset mappings,
            emits (fun r => is_listing_request r = true)
                  (get_confluence_mappings_from fuel offset mappings)).
  { clear fuel. induction fuel as [|fuel IH]; intros offset mappings; simpl.
    - apply emits_diverge.
    - repeat first [ apply emits_get_json | apply IH | emits_step ]; reflexivity. }
  unfold survey, get_confluence_mappings.
  repeat first
    [ apply Hloop
    | apply emits_for_each; intros; unfold match_existing
    | emits_step ].
Qed.

Lemma create_all_creates ix new_mappings :
  emits (fun r => is_creation_request r = true) (create_all ix new_mappings).
Proof.
  unfold create_all. destruct new_mappings as [|m0 rest]; [apply emits_ret|].
  apply emits_bind; [apply emits_print|]. intros _.
  apply emits_for_each. intros acc m Hm. unfold create_new, create_page.
  repeat first [ apply emits_post_json | emits_step ]; reflexivity.
Qed.

Lemma update_all_updates base_directory ix :
  emits (fun r => is_update_request r = true) (update_all base_directory ix).
Proof.
  unfold update_all. apply emits_for_each. intros [] m _.
  unfold update_existing, update_page.
  repeat first
    [ apply emits_get_json | apply emits_put_json | apply emits_delete_json
    | apply emits_post_json | emits_step ]; reflexivity.
Qed.

End RunPhases.

(** A run proceeds in three phases that do not interleave, however the
    wiki answers and wherever the run stops: first listing requests only,
    then creation requests only (new pages and their properties), then
    update requests only (fetch, submit, delete and attach on existing
    pages). In particular nothing is created once the first update has
    begun, and the wiki is not listed again. *)
Theorem run_proceeds_in_three_phases {P : Platform} {R : Remote}
    (fuel : nat) (args : arguments) (docfx_mappings : list mapping) (w : world) :
  exists listing creating updating,
    sent (snd (main fuel args docfx_mappings w))
      = (sent w ++ listing ++ creating ++ updating)%list /\
    Forall (fun r => is_listing_request r = true) listing /\
    Forall (fun r => is_creation_request r = true) creating /\
    Forall (fun r => is_update_request r = true) updating.
Proof.
  unfold main. unfold bind at 1.
  destruct (survey_lists fuel docfx_mappings w) as (l1 & H1 & Hl1).
  destruct (survey fuel docfx_mappings w) as [[[ix new_mappings]| |] w1];
    simpl in H1;
    try solve [exists l1, [], []; simpl; rewrite app_nil_r; auto].
  unfold bind at 1.
  destruct (create_all_creates ix new_mappings w1) as (l2 & H2 & Hl2).
  destruct (create_all ix new_mappings w1) as [[ix'| |] w2];
    simpl in H2;
    try solve [exists l1, l2, []; simpl; rewrite app_nil_r, H2, H1, app_assoc; auto].
  destruct (update_all_updates (os_path_dirname (docfx_manifest args)) ix' w2)
    as (l3 & H3 & Hl3).
  exists l1, l2, l3. rewrite H3, H2, H1, <- !app_assoc. auto.
Qed.

(* ===================================================================== *)
(** * What the update pass is given *)
(* ===================================================================== *)

Section UpdateOrder.
Context {P : Platform} {R : Remote}.

Lemma create_loop_appends new_mappings : forall ix w ix' w',
  for_each create_new new_mappings ix w = (Ok ix', w') ->
  map uid (existing_mappings ix')
    = (map uid (existing_mappings ix) ++ map uid new_mappings)%list /\
  (Forall (fun m => is_Some (confluence_id m)) (existing_mappings ix) ->
   Forall (fun m => is_Some (confluence_id m)) (existing_mappings ix')).
Proof.
  induction new_mappings as [|m rest IH]; intros ix w ix' w' Hrun; simpl in Hrun.
  - injection Hrun as <- _. rewrite app_nil_r. auto.
  - unfold bind in Hrun.
    destruct (create_new ix m w) as [[ix1| |] w1] eqn:Hm; try discriminate.
    destruct (create_new_ok _ _ _ _ _ Hm) as [i ->].
    destruct (IH _ _ _ _ Hrun) as [Huids Hids]. cbn [existing_mappings] in Huids, Hids.
    split.
    + rewrite Huids, map_app, <- app_assoc. reflexivity.
    + intros Hall. apply Hids. apply Forall_app. split; [exact Hall|].
      constructor; [|constructor]. simpl. eauto.
Qed.

Lemma matched_have_ids (table : gmap string json) docfx_mappings :
  Forall (fun m => is_Some (confluence_id m)) (matched table docfx_mappings).
Proof.
  apply Forall_forall. intros m' Hm'.
  destruct (matched_inv table docfx_mappings m' Hm') as (m & i & _ & _ & ->).
  simpl. eauto.
Qed.

End UpdateOrder.

(** The update pass is given first the references found in the wiki, in
    the order of the cross-reference map, then the references created in
    this run, in that order; every one of them carries a page id. *)
Theorem update_pass_order {P : Platform} {R : Remote}
    (fuel : nat) (docfx_mappings new_mappings : list mapping)
    (ix ix' : index) (w w1 w2 : world) :
  survey fuel docfx_mappings w = (Ok (ix, new_mappings), w1) ->
  create_all ix new_mappings w1 = (Ok ix', w2) ->
  map uid (existing_mappings ix')
    = (map uid (matched (docfx_uid_to_confluence_id ix) docfx_mappings)
       ++ map uid (filter (fun m => is_new (docfx_uid_to_confluence_id ix) m = true)
                          docfx_mappings))%list /\
  Forall (fun m => is_Some (confluence_id m)) (existing_mappings ix').
Proof.
  intros Hsurvey Hcreate.
  destruct (survey_ok _ _ _ _ _ _ Hsurvey)
    as (entries & w0 & _ & _ & _ & Hloop & ->).
  destruct (match_existing_loop (docfx_uid_to_confluence_id ix) docfx_mappings [] w0)
    as [printed Hmatched].
  rewrite Hmatched in Hloop. injection Hloop as Hexisting _. simpl in Hexisting.
  assert (Hids : Forall (fun m => is_Some (confluence_id m)) (existing_mappings ix)).
  { rewrite <- Hexisting. apply matched_have_ids. }
  unfold create_all in Hcreate.
  destruct (filter _ docfx_mappings) as [|m0 rest] eqn:Hnew.
  - injection Hcreate as <- _. rewrite app_nil_r, Hexisting. auto.
  - unfold bind at 1, print at 1 in Hcreate. cbv beta iota in Hcreate.
    destruct (create_loop_appends _ _ _ _ _ Hcreate) as [Huids Hkeep].
    rewrite Huids, Hexisting. auto.
Qed.

Lemma update_pass_order_witness :
  map uid (existing_mappings created_index)
    = (map uid (matched (docfx_uid_to_confluence_id surveyed_index) [unit_a; unit_b])
       ++ map uid (filter (fun m => is_new (docfx_uid_to_confluence_id surveyed_index) m
                                    = true)
                          [unit_a; unit_b]))%list /\
  Forall (fun m => is_Some (confluence_id m)) (existing_mappings created_index).
Proof.
  apply (@update_pass_order scenario_platform store_remote 2 [unit_a; unit_b] [unit_b]
           surveyed_index created_index
           (@start store_remote [page_a 3]) (surveyed_world 3) (created_world 3)).
  - apply (scenario_survey 0 3).
  - apply (scenario_creation 3).
Defined.

(* ===================================================================== *)
(** * The creation pass against a wiki that honours its interface *)
(* ===================================================================== *)

Lemma store_create_loop_pages new_mappings : forall ix (w : @world store_remote),
  exists ix' w',
    for_each create_new new_mappings ix w = (Ok ix', w') /\
    server w' = (server w ++ map page_of new_mappings)%list.
Proof.
  induction new_mappings as [|m rest IH]; intros ix w; simpl.
  - exists ix, w. rewrite app_nil_r. auto.
  - destruct (store_create_new ix m w) as (requests & printed & Hm).
    cbv zeta in Hm. unfold bind. rewrite Hm.
    match goal with
    | |- context [for_each create_new rest ?ix1 ?w1] =>
        destruct (IH ix1 w1) as (ix' & w' & Hrest & Hserver)
    end.
    exists ix', w'. split; [exact Hrest|]. rewrite Hserver. cbn [server].
    rewrite <- app_assoc. reflexivity.
Qed.

(** Against a wiki that honours its interface the creation pass
    succeeds and adds one page for each element of the list it is given,
    in order: in space [TEST], with the derived title, the placeholder
    body and the metadata of the reference. The list is taken as it is: a
    reference that occurs twice gets two pages. *)
Theorem creation_adds_one_page_each (ix : index) (new_mappings : list mapping)
    (w : @world store_remote) :
  exists ix' w',
    create_all ix new_mappings w = (Ok ix', w') /\
    server w' = (server w ++ map page_of new_mappings)%list.
Proof.
  unfold create_all. destruct new_mappings as [|m rest].
  - exists ix, w. simpl. rewrite app_nil_r. auto.
  - unfold bind at 1, print at 1. cbv beta iota.
    match goal with
    | |- context [for_each create_new ?l ?ix1 ?w1] =>
        destruct (store_create_loop_pages l ix1 w1) as (ix' & w' & Hrun & Hserver)
    end.
    exists ix', w'. split; [exact Hrun|]. exact Hserver.
Qed.

(* ===================================================================== *)
(** * The lookup tables *)
(* ===================================================================== *)

Lemma uid_table_app l1 l2 acc :
  uid_table (l1 ++ l2) acc = obind (uid_table l1 acc) (uid_table l2).
Proof.
  revert acc. induction l1 as [|e l1 IH]; intros acc; simpl; [reflexivity|].
  destruct (entry_docfx_uid e); auto.
Qed.

Lemma uid_table_untouched entries x : forall acc table,
  uid_table entries acc = Ok table ->
  Forall (fun e => entry_docfx_uid e <> JStr x) entries ->
  table !! x = acc !! x.
Proof.
  induction entries as [|e entries IH]; intros acc table Hrun Hnot; simpl in Hrun.
  - congruence.
  - apply Forall_cons in Hnot as [He Hnot].
    destruct (entry_docfx_uid e) as [| | |s| |] eqn:Hu; try discriminate;
      try (eapply IH; eauto; fail).
    rewrite (IH _ _ Hrun Hnot). apply lookup_insert_ne. congruence.
Qed.

(** When several listed pages carry the same identifier, the identifier
    table maps it to the page listed last. *)
Theorem uid_table_keeps_last_page (before after : list entry) (e : entry)
    (x : string) (acc table : gmap string json) :
  uid_table (before ++ e :: after) acc = Ok table ->
  entry_docfx_uid e = JStr x ->
  Forall (fun e' => entry_docfx_uid e' <> JStr x) after ->
  table !! x = Some (entry_confluence_id e).
Proof.
  intros Hrun Hx Hafter. rewrite uid_table_app in Hrun.
  destruct (uid_table before acc) as [acc1| |]; try discriminate.
  simpl in Hrun. rewrite Hx in Hrun.
  rewrite (uid_table_untouched _ _ _ _ Hrun Hafter). apply lookup_insert_eq.
Qed.

Lemma uid_table_keeps_last_page_witness :
  (<["a" := JNum 2]> (<["b" := JNum 1]> (<["a" := JNum 0]> ∅)) : gmap string json)
    !! "a" = Some (entry_confluence_id (Entry (JNum 2) (JStr "a") (JStr "a.html"))).
Proof.
  apply (uid_table_keeps_last_page
           [Entry (JNum 0) (JStr "a") (JStr "old.html");
            Entry (JNum 1) (JStr "b") (JStr "b.html")]
           [] (Entry (JNum 2) (JStr "a") (JStr "a.html")) "a" ∅).
  - reflexivity.
  - reflexivity.
  - constructor.
Defined.

Lemma href_table_rejects entries e : forall acc,
  e ∈ entries ->
  (forall h, entry_docfx_href e <> JStr h) ->
  href_table entries acc = Raise AttributeError.
Proof.
  induction entries as [|e0 entries IH]; intros acc Hin Hbad; [inversion Hin|].
  simpl. apply elem_of_cons in Hin as [<-|Hin].
  - destruct (entry_docfx_href e); try reflexivity. exfalso. eapply Hbad; eauto.
  - destruct (entry_docfx_href e0); try reflexivity. apply IH; auto.
Qed.

(** A listed page whose [docfx_href] is not a string stops the run right
    after the listing, with [AttributeError]: nothing is printed, created
    or updated. *)
Theorem non_string_href_aborts_run {P : Platform} {R : Remote}
    (fuel : nat) (args : arguments) (docfx_mappings : list mapping)
    (w w1 : world) (entries : list entry) (table : gmap string json) (e : entry) :
  get_confluence_mappings fuel w = (Ok entries, w1) ->
  uid_table entries ∅ = Ok table ->
  e ∈ entries ->
  (forall h, entry_docfx_href e <> JStr h) ->
  main fuel args docfx_mappings w = (Raise AttributeError, w1).
Proof.
  intros Hlist Huid Hin Hbad. unfold main, survey.
  unfold bind at 1. unfold bind at 1. rewrite Hlist.
  unfold bind at 1, lift at 1. rewrite Huid.
  unfold bind at 1, lift at 1. rewrite (href_table_rejects entries e ∅ Hin Hbad).
  reflexivity.
Qed.

Lemma non_string_href_aborts_run_witness :
  @main scenario_platform store_remote 3 scenario_arguments [unit_a; unit_b]
     (@start store_remote [page_with_numeric_href])
    = (Raise AttributeError,
       @World store_remote [page_with_numeric_href]
         [GET (UContentList 0 50); GET (UContentList 50 50)] []).
Proof.
  apply (@non_string_href_aborts_run scenario_platform store_remote 3
           scenario_arguments [unit_a; unit_b]
           (@start store_remote [page_with_numeric_href])
           (@World store_remote [page_with_numeric_href]
              [GET (UContentList 0 50); GET (UContentList 50 50)] [])
           [Entry (JNum 0) (JStr "a") (JNum 1)]
           {["a" := JNum 0]}
           (Entry (JNum 0) (JStr "a") (JNum 1))).
  - reflexivity.
  - reflexivity.
  - apply list_elem_of_here.
  - intros h. discriminate.
Defined.

(* ===================================================================== *)
(** * The local path of a page *)
(* ===================================================================== *)

Lemma str_has_cons c c' s :
  str_has c (String c' s) = bool_decide (c = c') || str_has c s.
Proof. reflexivity. Qed.

Lemma replace_slash_has_no_slash s :
  str_has slash (replace_scan "/" "\" 0 s) = false.
Proof.
  induction s as [|c s IH]; [reflexivity|].
  change (replace_scan "/" "\" 0 (String c s))
    with (if String.prefix "/" (String c s)
          then String "\" (replace_scan "/" "\" 0 s)
          else String c (replace_scan "/" "\" 0 s)).
  destruct (String.prefix "/" (String c s)) eqn:Hpre; rewrite str_has_cons, IH.
  - rewrite orb_false_r. apply bool_decide_eq_false. discriminate.
  - rewrite orb_false_r. apply bool_decide_eq_false. intros <-.
    simpl in Hpre. destruct s; discriminate.
Qed.

(** The file name [main] joins to the base directory holds no slash:
    every slash of the site path is turned into a backslash, so the page
    [sub/b.html] is read from the single name [sub\b.html]. *)
Theorem local_page_path_has_no_slash (page_href : string) :
  str_has slash (str_replace "/" "\" (lstrip [slash] page_href)) = false.
Proof. apply replace_slash_has_no_slash. Qed.

(* ===================================================================== *)
(** * What the listing collects *)
(* ===================================================================== *)

Lemma collect_result_appends mappings result mappings' :
  collect_result mappings result = Ok mappings' ->
  mappings' = mappings \/
  exists e, mappings' = (mappings ++ [e])%list /\
            getitem result "id" = Ok (entry_confluence_id e).
Proof.
  unfold collect_result. intros Hrun.
  destruct (getitem result "metadata") as [metadata| |]; try discriminate.
  cbn [obind] in Hrun.
  destruct (getitem metadata "properties") as [properties| |]; try discriminate.
  cbn [obind] in Hrun.
  destruct (contains "docfx" properties) as [[|]| |]; try discriminate;
    cbn [obind negb] in Hrun; [|injection Hrun as <-; auto].
  destruct (getitem properties "docfx") as [docfx| |]; try discriminate.
  cbn [obind] in Hrun.
  destruct (getitem docfx "value") as [value| |]; try discriminate.
  cbn [obind] in Hrun.
  destruct (getitem value "content") as [content| |]; try discriminate.
  cbn [obind] in Hrun.
  destruct (getitem result "id") as [i| |]; try discriminate.
  cbn [obind] in Hrun.
  destruct (getitem content "docfx_uid") as [u| |]; try discriminate.
  cbn [obind] in Hrun.
  destruct (getitem content "docfx_href") as [h| |]; try discriminate.
  cbn [obind] in Hrun. injection Hrun as <-. right. eexists. split; reflexivity.
Qed.

(** Reading one page of results only appends to the entries collected so
    far: at most one entry for each result, each with the id of a result
    of that page. *)
Theorem collect_results_only_appends (results : list json)
    (mappings mappings' : list entry) :
  collect_results results mappings = Ok mappings' ->
  exists added,
    mappings' = (mappings ++ added)%list /\
    (length added <= length results)%nat /\
    Forall (fun e => exists result,
              result ∈ results /\ getitem result "id" = Ok (entry_confluence_id e))
           added.
Proof.
  revert mappings. induction results as [|result rest IH]; intros mappings Hrun;
    simpl in Hrun.
  - injection Hrun as <-. exists []. rewrite app_nil_r. simpl. auto.
  - destruct (collect_result mappings result) as [mappings1| |] eqn:Hone;
      try discriminate.
    cbn [obind] in Hrun. destruct (IH _ Hrun) as (added & -> & Hlen & Hall).
    assert (Hlater : Forall (fun e => exists r, r ∈ result :: rest /\
                               getitem r "id" = Ok (entry_confluence_id e)) added).
    { eapply Forall_impl; [exact Hall|]. intros e (r & Hr & Hid).
      exists r. split; [apply list_elem_of_further; exact Hr|exact Hid]. }
    destruct (collect_result_appends _ _ _ Hone) as [->|(e & -> & Hid)].
    + exists added. split; [reflexivity|]. split; [simpl; lia|exact Hlater].
    + exists (e :: added). rewrite <- app_assoc. split; [reflexivity|].
      split; [simpl; lia|]. constructor; [|exact Hlater].
      exists result. split; [apply list_elem_of_here|exact Hid].
Qed.

Lemma collect_results_only_appends_witness :
  exists added,
    [Entry (JNum 0) (JStr "a") (JStr "a.html")] = ([] ++ added)%list /\
    (length added <= length [listed_json 0 (page_a 3); listed_json 1 (bare_page 1)])%nat /\
    Forall (fun e => exists result,
              result ∈ [listed_json 0 (page_a 3); listed_json 1 (bare_page 1)] /\
              getitem result "id" = Ok (entry_confluence_id e))
           added.
Proof.
  apply (collect_results_only_appends
           [listed_json 0 (page_a 3); listed_json 1 (bare_page 1)] []
           [Entry (JNum 0) (JStr "a") (JStr "a.html")]).
  reflexivity.
Defined.
